(** * Invoice field extraction (main.py, class SimpleRPA)

    A shallow embedding of [SimpleRPA.extract_invoice_data] and of the
    report part of [SimpleRPA.process_invoices].

    Conventions of the embedding.
    - Python [str] values are [string]s; a character is a code point in
      the range 0..255 (Latin-1), and [isspace], [lower] and the [\d]
      class are Python's on that range.
    - Python [float] is IEEE binary64, here [spec_float] with
      [prec = 53] and [emax = 1024]; [float(s)] rounds to nearest even.
    - Exceptions are values of [exn]; a computation that may raise
      returns a [result]; the methods run in the monad [M], which threads
      the object, the files it may read, the console and the files it
      writes.
    - What pandas and openpyxl do with a workbook is given by an
      [excel_writer], which may raise.
    - Paths are POSIX paths. *)

From Stdlib Require Import ZArith Ascii String List Bool.
From Stdlib Require Import Floats.SpecFloat.
From Stdlib Require Import Numbers.DecimalString.
From stdpp Require Import base option list gmap strings.

Import ListNotations.
Local Open Scope string_scope.
Local Open Scope list_scope.

(** ** Python string primitives *)

Module PyStr.

Definition code (c : ascii) : N := N_of_ascii c.

(** [str.isspace] for one character. *)
Definition isspace (c : ascii) : bool :=
  let n := code c in
  ((9 <=? n) && (n <=? 13) || (28 <=? n) && (n <=? 32)
   || (n =? 133) || (n =? 160))%N.

(** [\d] of the [re] module. *)
Definition isdigit (c : ascii) : bool :=
  let n := code c in ((48 <=? n) && (n <=? 57))%N.

Definition lower_char (c : ascii) : ascii :=
  let n := code c in
  if ((65 <=? n) && (n <=? 90)
      || (192 <=? n) && (n <=? 222) && negb (n =? 215))%N
  then ascii_of_N (n + 32) else c.

(** [s.lower()] *)
Fixpoint lower (s : string) : string :=
  match s with
  | EmptyString => EmptyString
  | String c s' => String (lower_char c) (lower s')
  end.

Fixpoint lstrip (s : string) : string :=
  match s with
  | EmptyString => EmptyString
  | String c s' => if isspace c then lstrip s' else s
  end.

Fixpoint rstrip (s : string) : string :=
  match s with
  | EmptyString => EmptyString
  | String c s' =>
      match rstrip s' with
      | EmptyString => if isspace c then EmptyString else String c EmptyString
      | r => String c r
      end
  end.

(** [s.strip()] *)
Definition strip (s : string) : string := rstrip (lstrip s).

(** [sub in s] *)
Fixpoint contains (sub s : string) : bool :=
  if String.prefix sub s then true
  else match s with
       | EmptyString => false
       | String _ s' => contains sub s'
       end.

(** [s.split(sep)] for a separator of one character. *)
Fixpoint split (sep : ascii) (s : string) : list string :=
  match s with
  | EmptyString => [EmptyString]
  | String c s' =>
      if Ascii.eqb c sep then EmptyString :: split sep s'
      else match split sep s' with
           | p :: ps => String c p :: ps
           | [] => [String c EmptyString]
           end
  end.

(** [s.replace(c, "")] for one character [c]. *)
Fixpoint remove_char (c : ascii) (s : string) : string :=
  match s with
  | EmptyString => EmptyString
  | String d s' =>
      if Ascii.eqb d c then remove_char c s' else String d (remove_char c s')
  end.

(** The longest prefix of [s] whose characters satisfy [p], and the rest. *)
Fixpoint span (p : ascii -> bool) (s : string) : string * string :=
  match s with
  | EmptyString => (EmptyString, EmptyString)
  | String c s' =>
      if p c then let '(a, b) := span p s' in (String c a, b)
      else (EmptyString, s)
  end.

Fixpoint forallb (p : ascii -> bool) (s : string) : bool :=
  match s with
  | EmptyString => true
  | String c s' => p c && forallb p s'
  end.

End PyStr.

(** ** Exceptions *)

(** The exceptions the modelled code can meet; all derive from
    [Exception], so [except Exception] catches each of them. *)
Inductive exn : Type :=
| ValueError
| FileNotFoundError
| PdfError (msg : string)
| WriterError (msg : string).

Inductive result (A : Type) : Type :=
| Ret (a : A)
| Raise (e : exn).
Arguments Ret {A} a.
Arguments Raise {A} e.

(** ** Python floats *)

Module PyFloat.

Definition float : Type := spec_float.
Definition prec : Z := 53.
Definition emax : Z := 1024.

Definition zero : float := S754_zero false.

(** The binary64 number nearest to [m / 10^k], ties to even, for
    [m >= 0]: the value [float] gives to a decimal literal with digits
    [m] and [k] digits after the point. *)
Definition of_decimal (m : Z) (k : nat) : float :=
  match m with
  | Zpos _ =>
      let '(q, e, l) := SFdiv_core_binary prec emax m 0 (10 ^ Z.of_nat k) 0 in
      binary_round_aux prec emax false q e l
  | _ => zero
  end.

Definition digit_val (c : ascii) : Z := Z.of_N (PyStr.code c) - 48.

Fixpoint digits_val (acc : Z) (s : string) : Z :=
  match s with
  | EmptyString => acc
  | String c s' => digits_val (10 * acc + digit_val c) s'
  end.

(** [float(s)] on the strings the amount pattern can produce once the
    commas are removed: digits, then at most one point, then digits.
    Such a string is a float literal exactly when it has a digit;
    otherwise [float] raises [ValueError]. Signs, exponents, [inf],
    [nan], underscores and blanks do not occur in these strings. *)
Definition float_of_str (s : string) : result float :=
  let '(ip, r) := PyStr.span PyStr.isdigit s in
  match r with
  | EmptyString =>
      match ip with
      | EmptyString => Raise ValueError
      | _ => Ret (of_decimal (digits_val 0 ip) 0)
      end
  | String "."%char fp =>
      if PyStr.forallb PyStr.isdigit fp then
        match ip +:+ fp with
        | EmptyString => Raise ValueError
        | ds => Ret (of_decimal (digits_val 0 ds) (String.length fp))
        end
      else Raise ValueError
  | _ => Raise ValueError
  end.

(** [bool(x)]: a float is false exactly when it is a zero. *)
Definition truthy (x : float) : bool :=
  match x with
  | S754_zero _ => false
  | _ => true
  end.

Definition add (x y : float) : float := SFadd prec emax x y.

(** [sum(xs)] for floats: the additions from left to right, starting
    from zero. (CPython 3.12 and later carry an error-compensation term
    along; the model is the plain sum, which they refine.) *)
Definition sum (xs : list float) : float := fold_left add xs zero.

(** *** [format(x, ",.2f")] *)

Definition round_half_even (num den : Z) : Z :=
  let q := (num / den)%Z in
  match (2 * (num mod den) ?= den)%Z with
  | Lt => q
  | Gt => (q + 1)%Z
  | Eq => if Z.even q then q else (q + 1)%Z
  end.

(** [m * 2^e] in hundredths, rounded to the nearest integer, ties to
    even: the digits the [.2f] conversion prints. *)
Definition hundredths (m : positive) (e : Z) : Z :=
  if (0 <=? e)%Z then (Zpos m * 2 ^ e * 100)%Z
  else round_half_even (Zpos m * 100) (2 ^ (- e)).

Definition str_of_Z (n : Z) : string := NilZero.string_of_uint (N.to_uint (Z.to_N n)).

(** The [,] option: a comma before every group of three digits. *)
Fixpoint group3 (s : string) : string :=
  match s with
  | EmptyString => EmptyString
  | String c s' =>
      let r := String.length s' in
      String c (if (0 <? r)%nat && (r mod 3 =? 0)%nat
                then String ","%char (group3 s') else group3 s')
  end.

Definition two_digits (n : Z) : string :=
  if (n <? 10)%Z then "0" +:+ str_of_Z n else str_of_Z n.

Definition format_2f (x : float) : string :=
  let sign (s : bool) := if s then "-" else "" in
  match x with
  | S754_zero s => sign s +:+ "0.00"
  | S754_infinity s => sign s +:+ "inf"
  | S754_nan => "nan"
  | S754_finite s m e =>
      let h := hundredths m e in
      sign s +:+ group3 (str_of_Z (h / 100)) +:+ "." +:+ two_digits (h mod 100)
  end.

End PyFloat.

(** ** The invoice record *)

(** The dictionary [invoice_data]; [None] is Python's [None]. *)
Record invoice_data : Type := {
  invoice_number : option string;
  vendor_name : option string;
  invoice_date : option string;
  invoice_amount : option PyFloat.float;
  due_date : option string;
  payment_status : option string;
  file_path : string
}.

(** The dictionary both branches of [extract_invoice_data] start from. *)
Definition null_data (name : string) : invoice_data :=
  {| invoice_number := None; vendor_name := None; invoice_date := None;
     invoice_amount := None; due_date := None; payment_status := None;
     file_path := name |}.

(** ** The field rules of [extract_invoice_data] *)

(** The three loops over a label ([Invoice Number:], [Invoice Date:],
    [Due Date:]): the value assigned before [break], or [None] when the
    loop ends without assigning. *)
Fixpoint scan_label (label : string) (lines : list string) : option string :=
  match lines with
  | [] => None
  | line :: rest =>
      if PyStr.contains label line then
        let parts := PyStr.split ":" line in
        if (1 <? length parts)%nat then Some (PyStr.strip (nth 1 parts ""))
        else scan_label label rest
      else scan_label label rest
  end.

Definition skip_keywords : list string :=
  ["invoice"; "bill"; "date"; "phone"; "email"; "address"; "description";
   "qty"; "unit"; "total"; "please"; "share"; "form"; "within"; "hours";
   "recent"; "infusion"].

(** The test of the vendor loop on the stripped line. *)
Definition vendor_candidate (line : string) : bool :=
  negb (String.eqb line "") && (3 <? String.length line)%nat
  && negb (existsb (fun keyword => PyStr.contains keyword (PyStr.lower line))
                   skip_keywords).

Fixpoint scan_vendor (lines : list string) : option string :=
  match lines with
  | [] => None
  | line :: rest =>
      let line := PyStr.strip line in
      if vendor_candidate line then Some line else scan_vendor rest
  end.

(** *** [re.findall] with the amount pattern

    The pattern is a dollar sign followed by a group: one or more
    characters that are digits or commas, then an optional point, then
    any number of digits. [findall] returns the groups. *)

Definition digit_or_comma (c : ascii) : bool :=
  PyStr.isdigit c || Ascii.eqb c ","%char.

(** The group matched at the start of [s]. Each part is
    greedy and the later parts accept whatever follows, so the first
    attempt of the matcher is its answer. *)
Definition amount_group (s : string) : option string :=
  let '(ip, r1) := PyStr.span digit_or_comma s in
  match ip with
  | EmptyString => None
  | _ =>
      let '(dot, r2) :=
        match r1 with
        | String "."%char r => (".", r)
        | _ => ("", r1)
        end in
      let '(fp, _) := PyStr.span PyStr.isdigit r2 in
      Some (ip +:+ dot +:+ fp)
  end.

(** The scan of [findall]: [skip] counts the characters of the current
    match still to pass; at any other position a match is tried. *)
Fixpoint findall_from (skip : nat) (s : string) : list string :=
  match s with
  | EmptyString => []
  | String c s' =>
      match skip with
      | S k => findall_from k s'
      | O =>
          if Ascii.eqb c "$"%char then
            match amount_group s' with
            | Some g => g :: findall_from (String.length g) s'
            | None => findall_from 0 s'
            end
          else findall_from 0 s'
      end
  end.

Definition findall_amounts (line : string) : list string := findall_from 0 line.

(** The amount loop. [float] may raise; [except ValueError] continues
    with the next line, any other exception leaves the loop. *)
Fixpoint scan_amount (lines : list string) : result (option PyFloat.float) :=
  match lines with
  | [] => Ret None
  | line :: rest =>
      if PyStr.contains "$" line then
        let amounts := findall_amounts line in
        match amounts with
        | [] => scan_amount rest
        | _ =>
            let amount_str := PyStr.remove_char ","%char (List.last amounts "") in
            match PyFloat.float_of_str amount_str with
            | Ret x => Ret (Some x)
            | Raise ValueError => scan_amount rest
            | Raise e => Raise e
            end
        end
      else scan_amount rest
  end.

(** The [if]/[elif]/[else] on the status text. *)
Definition normalize_status (status : string) : string :=
  if PyStr.contains "unpaid" (PyStr.lower status) then "Unpaid"
  else if PyStr.contains "paid" (PyStr.lower status) then "Paid"
  else status.

(** The payment status loop: the value assigned and the flag
    [payment_status_found]. *)
Fixpoint scan_payment_status (lines : list string) : option string * bool :=
  match lines with
  | [] => (None, false)
  | line :: rest =>
      if PyStr.contains "Payment Status:" line then
        let parts := PyStr.split ":" line in
        if (1 <? length parts)%nat then
          let status := PyStr.strip (nth 1 parts "") in
          (Some (normalize_status status), true)
        else scan_payment_status rest
      else scan_payment_status rest
  end.

(** ** The world the methods run in *)

(** What is stored under a path, as [open] and [pypdf.PdfReader] see it:
    a file the reader rejects, or a document whose pages each give their
    text or raise when [extract_text] is called. *)
Inductive pdf_file : Type :=
| Corrupt (msg : string)
| Pdf (pages : list (result string)).

(** The directory attributes set by [SimpleRPA.__init__]. The downloader
    object it also creates belongs to the mail collaborator. *)
Record SimpleRPA : Type := {
  input_dir : string;
  output_dir : string
}.

Inductive cell : Type :=
| CInt (n : Z)
| CStr (s : string).

(** The two sheets written by [process_invoices]; [Summary] has the
    columns [Metric] and [Value]. *)
Record workbook : Type := {
  Invoice_Data : list invoice_data;
  Summary : list (string * cell)
}.

(** One call of [print]. Constant texts are kept; formatted texts are
    kept as their arguments. *)
Inductive event : Type :=
| Say (text : string)
| SayProcessing (name : string)
| SayExtracted (d : invoice_data)
| SayError (pdf_path : string) (e : exn)
| SayDownloaded (n : nat)
| SayReport (dir : string)
| SayProcessed (n : nat)
| SayTotal (amount : string).

Record world : Type := {
  self : SimpleRPA;
  fs : gmap string pdf_file;
  stdout : list event;
  written : list (string * workbook)
}.

(** ** The monad of state and exceptions *)

Definition M (A : Type) : Type := world -> result A * world.

#[global] Instance M_ret : MRet M := fun A a w => (Ret a, w).

#[global] Instance M_bind : MBind M := fun A B f m w =>
  match m w with
  | (Ret a, w') => f a w'
  | (Raise e, w') => (Raise e, w')
  end.

Definition lift {A : Type} (r : result A) : M A := fun w => (r, w).

(** [try: body  except Exception as e: handler e] *)
Definition try_except {A : Type} (body : M A) (handler : exn -> M A) : M A :=
  fun w =>
    match body w with
    | (Ret a, w') => (Ret a, w')
    | (Raise e, w') => handler e w'
    end.

Definition print (ev : event) : M unit := fun w =>
  (Ret tt, {| self := self w; fs := fs w; stdout := stdout w ++ [ev];
              written := written w |}).

Definition get_self : M SimpleRPA := fun w => (Ret (self w), w).

(** [open(pdf_path, 'rb')], [pypdf.PdfReader(file)] and [.pages]. *)
Definition open_pdf (pdf_path : string) : M (list (result string)) := fun w =>
  match fs w !! pdf_path with
  | None => (Raise FileNotFoundError, w)
  | Some (Corrupt msg) => (Raise (PdfError msg), w)
  | Some (Pdf pages) => (Ret pages, w)
  end.

(** What [pd.ExcelWriter] and the two calls of [to_excel] do in a run
    with a workbook for a directory: they write it, or one of them
    raises (openpyxl refuses a cell with a control character, the disk
    may refuse the file). *)
Definition excel_writer : Type := string -> workbook -> result unit.

(** The [with pd.ExcelWriter(...)] statement; the file name carries the
    time of the run and is not kept. [written] keeps the workbooks
    written in full: what a writer that raises leaves on the disk is not
    kept. *)
Definition write_excel (to_excel : excel_writer) (dir : string)
    (wb : workbook) : M unit := fun w =>
  match to_excel dir wb with
  | Ret _ =>
      (Ret tt, {| self := self w; fs := fs w; stdout := stdout w;
                  written := written w ++ [(dir, wb)] |})
  | Raise e => (Raise e, w)
  end.

(** ** [extract_invoice_data] *)

Definition newline : string := String "010"%char EmptyString.

(** [Path(p).name]: the last component of [p] that is neither empty nor
    a single point, or the empty string. *)
Definition path_name (p : string) : string :=
  List.last
    (List.filter (fun part => negb (String.eqb part "" || String.eqb part "."))
                 (PyStr.split "/" p))
    "".

(** The loop [for page in pdf_reader.pages] building [text_content]. *)
Fixpoint read_pages (pages : list (result string)) (text_content : string)
  : result string :=
  match pages with
  | [] => Ret text_content
  | page :: rest =>
      match page with
      | Ret t => read_pages rest (text_content +:+ t +:+ newline)
      | Raise e => Raise e
      end
  end.

(** The statements of the [try] block after the text is read. The
    dictionary starts with every field [None]; each loop assigns its
    field at most once, so the fields are given here by the loops. *)
Definition scan_fields (name text_content : string) : result invoice_data :=
  let lines := PyStr.split "010"%char text_content in
  let number := scan_label "Invoice Number:" lines in
  let vendor := scan_vendor lines in
  let date := scan_label "Invoice Date:" lines in
  match scan_amount lines with
  | Raise e => Raise e
  | Ret amount =>
      let due := scan_label "Due Date:" lines in
      let '(status, payment_status_found) := scan_payment_status lines in
      let status := if payment_status_found then status else None in
      Ret {| invoice_number := number; vendor_name := vendor;
             invoice_date := date; invoice_amount := amount;
             due_date := due; payment_status := status;
             file_path := name |}
  end.

(** The [try] block. *)
Definition extract_body (pdf_path : string) : M invoice_data :=
  _ ← print (SayProcessing (path_name pdf_path));
  pages ← open_pdf pdf_path;
  text_content ← lift (read_pages pages "");
  d ← lift (scan_fields (path_name pdf_path) text_content);
  _ ← print (SayExtracted d);
  mret d.

(** The [except Exception as e] block. *)
Definition extract_handler (pdf_path : string) (e : exn) : M invoice_data :=
  _ ← print (SayError pdf_path e);
  mret (null_data (path_name pdf_path)).

Definition extract_invoice_data (pdf_path : string) : M invoice_data :=
  try_except (extract_body pdf_path) (extract_handler pdf_path).

(** ** [process_invoices] *)

(** Truth value of a field: [None], the empty string and a zero float
    are false. *)
Definition str_truthy (v : option string) : bool :=
  match v with
  | Some s => negb (String.eqb s "")
  | None => false
  end.

Definition float_truthy (v : option PyFloat.float) : bool :=
  match v with
  | Some x => PyFloat.truthy x
  | None => false
  end.

(** The condition under which a record is appended to
    [invoice_data_list]. *)
Definition has_data (d : invoice_data) : bool :=
  str_truthy (invoice_number d) || float_truthy (invoice_amount d)
  || str_truthy (vendor_name d).

(** The loop [for pdf_file in downloaded_files]. *)
Fixpoint extract_all (downloaded_files : list string)
    (invoice_data_list : list invoice_data) : M (list invoice_data) :=
  match downloaded_files with
  | [] => mret invoice_data_list
  | pdf_file :: rest =>
      d ← extract_invoice_data pdf_file;
      extract_all rest
        (if has_data d then invoice_data_list ++ [d] else invoice_data_list)
  end.

Definition total_amount (invoice_data_list : list invoice_data) : PyFloat.float :=
  PyFloat.sum
    (omap invoice_amount
       (List.filter (fun item => float_truthy (invoice_amount item))
                    invoice_data_list)).

Definition unique_vendors (invoice_data_list : list invoice_data) : nat :=
  size (list_to_set
          (omap vendor_name
             (List.filter (fun item => str_truthy (vendor_name item))
                          invoice_data_list)) : gset string).

Definition summary_data (invoice_data_list : list invoice_data)
  : list (string * cell) :=
  [("Total Invoices", CInt (Z.of_nat (length invoice_data_list)));
   ("Total Amount",
    CStr ("$" +:+ PyFloat.format_2f (total_amount invoice_data_list)));
   ("Unique Vendors", CInt (Z.of_nat (unique_vendors invoice_data_list)))].

Definition banner : string := "==================================================".

(** [process_invoices]; [downloaded_files] is what
    [download_invoices_from_gmail] returned. Nothing in the method
    catches what the writer raises. *)
Definition process_invoices (to_excel : excel_writer)
    (downloaded_files : list string) : M unit :=
  _ ← print (Say banner);
  _ ← print (Say "SIMPLE RPA INVOICE PROCESSING");
  _ ← print (Say banner);
  _ ← print (Say (newline +:+ "Step 1: Downloading invoices from Gmail..."));
  match downloaded_files with
  | [] => print (Say "No invoices downloaded from Gmail")
  | _ =>
      _ ← print (SayDownloaded (length downloaded_files));
      _ ← print (Say (newline +:+ "Step 2: Processing PDF files..."));
      invoice_data_list ← extract_all downloaded_files [];
      match invoice_data_list with
      | [] => print (Say "No invoice data extracted")
      | _ =>
          _ ← print (Say (newline +:+ "Step 3: Creating Excel report..."));
          this ← get_self;
          _ ← write_excel to_excel (output_dir this)
                {| Invoice_Data := invoice_data_list;
                   Summary := summary_data invoice_data_list |};
          _ ← print (SayReport (output_dir this));
          _ ← print (SayProcessed (length invoice_data_list));
          _ ← print (SayTotal (PyFloat.format_2f (total_amount invoice_data_list)));
          _ ← print (Say (newline +:+ banner));
          _ ← print (Say "PROCESSING COMPLETED SUCCESSFULLY!");
          print (Say banner)
      end
  end.

(** ** Vocabulary of the statements *)

(** Whether the character [c] occurs in [s]. *)
Fixpoint has_char (c : ascii) (s : string) : bool :=
  match s with
  | EmptyString => false
  | String d s' => Ascii.eqb d c || has_char c s'
  end.

(** The text of [s] before its first [c] (all of [s] without one). *)
Fixpoint before_char (c : ascii) (s : string) : string :=
  match s with
  | EmptyString => EmptyString
  | String d s' =>
      if Ascii.eqb d c then EmptyString else String d (before_char c s')
  end.

(** The text of [s] after its first [c] (empty without one). *)
Fixpoint after_char (c : ascii) (s : string) : string :=
  match s with
  | EmptyString => EmptyString
  | String d s' => if Ascii.eqb d c then s' else after_char c s'
  end.

(** The value a labelled line carries: the text between its first
    colon and the next one (or the end of the line), stripped. *)
Definition colon_value (line : string) : string :=
  PyStr.strip (before_char ":" (after_char ":" line)).

(** The amount one line yields: the float read from its last match,
    when the line has a dollar sign, has a match, and the match reads
    as a float. *)
Definition line_amount (line : string) : option PyFloat.float :=
  if PyStr.contains "$" line then
    match findall_amounts line with
    | [] => None
    | amounts =>
        match PyFloat.float_of_str
                (PyStr.remove_char ","%char (List.last amounts "")) with
        | Ret x => Some x
        | Raise _ => None
        end
    end
  else None.

(** The amount of the first line that yields one. *)
Fixpoint first_amount (lines : list string) : option PyFloat.float :=
  match lines with
  | [] => None
  | line :: rest =>
      match line_amount line with
      | Some x => Some x
      | None => first_amount rest
      end
  end.

(** The sign bit is clear (a NaN carries none). *)
Definition sign_clear (x : PyFloat.float) : Prop :=
  match x with
  | S754_zero s | S754_infinity s | S754_finite s _ _ => s = false
  | S754_nan => True
  end.

(** The world after more console output. *)
Definition say_more (w : world) (evs : list event) : world :=
  {| self := self w; fs := fs w; stdout := stdout w ++ evs;
     written := written w |}.

(** The text the [try] block reads from [pdf_path], or the exception
    that stops the reading. *)
Definition read_text (fsys : gmap string pdf_file) (pdf_path : string)
  : result string :=
  match fsys !! pdf_path with
  | None => Raise FileNotFoundError
  | Some (Corrupt msg) => Raise (PdfError msg)
  | Some (Pdf pages) => read_pages pages ""
  end.

(** The record returned for [pdf_path] when the files are [fsys]. *)
Definition extracted (fsys : gmap string pdf_file) (pdf_path : string)
  : invoice_data :=
  match read_text fsys pdf_path with
  | Ret text =>
      match scan_fields (path_name pdf_path) text with
      | Ret d => d
      | Raise _ => null_data (path_name pdf_path)
      end
  | Raise _ => null_data (path_name pdf_path)
  end.

(** Sample documents and a sample world. *)
Definition sample_rpa : SimpleRPA :=
  {| input_dir := "input"; output_dir := "output" |}.

Definition sample_text : string :=
  "ACME Corp" +:+ newline +:+
  "Invoice Number: INV-2024-001" +:+ newline +:+
  "Total Due: $1,234.56 $999.00" +:+ newline +:+
  "Payment Status: UNPAID".

Definition sample_files : gmap string pdf_file :=
  {[ "input/a.pdf" := Pdf [Ret sample_text; Ret "page two"];
     "input/bad.pdf" := Corrupt "EOF marker not found";
     "input/torn.pdf" := Pdf [Ret "ACME Corp"; Raise (PdfError "bad page")];
     "input/blank.pdf" := Pdf [Ret "Invoice Number:"];
     "input/zero.pdf" := Pdf [Ret "$0"] ]}.

Definition sample_world : world :=
  {| self := sample_rpa; fs := sample_files; stdout := []; written := [] |}.

(** A character openpyxl refuses in a cell: a control character other
    than the tab, the line feed and the carriage return. *)
Definition illegal_character (c : ascii) : bool :=
  let n := PyStr.code c in
  ((n <=? 8) || (11 <=? n) && (n <=? 12) || (14 <=? n) && (n <=? 31))%N.

Definition legal_text (v : option string) : bool :=
  match v with
  | Some s => PyStr.forallb (fun c => negb (illegal_character c)) s
  | None => true
  end.

(** A sample writer: it raises, as openpyxl does, when a text of the
    data sheet has a character it refuses, and writes otherwise. *)
Definition strict_writer : excel_writer := fun _ wb =>
  if forallb (fun d =>
       legal_text (invoice_number d) && legal_text (vendor_name d)
       && legal_text (invoice_date d) && legal_text (due_date d)
       && legal_text (payment_status d) && legal_text (Some (file_path d)))
     (Invoice_Data wb)
  then Ret tt
  else Raise (WriterError "IllegalCharacterError").

(** A document whose vendor line has a control character. *)
Definition marked_files : gmap string pdf_file :=
  {[ "input/m.pdf" :=
       Pdf [Ret ("ACME" +:+ String "001"%char "Corp")] ]}.

Definition marked_world : world :=
  {| self := sample_rpa; fs := marked_files; stdout := []; written := [] |}.

(** The reading of a labelled line under which the value is all that
    follows the first colon, stripped. *)
Definition after_colon_value (line : string) : string :=
  PyStr.strip (after_char ":" line).

(** Whether the three fields the caller looks at are all [None]. *)
Definition all_null (d : invoice_data) : bool :=
  match invoice_number d, invoice_amount d, vendor_name d with
  | None, None, None => true
  | _, _, _ => false
  end.

(** The three rows of the summary in the words of the specification:
    the number of records, the sum of the amounts that are not [None] as
    currency, and the number of distinct vendor names that are not
    [None]. *)
Definition summary_rows (records : list invoice_data) : list (string * cell) :=
  [("Total Invoices", CInt (Z.of_nat (length records)));
   ("Total Amount",
    CStr ("$" +:+ PyFloat.format_2f (PyFloat.sum (omap invoice_amount records))));
   ("Unique Vendors",
    CInt (Z.of_nat (length (remove_dups (omap vendor_name records)))))].

(** What holds of every record [extract_invoice_data] returns and the
    summary relies on: an amount has its sign bit clear, and a vendor
    name is not empty. *)
Definition well_formed (d : invoice_data) : Prop :=
  (forall x, invoice_amount d = Some x -> sign_clear x)
  /\ vendor_name d <> Some "".

(** The world after [process_invoices] has written its workbook. *)
Definition reported (w : world) (evs : list event) (wb : workbook) : world :=
  {| self := self w; fs := fs w; stdout := stdout w ++ evs;
     written := written w ++ [(output_dir (self w), wb)] |}.

(** The shape of the strings [float_of_str] is defined for: digits, then
    possibly a point followed by digits. *)
Definition amount_literal (s : string) : bool :=
  let '(ip, r) := PyStr.span PyStr.isdigit s in
  match r with
  | EmptyString => true
  | String c fp => Ascii.eqb c "."%char && PyStr.forallb PyStr.isdigit fp
  end.

(** ** The download step of [process_invoices] *)

(** The dictionary [download_invoices] returns; the key [error] is
    present only in the dictionary of a failed run. *)
Record download_result : Type := {
  success : bool;
  error : option string;
  emails_found : nat;
  files_downloaded : nat;
  downloaded_files : list string
}.

(** What the call [self.gmail_downloader.download_invoices(days_back=30)]
    does: it returns a dictionary, or raises an exception whose text is
    [msg]. *)
Inductive download_outcome : Type :=
| Returned (r : download_result)
| Raised (msg : string).

Definition str_of_nat (n : nat) : string := PyFloat.str_of_Z (Z.of_nat n).

(** [download_invoices_from_gmail]; the printed texts are the formatted
    ones. *)
Definition download_invoices_from_gmail (call : download_outcome)
  : M (list string) :=
  _ ← print (Say "Downloading invoices from Gmail...");
  match call with
  | Returned r =>
      if success r then
        _ ← print (Say ("Downloaded " +:+ str_of_nat (files_downloaded r)
                        +:+ " files from " +:+ str_of_nat (emails_found r)
                        +:+ " emails"));
        mret (downloaded_files r)
      else
        _ ← print (Say ("Download failed: "
                        +:+ match error r with
                            | Some msg => msg
                            | None => "Unknown error"
                            end));
        mret []
  | Raised msg =>
      _ ← print (Say ("Error downloading invoices: " +:+ msg));
      mret []
  end.

(** [process_invoices] with its download step in place: the statements
    of the method in their order, [call] being what the downloader does
    when called. *)
Definition process_invoices_main (to_excel : excel_writer)
    (call : download_outcome) : M unit :=
  _ ← print (Say banner);
  _ ← print (Say "SIMPLE RPA INVOICE PROCESSING");
  _ ← print (Say banner);
  _ ← print (Say (newline +:+ "Step 1: Downloading invoices from Gmail..."));
  downloaded_files ← download_invoices_from_gmail call;
  match downloaded_files with
  | [] => print (Say "No invoices downloaded from Gmail")
  | _ =>
      _ ← print (SayDownloaded (length downloaded_files));
      _ ← print (Say (newline +:+ "Step 2: Processing PDF files..."));
      invoice_data_list ← extract_all downloaded_files [];
      match invoice_data_list with
      | [] => print (Say "No invoice data extracted")
      | _ =>
          _ ← print (Say (newline +:+ "Step 3: Creating Excel report..."));
          this ← get_self;
          _ ← write_excel to_excel (output_dir this)
                {| Invoice_Data := invoice_data_list;
                   Summary := summary_data invoice_data_list |};
          _ ← print (SayReport (output_dir this));
          _ ← print (SayProcessed (length invoice_data_list));
          _ ← print (SayTotal (PyFloat.format_2f (total_amount invoice_data_list)));
          _ ← print (Say (newline +:+ banner));
          _ ← print (Say "PROCESSING COMPLETED SUCCESSFULLY!");
          print (Say banner)
      end
  end.

(** The list [download_invoices_from_gmail] hands on. *)
Definition files_handed_on (call : download_outcome) : list string :=
  match call with
  | Returned r => if success r then downloaded_files r else []
  | Raised _ => []
  end.

(** ** Vocabulary of the further statements *)

(** Whether [s] has a digit. *)
Fixpoint has_digit (s : string) : bool :=
  match s with
  | EmptyString => false
  | String c s' => PyStr.isdigit c || has_digit s'
  end.

(** A float that is a number without a minus sign: [+0.0], a positive
    finite number or [+inf]. *)
Definition plain_amount (x : PyFloat.float) : Prop :=
  match x with
  | S754_zero s | S754_infinity s | S754_finite s _ _ => s = false
  | S754_nan => False
  end.

(** * The mail download (email_downloader.py, class GmailDownloader)

    The IMAP server, the message parser, the disk and the clock are the
    world of this part: what they answer in a run is given by a
    [server]; the commands sent, the writes made and the clock reads
    are kept in the state. A [server] tells what each call answers,
    the first and a later [close] and [logout] apart, and whether the
    subject of a mail comes parsed as a [str]. The modules [utils.logger] and
    [utils.exceptions] are not among the sources: the logger's calls are
    left out, and [EmailError] is taken to be a class of exceptions
    deriving from [Exception] whose text is its message. Paths follow
    [pathlib] as of Python 3.12. *)

Module Gmail.

(** ** Strings and paths *)

(** [\w] of the [re] module for one character. *)
Definition isword (c : ascii) : bool :=
  let n := PyStr.code c in
  ((48 <=? n) && (n <=? 57) || (65 <=? n) && (n <=? 90) || (n =? 95)
   || (97 <=? n) && (n <=? 122) || (n =? 170) || (178 <=? n) && (n <=? 179)
   || (n =? 181) || (185 <=? n) && (n <=? 186) || (188 <=? n) && (n <=? 190)
   || (192 <=? n) && (n <=? 214) || (216 <=? n) && (n <=? 246)
   || (248 <=? n))%N.

(** [s[:n]] *)
Fixpoint str_to (n : nat) (s : string) : string :=
  match n, s with
  | S k, String c s' => String c (str_to k s')
  | _, _ => EmptyString
  end.

(** [s[n:]] *)
Fixpoint str_from (n : nat) (s : string) : string :=
  match n, s with
  | S k, String _ s' => str_from k s'
  | _, _ => s
  end.

(** [s.rfind(c)], [None] standing for -1. *)
Fixpoint rfind (c : ascii) (s : string) : option nat :=
  match s with
  | EmptyString => None
  | String d s' =>
      match rfind c s' with
      | Some i => Some (S i)
      | None => if Ascii.eqb d c then Some 0 else None
      end
  end.

(** The index at which the suffix of the file name [name] starts, when
    it has one: the last point, unless it is the first or the last
    character. *)
Definition suffix_index (name : string) : option nat :=
  match rfind "." name with
  | Some i =>
      if (0 <? i)%nat && (i <? String.length name - 1)%nat then Some i else None
  | None => None
  end.

(** [Path(p).suffix] *)
Definition suffix (p : string) : string :=
  let name := path_name p in
  match suffix_index name with
  | Some i => str_from i name
  | None => EmptyString
  end.

(** [Path(p).stem] *)
Definition stem (p : string) : string :=
  let name := path_name p in
  match suffix_index name with
  | Some i => str_to i name
  | None => name
  end.

(** The name given by [Path(p).with_suffix(new)] to a path with a
    name. *)
Definition with_suffix_name (p new : string) : string :=
  stem p +:+ new.

(** [re.sub(r'[^\w\s-]', '', s)] *)
Fixpoint drop_unsafe (s : string) : string :=
  match s with
  | EmptyString => EmptyString
  | String c s' =>
      if isword c || PyStr.isspace c || Ascii.eqb c "-"
      then String c (drop_unsafe s') else drop_unsafe s'
  end.

Definition hyphen_or_space (c : ascii) : bool :=
  Ascii.eqb c "-" || PyStr.isspace c.

(** [re.sub(r'[-\s]+', '-', s)]: [in_run] tells that the character
    before belongs to a run already replaced. *)
Fixpoint join_runs (in_run : bool) (s : string) : string :=
  match s with
  | EmptyString => EmptyString
  | String c s' =>
      if hyphen_or_space c then
        if in_run then join_runs true s' else String "-" (join_runs true s')
      else String c (join_runs false s')
  end.

(** The three statements computing [safe_subject]. *)
Definition safe_subject (subject : string) : string :=
  let safe_subject := drop_unsafe subject in
  let safe_subject := join_runs false safe_subject in
  str_to 50 safe_subject.

(** ** The downloader's constants *)

Definition invoice_keywords : list string :=
  ["invoice"; "bill"; "receipt"; "statement"; "payment";
   "INV-"; "INVOICE-"; "BILL-"; "RECEIPT-"; "PAYMENT-";
   "invoice #"; "bill #"; "receipt #"; "statement #";
   "invoice number"; "bill number"; "receipt number";
   "monthly invoice"; "monthly bill"; "monthly statement";
   "quarterly invoice"; "quarterly bill"; "quarterly statement";
   "annual invoice"; "annual bill"; "annual statement";
   "service invoice"; "service bill"; "service receipt";
   "consulting invoice"; "consulting bill";
   "development invoice"; "development bill";
   "software invoice"; "software bill";
   "maintenance invoice"; "maintenance bill";
   "support invoice"; "support bill"].

Definition supported_extensions : list string :=
  [".pdf"; ".xlsx"; ".xls"; ".docx"; ".doc"].

(** [ext in self.supported_extensions] *)
Definition supported (ext : string) : bool :=
  existsb (String.eqb ext) supported_extensions.

(** ** Messages *)

(** One part of a message as the loops use it: [get_content_maintype()],
    [get_filename()] and [get_payload(decode=True)]. *)
Record part : Type := {
  maintype : string;
  filename : option string;
  payload : option string
}.

(** A parsed message: the three headers read, each possibly absent, and
    the parts in the order of [walk()]. *)
Record message : Type := {
  subject : option string;
  sender : option string;
  date : option string;
  parts : list part
}.

(** What [email.message_from_bytes] makes of the data fetched: the
    message, and whether its [Subject], having bytes that are not ASCII,
    comes as an [email.header.Header] object and not as a [str];
    [subject] is then its text. *)
Record fetched : Type := {
  parsed : message;
  header_subject : bool
}.

(** Whether [email_message.get('subject', default)] is a [Header]
    object: the default, given for a mail without a subject, is a
    [str]. A [Header] object has no method [lower], and [re.sub] does
    not take it. *)
Definition subject_is_header (data : fetched) : bool :=
  match subject (parsed data) with
  | Some _ => header_subject data
  | None => false
  end.

(** [email_message.get(name, default)] *)
Definition get (header : option string) (default : string) : string :=
  match header with
  | Some v => v
  | None => default
  end.

(** The test [any(keyword in subject for keyword in self.invoice_keywords)]
    on the lowercased subject. *)
Definition is_invoice_email (email_message : message) : bool :=
  let subject := PyStr.lower (get (subject email_message) "") in
  existsb (fun keyword => PyStr.contains keyword subject) invoice_keywords.

(** The loop of [_has_supported_attachments]. The calls in it are taken
    not to raise, so its [except] branch is not entered. *)
Fixpoint _has_supported_attachments (walk : list part) : bool :=
  match walk with
  | [] => false
  | part :: rest =>
      if String.eqb (maintype part) "multipart" then
        _has_supported_attachments rest
      else
        match filename part with
        | Some filename =>
            if negb (String.eqb filename "")
               && supported (PyStr.lower (suffix filename))
            then true
            else _has_supported_attachments rest
        | None => _has_supported_attachments rest
        end
  end.

(** ** The world of the downloader *)

Inductive exc : Type :=
| EmailError (msg : string)
| OtherError (msg : string).

(** [str(e)] *)
Definition exc_msg (e : exc) : string :=
  match e with
  | EmailError msg => msg
  | OtherError msg => msg
  end.

Inductive outcome (A : Type) : Type :=
| Ok (a : A)
| Err (e : exc).
Arguments Ok {A} a.
Arguments Err {A} e.

(** The calls made on the connection. *)
Inductive command : Type :=
| Connect
| Login
| Select
| Search
| Fetch (email_id : string)
| Store (email_id : string)
| Close
| Logout.

Record datetime : Type := {
  year : nat; month : nat; day : nat;
  hour : nat; minute : nat; second : nat; microsecond : nat
}.

(** What one [open] for writing followed by its writes puts in a file:
    the payload of an attachment, or the five lines of a metadata file,
    kept as their arguments. *)
Inductive content : Type :=
| Attachment (bytes : string)
| Metadata (subject sender date : string) (downloaded : datetime)
           (file : string).

(** What the outside answers in one run. [search] gives the status and
    the identifiers [message_numbers[0].split()]; [fetch] gives the
    status and the message parsed from the data fetched, or the
    exception that the call or the reading of its answer raises;
    [can_write] tells whether [open] for writing succeeds; [clock] gives
    the time at each successive reading. [close] and [logout] give the
    answer to the first such call on a connection, [close_again] and
    [logout_again] the answer to a later one: imaplib refuses a [close]
    on a connection that is not in the state [SELECTED], which a
    [close] or a [logout] has left. *)
Record server : Type := {
  connect : outcome unit;
  login : outcome unit;
  select : outcome unit;
  search : outcome (string * list string);
  fetch : string -> outcome (string * fetched);
  store : string -> outcome unit;
  close : outcome unit;
  logout : outcome unit;
  close_again : outcome unit;
  logout_again : outcome unit;
  can_write : string -> outcome unit;
  clock : nat -> datetime
}.

(** The state of a run: the commands sent, the writes made, each with
    its path and in the order made, and the number of clock reads. A
    file is opened with [w] or [wb], so a later write to a path replaces
    the earlier one on the disk. *)
Record state : Type := {
  sent : list command;
  files : list (string * content);
  clock_reads : nat
}.

Definition G (A : Type) : Type := state -> outcome A * state.

#[global] Instance G_ret : MRet G := fun A a st => (Ok a, st).

#[global] Instance G_bind : MBind G := fun A B f m st =>
  match m st with
  | (Ok a, st') => f a st'
  | (Err e, st') => (Err e, st')
  end.

Definition raise {A : Type} (e : exc) : G A := fun st => (Err e, st).

(** [try: body  except Exception as e: handler e] *)
Definition try_g {A : Type} (body : G A) (handler : exc -> G A) : G A :=
  fun st =>
    match body st with
    | (Ok a, st') => (Ok a, st')
    | (Err e, st') => handler e st'
    end.

(** A call on the connection, with the answer it gets. *)
Definition send {A : Type} (c : command) (answer : outcome A) : G A :=
  fun st =>
    (answer, {| sent := sent st ++ [c]; files := files st;
                clock_reads := clock_reads st |}).

Definition is_close (c : command) : bool :=
  match c with
  | Close => true
  | _ => false
  end.

Definition is_logout (c : command) : bool :=
  match c with
  | Logout => true
  | _ => false
  end.

(** Whether a command that [test] accepts was sent on the connection
    in use, that is, after the last [Connect]; [rev_sent] has the
    commands sent, the last one first. *)
Fixpoint called_rev (test : command -> bool) (rev_sent : list command)
  : bool :=
  match rev_sent with
  | [] => false
  | Connect :: _ => false
  | c :: rest => test c || called_rev test rest
  end.

Definition called (test : command -> bool) (st : state) : bool :=
  called_rev test (rev (sent st)).

Definition put_file (path : string) (c : content) : G unit := fun st =>
  (Ok tt, {| sent := sent st; files := files st ++ [(path, c)];
             clock_reads := clock_reads st |}).

Definition two_digits (n : nat) : string :=
  if (n <? 10)%nat then "0" +:+ str_of_nat n else str_of_nat n.

(** [strftime("%Y%m%d_%H%M%S")], for a year of four digits. *)
Definition timestamp_of (t : datetime) : string :=
  str_of_nat (year t) +:+ two_digits (month t) +:+ two_digits (day t)
  +:+ "_" +:+ two_digits (hour t) +:+ two_digits (minute t)
  +:+ two_digits (second t).

Section Downloader.

Variable srv : server.

(** [str(self.input_dir)]: a directory other than the root. *)
Variable input_dir : string.

(** [datetime.now()] *)
Definition now : G datetime := fun st =>
  (Ok (clock srv (clock_reads st)),
   {| sent := sent st; files := files st;
      clock_reads := S (clock_reads st) |}).

(** [open(path, mode)] for writing. *)
Definition open_for_writing (path : string) : G unit := fun st =>
  (can_write srv path, st).

(** [str(self.input_dir / name)] for a name without a slash. *)
Definition in_input_dir (name : string) : string :=
  input_dir +:+ "/" +:+ name.

(** [mail.close()] *)
Definition mail_close : G unit := fun st =>
  send Close (if called is_close st then close_again srv else close srv) st.

(** [mail.logout()] *)
Definition mail_logout : G unit := fun st =>
  send Logout (if called is_logout st then logout_again srv else logout srv) st.

Definition connect_to_gmail : G unit :=
  try_g
    (_ ← send Connect (connect srv);
     _ ← send Login (login srv);
     mret tt)
    (fun e => raise (EmailError ("Gmail connection failed: " +:+ exc_msg e))).

(** The loop [for email_id in email_ids] of [search_invoices]. *)
Fixpoint search_loop (email_ids invoice_emails : list string)
  : G (list string) :=
  match email_ids with
  | [] => mret invoice_emails
  | email_id :: rest =>
      selected ←
        try_g (A := bool)
          (answer ← send (Fetch email_id) (fetch srv email_id);
           let '(status, data) := answer in
           if negb (String.eqb status "OK") then mret false
           else if subject_is_header data
           then raise (OtherError "'Header' object has no attribute 'lower'")
           else
             let email_message := parsed data in
             let has_attachments :=
               _has_supported_attachments (parts email_message) in
             mret (is_invoice_email email_message || has_attachments))
          (fun _ => mret false);
      search_loop rest
        (if (selected : bool) then invoice_emails ++ [email_id]
         else invoice_emails)
  end.

(** [search_invoices]; the server's answer to the [SINCE] query of the
    run is [search srv], whatever [days_back]. *)
Definition search_invoices : G (list string) :=
  try_g
    (_ ← send Select (select srv);
     _ ← now;
     answer ← send Search (search srv);
     let '(status, email_ids) := answer in
     if negb (String.eqb status "OK")
     then raise (EmailError "Failed to search emails")
     else search_loop email_ids [])
    (fun e => raise (EmailError ("Failed to search invoices: " +:+ exc_msg e))).

Definition _create_metadata_file
    (new_filename subject from_email date : string) : G unit :=
  try_g
    (let metadata_file :=
       in_input_dir (with_suffix_name new_filename ".metadata.txt") in
     _ ← open_for_writing metadata_file;
     downloaded ← now;
     put_file metadata_file
       (Metadata subject from_email date downloaded (path_name new_filename)))
    (fun _ => mret tt).

(** [with open(file_path, 'wb') as f: f.write(payload)]; writing [None]
    raises once the file is created. *)
Definition write_payload (file_path : string) (payload : option string)
  : G unit :=
  _ ← open_for_writing file_path;
  match payload with
  | Some bytes => put_file file_path (Attachment bytes)
  | None =>
      _ ← put_file file_path (Attachment "");
      raise (OtherError "a bytes-like object is required, not 'NoneType'")
  end.

(** The loop [for part in email_message.walk()] of
    [_download_email_attachments]. *)
Fixpoint attachments_loop (safe_subject subject from_email date : string)
    (walk : list part) (downloaded_files : list string) : G (list string) :=
  match walk with
  | [] => mret downloaded_files
  | part :: rest =>
      let continue := attachments_loop safe_subject subject from_email date rest in
      if String.eqb (maintype part) "multipart" then continue downloaded_files
      else
        match filename part with
        | None => continue downloaded_files
        | Some filename =>
            if String.eqb filename "" then continue downloaded_files
            else
              let file_ext := PyStr.lower (suffix filename) in
              if negb (supported file_ext) then continue downloaded_files
              else
                t ← now;
                let timestamp := timestamp_of t in
                let base_name := stem filename in
                let new_filename :=
                  safe_subject +:+ "_" +:+ base_name +:+ "_" +:+ timestamp
                  +:+ file_ext in
                let file_path := in_input_dir new_filename in
                written ←
                  try_g (A := bool)
                    (_ ← write_payload file_path (payload part);
                     _ ← _create_metadata_file new_filename subject
                           from_email date;
                     mret true)
                    (fun _ => mret false);
                continue (if (written : bool)
                          then downloaded_files ++ [file_path]
                          else downloaded_files)
        end
  end.

Definition _download_email_attachments
    (email_message : message) (subject from_email date : string)
  : G (list string) :=
  try_g
    (attachments_loop (safe_subject subject) subject from_email date
       (parts email_message) [])
    (fun _ => mret []).

(** The loop [for email_id in email_ids] of [download_attachments].
    Called with a [Header] object for a subject,
    [_download_email_attachments] raises in its first [re.sub] and its
    [except] returns the empty list. *)
Fixpoint download_loop (email_ids downloaded_files : list string)
  : G (list string) :=
  match email_ids with
  | [] => mret downloaded_files
  | email_id :: rest =>
      attachment_files ←
        try_g (A := list string)
          (answer ← send (Fetch email_id) (fetch srv email_id);
           let '(status, data) := answer in
           if negb (String.eqb status "OK") then mret []
           else if subject_is_header data then mret []
           else
             let email_message := parsed data in
             _download_email_attachments email_message
               (get (subject email_message) "Unknown")
               (get (sender email_message) "Unknown")
               (get (date email_message) "Unknown"))
          (fun _ => mret []);
      download_loop rest (downloaded_files ++ attachment_files)
  end.

Definition download_attachments (email_ids : list string) : G (list string) :=
  try_g
    (download_loop email_ids [])
    (fun e =>
       raise (EmailError ("Failed to download attachments: " +:+ exc_msg e))).

(** The loop of [mark_emails_as_read], each [store] in its own [try]. *)
Fixpoint mark_loop (email_ids : list string) : G unit :=
  match email_ids with
  | [] => mret tt
  | email_id :: rest =>
      _ ← try_g (send (Store email_id) (store srv email_id)) (fun _ => mret tt);
      mark_loop rest
  end.

Definition mark_emails_as_read (email_ids : list string) : G unit :=
  try_g (mark_loop email_ids) (fun _ => mret tt).

(** The inner [try] block of [download_invoices]. *)
Definition download_found (mark_as_read : bool) : G download_result :=
  invoice_email_ids ← search_invoices;
  match invoice_email_ids with
  | [] =>
      mret {| success := true; error := None; emails_found := 0;
              files_downloaded := 0; downloaded_files := [] |}
  | _ =>
      downloaded ← download_attachments invoice_email_ids;
      _ ← (if mark_as_read then mark_emails_as_read invoice_email_ids
           else mret tt);
      _ ← mail_close;
      _ ← mail_logout;
      mret {| success := true; error := None;
              emails_found := length invoice_email_ids;
              files_downloaded := length downloaded;
              downloaded_files := downloaded |}
  end.

(** The inner [except] block: close, log out, raise again. *)
Definition close_and_raise (e : exc) : G download_result :=
  _ ← mail_close;
  _ ← mail_logout;
  raise e.

Definition download_invoices (mark_as_read : bool) : G download_result :=
  try_g
    (_ ← connect_to_gmail;
     try_g (download_found mark_as_read) close_and_raise)
    (fun e =>
       mret {| success := false; error := Some (exc_msg e); emails_found := 0;
               files_downloaded := 0; downloaded_files := [] |}).

Definition test_connection : G bool :=
  try_g
    (_ ← connect_to_gmail;
     _ ← mail_close;
     _ ← mail_logout;
     mret true)
    (fun _ => mret false).

End Downloader.

End Gmail.

(** ** A sample mailbox *)

Module GmailSample.
Import Gmail.

Definition march_invoice : message :=
  {| subject := Some "Invoice #42: March/April";
     sender := Some "billing@acme.example";
     date := Some "Mon, 6 May 2024 07:00:00 +0000";
     parts :=
       [ {| maintype := "multipart"; filename := None; payload := None |};
         {| maintype := "text"; filename := None; payload := Some "hello" |};
         {| maintype := "application"; filename := Some "Report.PDF";
            payload := Some "%PDF-1.4" |};
         {| maintype := "text"; filename := Some "notes.txt";
            payload := Some "n/a" |};
         {| maintype := "application"; filename := Some "../up/sheet.xlsx";
            payload := None |} ] |}.

Definition greeting : message :=
  {| subject := Some "Hello"; sender := None; date := None;
     parts := [ {| maintype := "text"; filename := None;
                   payload := Some "hi" |} ] |}.

Definition untitled_scan : message :=
  {| subject := None; sender := Some "scanner@acme.example"; date := None;
     parts := [ {| maintype := "application"; filename := Some "scan.pdf";
                   payload := Some "%PDF-1.7" |} ] |}.

(** A mail with an invoice, whose subject has a byte that is not
    ASCII. *)
Definition facture : message :=
  {| subject := Some ("Facture n" +:+ String "176"%char " 7 / invoice");
     sender := Some "compta@acme.example"; date := None;
     parts := [ {| maintype := "application"; filename := Some "facture.pdf";
                   payload := Some "%PDF-1.5" |} ] |}.

(** A message whose subject is a [str]. *)
Definition plain (email_message : message) : fetched :=
  {| parsed := email_message; header_subject := false |}.

Definition srv : server :=
  {| connect := Ok tt;
     login := Ok tt;
     select := Ok tt;
     search := Ok ("OK", ["1"; "2"; "3"; "4"]);
     fetch := fun email_id =>
       if String.eqb email_id "1" then Ok ("OK", plain march_invoice)
       else if String.eqb email_id "2" then Ok ("OK", plain greeting)
       else if String.eqb email_id "4" then Ok ("OK", plain untitled_scan)
       else if String.eqb email_id "5"
       then Ok ("OK", {| parsed := facture; header_subject := true |})
       else Err (OtherError "FETCH command error");
     store := fun email_id =>
       if String.eqb email_id "1" then Err (OtherError "STORE failed")
       else Ok tt;
     close := Ok tt;
     logout := Ok tt;
     close_again :=
       Err (OtherError "command CLOSE illegal in state AUTH");
     logout_again := Err (OtherError "socket error: EOF");
     can_write := fun _ => Ok tt;
     clock := fun n =>
       {| year := 2024; month := 5; day := 6; hour := 7; minute := 8;
          second := n; microsecond := 0 |} |}.

(** The same mailbox behind a login that fails. *)
Definition locked : server :=
  {| connect := Ok tt;
     login := Err (OtherError "AUTHENTICATIONFAILED");
     select := select srv; search := search srv; fetch := fetch srv;
     store := store srv; close := close srv; logout := logout srv;
     close_again := close_again srv; logout_again := logout_again srv;
     can_write := can_write srv; clock := clock srv |}.

(** The same mailbox with nothing found by the search. *)
Definition quiet : server :=
  {| connect := Ok tt; login := Ok tt; select := Ok tt;
     search := Ok ("OK", []); fetch := fetch srv;
     store := store srv; close := close srv; logout := logout srv;
     close_again := close_again srv; logout_again := logout_again srv;
     can_write := can_write srv; clock := clock srv |}.

(** The same mailbox with a search that gives the first and the fifth
    mail. *)
Definition accented : server :=
  {| connect := Ok tt; login := Ok tt; select := Ok tt;
     search := Ok ("OK", ["1"; "5"]); fetch := fetch srv;
     store := store srv; close := close srv; logout := logout srv;
     close_again := close_again srv; logout_again := logout_again srv;
     can_write := can_write srv; clock := clock srv |}.

(** The same mailbox on a connection that breaks before the close. *)
Definition stuck : server :=
  {| connect := Ok tt; login := Ok tt; select := Ok tt;
     search := search srv; fetch := fetch srv; store := store srv;
     close := Err (OtherError "socket error: EOF");
     logout := Ok tt;
     close_again := close_again srv; logout_again := logout_again srv;
     can_write := can_write srv; clock := clock srv |}.

(** The same mailbox without an inbox to select. *)
Definition no_inbox : server :=
  {| connect := Ok tt; login := Ok tt;
     select := Err (OtherError "SELECT failed");
     search := search srv; fetch := fetch srv; store := store srv;
     close := Ok tt; logout := Ok tt;
     close_again := close_again srv; logout_again := logout_again srv;
     can_write := can_write srv; clock := clock srv |}.

Definition start : state :=
  {| sent := []; files := []; clock_reads := 0 |}.

End GmailSample.

(** ** Vocabulary of the statements about the downloader *)

Module GmailSpec.
Import Gmail.

(** The five words that decide the subject test. *)
Definition core_keywords : list string :=
  ["invoice"; "bill"; "receipt"; "statement"; "payment"].

Definition word_or_hyphen (c : ascii) : bool :=
  isword c || Ascii.eqb c "-".

(** A part from which an attachment is taken. *)
Definition supported_part (p : part) : bool :=
  negb (String.eqb (maintype p) "multipart")
  && match filename p with
     | Some f => negb (String.eqb f "") && supported (PyStr.lower (suffix f))
     | None => false
     end.

(** A mail [search_invoices] selects: its fetch answers [OK], its
    subject is not a [Header] object, and its subject has a keyword or
    it has a supported attachment. *)
Definition selected (srv : server) (email_id : string) : bool :=
  match fetch srv email_id with
  | Ok (status, data) =>
      String.eqb status "OK"
      && negb (subject_is_header data)
      && (is_invoice_email (parsed data)
          || _has_supported_attachments (parts (parsed data)))
  | Err _ => false
  end.

(** The state after the commands [cs] are sent. *)
Definition sending (st : state) (cs : list command) : state :=
  {| sent := sent st ++ cs; files := files st;
     clock_reads := clock_reads st |}.

(** From [st] to [st'] the commands [cs] were sent and the files [fs]
    written, in that order each. *)
Definition adds (st st' : state) (cs : list command)
    (fs : list (string * content)) : Prop :=
  sent st' = sent st ++ cs /\ files st' = files st ++ fs.

(** A name that stays in its directory: it has no slash and is not
    empty, [.] or [..]. *)
Definition plain_name (name : string) : Prop :=
  has_char "/" name = false /\ name <> "" /\ name <> "." /\ name <> "..".

(** A path directly inside the directory [dir]. *)
Definition inside (dir path : string) : Prop :=
  exists name, path = dir +:+ "/" +:+ name /\ plain_name name.

(** The disk after the writes [ws], made in this order on an empty
    disk: a write to a path replaces what an earlier write has put
    there. *)
Definition disk (ws : list (string * content)) : gmap string content :=
  fold_left (fun d f => <[fst f := snd f]> d) ws ∅.

(** A file name that ends with a supported extension. *)
Definition supported_file_name (name : string) : Prop :=
  exists base ext, name = base +:+ ext /\ In ext supported_extensions.

(** A path directly inside [dir] whose name ends with a supported
    extension. *)
Definition supported_file (dir path : string) : Prop :=
  exists name,
    path = dir +:+ "/" +:+ name /\ has_char "/" name = false
    /\ supported_file_name name.

End GmailSpec.

(** ** Cases of a run of [download_invoices] *)

Module GmailCases.
Import Gmail GmailSpec.

(** The dictionary of a failed run. *)
Definition failed (msg : string) : download_result :=
  {| success := false; error := Some msg; emails_found := 0;
     files_downloaded := 0; downloaded_files := [] |}.

(** The dictionary of a run that downloaded [new] from [n] mails. *)
Definition succeeded (n : nat) (new : list string) : download_result :=
  {| success := true; error := None; emails_found := n;
     files_downloaded := length new; downloaded_files := new |}.

(** The connection and the login succeed. *)
Definition connected (srv : server) : Prop :=
  (exists u, connect srv = Ok u) /\ (exists u, login srv = Ok u).

(** The inbox is selected and the search answers [OK] with the
    identifiers [all]. *)
Definition search_ok (srv : server) (all : list string) : Prop :=
  (exists u, select srv = Ok u) /\ search srv = Ok ("OK", all).

(** The search step raises. *)
Definition search_fails (srv : server) : Prop :=
  (exists e, select srv = Err e)
  \/ ((exists u, select srv = Ok u)
      /\ ((exists e, search srv = Err e)
          \/ exists status all,
               search srv = Ok (status, all) /\ String.eqb status "OK" = false)).

(** The mails among [all] that [search_invoices] selects. *)
Definition found (srv : server) (all : list string) : list string :=
  List.filter (selected srv) all.

(** What the inner [except] block of [download_invoices] does when the
    [try] block has raised [e]: the commands it sends and the exception
    it raises; [closed] and [logged_out] tell whether the [try] block
    has called [close] and [logout]. *)
Definition cleanup (srv : server) (closed logged_out : bool) (e : exc)
  : list command * exc :=
  match (if closed then close_again srv else close srv) with
  | Err e' => ([Close], e')
  | Ok _ =>
      match (if logged_out then logout_again srv else logout srv) with
      | Err e' => ([Close; Logout], e')
      | Ok _ => ([Close; Logout], e)
      end
  end.

(** The [STORE] commands of a run. *)
Definition stores (mark_as_read : bool) (email_ids : list string)
  : list command :=
  if mark_as_read then map Store email_ids else [].

End GmailCases.

(** ** The downloader as [download_invoices_from_gmail] calls it *)

(** What the call [self.gmail_downloader.download_invoices(days_back=30)]
    does in the world of the downloader: [mark_as_read] has its default,
    [True]. *)
Definition downloader_call (srv : Gmail.server) (input_dir : string)
    (st : Gmail.state) : download_outcome :=
  match fst (Gmail.download_invoices srv input_dir true st) with
  | Gmail.Ok r => Returned r
  | Gmail.Err e => Raised (Gmail.exc_msg e)
  end.

(** * Properties *)

(** ** The model on sample inputs *)

Example split_ex : PyStr.split ":" "a: b:c:" = ["a"; " b"; "c"; ""].
Proof. reflexivity. Qed.

Example contains_ex : PyStr.contains "paid" "unpaid" = true /\ PyStr.contains "" "" = true
  /\ PyStr.contains "ab" "a" = false.
Proof. repeat split; reflexivity. Qed.

Example strip_ex : PyStr.strip "  INV-1 x  " = "INV-1 x".
Proof. reflexivity. Qed.

Example lower_ex : PyStr.lower "Payment STATUS: Ok" = "payment status: ok".
Proof. reflexivity. Qed.

Example float_999 : PyFloat.float_of_str "999.00" = Ret (S754_finite false 8787296929185792 (-43)).
Proof. vm_compute. reflexivity. Qed.

Example format_ex :
  PyFloat.format_2f (PyFloat.add (S754_finite false 5429652300748554 (-42))
                                 (S754_finite false 8787296929185792 (-43)))
  = "2,233.56".
Proof. vm_compute. reflexivity. Qed.

Example findall_ex :
  findall_amounts "Total Due: $1,234.56 $999.00 $ $,. $x $12.3.4$5"
  = ["1,234.56"; "999.00"; ",."; "12.3"; "5"].
Proof. reflexivity. Qed.

(** ** Facts about the string primitives *)

Section StringFacts.

Lemma prefix_has_char c sub s :
  String.prefix sub s = true -> has_char c sub = true -> has_char c s = true.
Proof.
  revert sub. induction s as [|d s IH]; intros [|a sub]; simpl; try discriminate.
  destruct (ascii_dec a d) as [->|]; [|discriminate].
  intros Hp Hc. apply orb_true_iff in Hc as [Hc|Hc].
  - rewrite Hc. reflexivity.
  - rewrite (IH _ Hp Hc). apply orb_true_r.
Qed.

Lemma contains_has_char c sub s :
  PyStr.contains sub s = true -> has_char c sub = true -> has_char c s = true.
Proof.
  intros Hs Hc. induction s as [|d s IH].
  - destruct sub; simpl in *; discriminate.
  - cbn [PyStr.contains] in Hs.
    destruct (String.prefix sub (String d s)) eqn:Hp.
    + eapply prefix_has_char; eauto.
    + simpl. rewrite (IH Hs). apply orb_true_r.
Qed.

Lemma split_unfold c s :
  PyStr.split c s
  = before_char c s :: (if has_char c s then PyStr.split c (after_char c s) else []).
Proof.
  induction s as [|d s IH]; simpl; [reflexivity|].
  destruct (Ascii.eqb d c); simpl; [reflexivity|].
  rewrite IH. reflexivity.
Qed.

Lemma split_length c s :
  has_char c s = true -> (1 <? length (PyStr.split c s))%nat = true.
Proof.
  intros H. rewrite split_unfold, H.
  rewrite (split_unfold c (after_char c s)). reflexivity.
Qed.

(** With a [c] in [s], the item of index 1 of the split is the text
    between the first [c] and the next one. *)
Lemma split_second c s :
  has_char c s = true ->
  nth 1 (PyStr.split c s) "" = before_char c (after_char c s).
Proof.
  intros H. rewrite split_unfold, H.
  rewrite (split_unfold c (after_char c s)). reflexivity.
Qed.

Lemma before_char_no c s : has_char c s = false -> before_char c s = s.
Proof.
  induction s as [|d s IH]; simpl; [reflexivity|].
  destruct (Ascii.eqb d c); simpl; [discriminate|].
  intros H. rewrite IH; auto.
Qed.

Lemma rstrip_empty s : PyStr.rstrip s = "" -> PyStr.forallb PyStr.isspace s = true.
Proof.
  induction s as [|c s IH]; simpl; [reflexivity|].
  destruct (PyStr.rstrip s); [|discriminate].
  destruct (PyStr.isspace c); [|discriminate].
  intros _. apply IH. reflexivity.
Qed.

Lemma lstrip_blank s :
  PyStr.forallb PyStr.isspace (PyStr.lstrip s) = true ->
  PyStr.forallb PyStr.isspace s = true.
Proof.
  induction s as [|c s IH]; simpl; [reflexivity|].
  destruct (PyStr.isspace c) eqn:Hc; simpl; [exact IH|].
  rewrite Hc. discriminate.
Qed.

Lemma blank_has_no_colon s :
  PyStr.forallb PyStr.isspace s = true -> has_char ":" s = false.
Proof.
  induction s as [|c s IH]; simpl; [reflexivity|].
  intros H. apply andb_true_iff in H as [Hc Hs]. rewrite (IH Hs).
  destruct (Ascii.eqb c ":") eqn:He; [|reflexivity].
  apply Ascii.eqb_eq in He. subst c. discriminate.
Qed.

(** A line with nothing but blanks after its first colon has nothing but
    blanks between that colon and the next. *)
Lemma strip_empty_before_char s :
  PyStr.strip s = "" -> PyStr.strip (before_char ":" s) = "".
Proof.
  intros H. rewrite before_char_no; [exact H|].
  apply blank_has_no_colon, lstrip_blank, rstrip_empty. exact H.
Qed.

End StringFacts.

(** ** Facts about floats *)

Section FloatFacts.

Lemma binary_round_aux_sign_clear m e l :
  sign_clear (binary_round_aux PyFloat.prec PyFloat.emax false m e l).
Proof.
  unfold binary_round_aux.
  destruct (shr_fexp _ _ m e l) as [mrs' e'].
  destruct (shr_fexp _ _ _ e' loc_Exact) as [mrs'' e''].
  destruct (shr_m mrs''); simpl; auto.
  destruct (Z.leb _ _); simpl; auto.
Qed.

Lemma of_decimal_sign_clear m k : sign_clear (PyFloat.of_decimal m k).
Proof.
  unfold PyFloat.of_decimal. destruct m; simpl; auto.
  destruct (SFdiv_core_binary _ _ _ _ _ _) as [[q e] l].
  apply binary_round_aux_sign_clear.
Qed.

Lemma float_of_str_sign_clear s x :
  PyFloat.float_of_str s = Ret x -> sign_clear x.
Proof.
  unfold PyFloat.float_of_str.
  destruct (PyStr.span PyStr.isdigit s) as [ip r].
  destruct r as [|c fp].
  - destruct ip; [discriminate|]. intros [= <-]. apply of_decimal_sign_clear.
  - destruct (Ascii.eqb c "."%char) eqn:Hc.
    + apply Ascii.eqb_eq in Hc as ->.
      destruct (PyStr.forallb _ fp); [|discriminate].
      destruct (ip +:+ fp); [discriminate|].
      intros [= <-]. apply of_decimal_sign_clear.
    + intros H. exfalso. revert H Hc.
      destruct c as [[] [] [] [] [] [] [] []]; simpl; discriminate.
Qed.

(** [float] raises nothing but [ValueError]. *)
Lemma float_of_str_raise s e :
  PyFloat.float_of_str s = Raise e -> e = ValueError.
Proof.
  unfold PyFloat.float_of_str.
  destruct (PyStr.span PyStr.isdigit s) as [ip r].
  destruct r as [|c fp].
  - destruct ip; [|discriminate]. intros [= <-]. reflexivity.
  - destruct c as [[] [] [] [] [] [] [] []];
      try (intros [= <-]; reflexivity).
    destruct (PyStr.forallb _ fp); [|intros [= <-]; reflexivity].
    destruct (ip +:+ fp); [|discriminate]. intros [= <-]. reflexivity.
Qed.

Lemma add_sign_clear x y :
  sign_clear x -> sign_clear y -> sign_clear (PyFloat.add x y).
Proof.
  destruct x as [sx|sx| |sx mx ex], y as [sy|sy| |sy my ey]; simpl;
    intros Hx Hy; subst; simpl; auto.
  unfold binary_normalize.
  destruct (shl_align mx ex (Z.min ex ey)) as [ax ?].
  destruct (shl_align my ey (Z.min ex ey)) as [ay ?]. simpl.
  unfold binary_round.
  destruct (shl_align _ _ _) as [mz ez].
  apply binary_round_aux_sign_clear.
Qed.

Lemma add_zero_r x : sign_clear x -> PyFloat.add x PyFloat.zero = x.
Proof. destruct x as [sx|sx| |sx mx ex]; simpl; intros H; subst; reflexivity. Qed.

Lemma falsy_sign_clear x :
  sign_clear x -> PyFloat.truthy x = false -> x = PyFloat.zero.
Proof. destruct x; simpl; intros H; subst; try discriminate; reflexivity. Qed.

End FloatFacts.

(** ** The strings handed to [float] *)

Section Pattern.

Lemma span_fst_all p s : PyStr.forallb p (fst (PyStr.span p s)) = true.
Proof.
  induction s as [|c s IH]; simpl; [reflexivity|].
  destruct (p c) eqn:Hc; [|reflexivity].
  destruct (PyStr.span p s) as [a b]. simpl in *. rewrite Hc. exact IH.
Qed.

Lemma span_all p s : PyStr.forallb p s = true -> PyStr.span p s = (s, "").
Proof.
  induction s as [|c s IH]; simpl; [reflexivity|].
  intros H. apply andb_true_iff in H as [Hc Hs]. rewrite Hc, (IH Hs). reflexivity.
Qed.

Lemma span_app_all p a b :
  PyStr.forallb p a = true ->
  PyStr.span p (a +:+ b) = (a +:+ fst (PyStr.span p b), snd (PyStr.span p b)).
Proof.
  induction a as [|c a IH]; simpl.
  - intros _.
    change (PyStr.span p b = (fst (PyStr.span p b), snd (PyStr.span p b))).
    destruct (PyStr.span p b); reflexivity.
  - intros H. apply andb_true_iff in H as [Hc Ha].
    change (PyStr.span p (String c (a +:+ b))
            = (String c (a +:+ fst (PyStr.span p b)), snd (PyStr.span p b))).
    simpl. rewrite Hc, (IH Ha). reflexivity.
Qed.

Lemma remove_char_app c a b :
  PyStr.remove_char c (a +:+ b) = PyStr.remove_char c a +:+ PyStr.remove_char c b.
Proof.
  induction a as [|d a IH]; simpl; [reflexivity|].
  destruct (Ascii.eqb d c); simpl; rewrite IH; reflexivity.
Qed.

Lemma remove_comma_digits s :
  PyStr.forallb PyStr.isdigit s = true -> PyStr.remove_char "," s = s.
Proof.
  induction s as [|d s IH]; simpl; [reflexivity|].
  intros H. apply andb_true_iff in H as [Hd Hs].
  destruct (Ascii.eqb d ",") eqn:He.
  - apply Ascii.eqb_eq in He. subst d. discriminate.
  - rewrite (IH Hs). reflexivity.
Qed.

Lemma remove_comma_all_digits s :
  PyStr.forallb digit_or_comma s = true ->
  PyStr.forallb PyStr.isdigit (PyStr.remove_char "," s) = true.
Proof.
  induction s as [|d s IH]; simpl; [reflexivity|].
  intros H. apply andb_true_iff in H as [Hd Hs]. unfold digit_or_comma in Hd.
  destruct (Ascii.eqb d ",") eqn:He; [exact (IH Hs)|].
  simpl. rewrite orb_false_r in Hd. rewrite Hd. exact (IH Hs).
Qed.

Lemma amount_group_literal s g :
  amount_group s = Some g -> amount_literal (PyStr.remove_char "," g) = true.
Proof.
  unfold amount_group.
  pose proof (span_fst_all digit_or_comma s) as Hip.
  destruct (PyStr.span digit_or_comma s) as [ip r1]. simpl in Hip.
  destruct ip as [|c ip]; [discriminate|].
  apply remove_comma_all_digits in Hip.
  set (ip' := PyStr.remove_char "," (String c ip)) in *.
  assert (Hshape : forall dot r2,
            (dot = "." \/ dot = "") ->
            amount_literal
              (PyStr.remove_char ","
                 (String c ip +:+ dot +:+ fst (PyStr.span PyStr.isdigit r2)))
            = true).
  { intros dot r2 Hdot.
    pose proof (span_fst_all PyStr.isdigit r2) as Hfp.
    set (fp := fst (PyStr.span PyStr.isdigit r2)) in *.
    rewrite !remove_char_app. fold ip'.
    rewrite (remove_comma_digits fp Hfp).
    unfold amount_literal. rewrite (span_app_all _ _ _ Hip).
    destruct Hdot as [-> | ->]; simpl; change ("" +:+ fp) with fp.
    - exact Hfp.
    - rewrite (span_all _ _ Hfp). reflexivity. }
  destruct r1 as [|d r].
  - destruct (PyStr.span PyStr.isdigit "") as [fp rest] eqn:Hs.
    intros [= <-]. change fp with (fst (fp, rest)). rewrite <- Hs.
    apply Hshape. auto.
  - destruct (Ascii.eqb d ".") eqn:Hd.
    + apply Ascii.eqb_eq in Hd. subst d.
      destruct (PyStr.span PyStr.isdigit r) as [fp rest] eqn:Hs.
      intros [= <-]. change fp with (fst (fp, rest)). rewrite <- Hs.
      apply Hshape. auto.
    + assert (Hgen : forall fp rest,
                PyStr.span PyStr.isdigit (String d r) = (fp, rest) ->
                Some (String c ip +:+ "" +:+ fp) = Some g ->
                amount_literal (PyStr.remove_char "," g) = true).
      { intros fp rest Hs [= <-]. change fp with (fst (fp, rest)). rewrite <- Hs.
        apply Hshape. auto. }
      revert Hgen Hd.
      destruct d as [[] [] [] [] [] [] [] []]; try discriminate;
        intros Hgen _;
        (destruct (PyStr.span PyStr.isdigit _) as [fp rest] eqn:Hs;
         apply (Hgen fp rest); reflexivity || exact Hs).
Qed.

(** Every string the amount loop hands to [float], once its commas are
    removed, has the shape [float_of_str] is defined for. *)
Lemma findall_amounts_literal line g :
  In g (findall_amounts line) ->
  amount_literal (PyStr.remove_char "," g) = true.
Proof.
  unfold findall_amounts. generalize 0. induction line as [|c s IH]; intros skip.
  - simpl. tauto.
  - cbn [findall_from]. destruct skip as [|k]; [|apply IH].
    destruct (Ascii.eqb c "$"); [|apply IH].
    destruct (amount_group s) as [g0|] eqn:Hg; [|apply IH].
    intros [<-|Hin]; [eapply amount_group_literal; eauto|eapply IH; eauto].
Qed.

End Pattern.

(** ** The loops as first-match searches *)

Section Scans.

Lemma labelled_value label line :
  has_char ":" label = true -> PyStr.contains label line = true ->
  (1 <? length (PyStr.split ":" line))%nat = true
  /\ PyStr.strip (nth 1 (PyStr.split ":" line) "") = colon_value line.
Proof.
  intros Hl Hc. pose proof (contains_has_char _ _ _ Hc Hl) as H.
  split; [apply split_length; exact H|].
  unfold colon_value. rewrite split_second; auto.
Qed.

Lemma scan_label_find label lines :
  has_char ":" label = true ->
  scan_label label lines
  = option_map colon_value (List.find (PyStr.contains label) lines).
Proof.
  intros Hl. induction lines as [|line rest IH]; simpl; [reflexivity|].
  destruct (PyStr.contains label line) eqn:Hc; [|exact IH].
  destruct (labelled_value _ _ Hl Hc) as [-> ->]. reflexivity.
Qed.

Lemma scan_payment_status_find lines :
  scan_payment_status lines
  = match List.find (PyStr.contains "Payment Status:") lines with
    | Some line => (Some (normalize_status (colon_value line)), true)
    | None => (None, false)
    end.
Proof.
  induction lines as [|line rest IH]; simpl; [reflexivity|].
  destruct (PyStr.contains "Payment Status:" line) eqn:Hc; [|exact IH].
  destruct (labelled_value "Payment Status:" line eq_refl Hc) as [-> ->].
  reflexivity.
Qed.

Lemma scan_vendor_find lines :
  scan_vendor lines
  = option_map PyStr.strip
      (List.find (fun line => vendor_candidate (PyStr.strip line)) lines).
Proof.
  induction lines as [|line rest IH]; simpl; [reflexivity|].
  destruct (vendor_candidate (PyStr.strip line)); [reflexivity|exact IH].
Qed.

Lemma scan_amount_ret lines : scan_amount lines = Ret (first_amount lines).
Proof.
  induction lines as [|line rest IH]; simpl; [reflexivity|].
  unfold line_amount.
  destruct (PyStr.contains "$" line); [|exact IH].
  destruct (findall_amounts line) as [|a amounts]; [exact IH|].
  destruct (PyFloat.float_of_str _) as [x|e] eqn:Hf; [reflexivity|].
  apply float_of_str_raise in Hf. subst e. exact IH.
Qed.

Lemma first_amount_app pre post :
  first_amount (pre ++ post)
  = match first_amount pre with
    | Some x => Some x
    | None => first_amount post
    end.
Proof.
  induction pre as [|l pre IH]; simpl; [reflexivity|].
  destruct (line_amount l); auto.
Qed.

Lemma first_amount_none lines :
  first_amount lines = None <-> Forall (fun l => line_amount l = None) lines.
Proof.
  induction lines as [|l lines IH]; simpl.
  - split; auto.
  - destruct (line_amount l) eqn:Hl.
    + split; [discriminate|]. intros H. inversion H; congruence.
    + rewrite IH. split; [intros; constructor; auto|intros H; inversion H; auto].
Qed.

Lemma line_amount_sign_clear line x : line_amount line = Some x -> sign_clear x.
Proof.
  unfold line_amount. destruct (PyStr.contains "$" line); [|discriminate].
  destruct (findall_amounts line); [discriminate|].
  destruct (PyFloat.float_of_str _) eqn:Hf; [|discriminate].
  intros [= <-]. eapply float_of_str_sign_clear; eauto.
Qed.

Lemma first_amount_sign_clear lines x :
  first_amount lines = Some x -> sign_clear x.
Proof.
  induction lines as [|l lines IH]; simpl; [discriminate|].
  destruct (line_amount l) eqn:Hl; auto.
  intros [= <-]. eapply line_amount_sign_clear; eauto.
Qed.

Lemma find_none_Forall {A} (f : A -> bool) l :
  List.find f l = None <-> Forall (fun x => f x = false) l.
Proof.
  induction l as [|a l IH]; simpl.
  - split; auto.
  - destruct (f a) eqn:Ha.
    + split; [discriminate|]. intros H. inversion H; congruence.
    + rewrite IH. split; [intros; constructor; auto|intros H; inversion H; auto].
Qed.

Lemma find_app_first {A} (f : A -> bool) pre x post :
  Forall (fun y => f y = false) pre -> f x = true ->
  List.find f (pre ++ x :: post) = Some x.
Proof.
  induction 1 as [|y pre Hy _ IH]; simpl; intros Hx.
  - rewrite Hx. reflexivity.
  - rewrite Hy. auto.
Qed.

Lemma vendor_candidate_spec s :
  vendor_candidate s = true <->
  s <> "" /\ 3 < String.length s
  /\ forall keyword, In keyword skip_keywords ->
                     PyStr.contains keyword (PyStr.lower s) = false.
Proof.
  unfold vendor_candidate.
  rewrite !andb_true_iff, !negb_true_iff, String.eqb_neq, Nat.ltb_lt.
  rewrite <- not_true_iff_false, existsb_exists.
  split.
  - intros [[H1 H2] H3]. repeat split; auto.
    intros k Hk. apply not_true_iff_false. intros Hc. apply H3. eauto.
  - intros (H1 & H2 & H3). repeat split; auto.
    intros (k & Hk & Hc). rewrite (H3 k Hk) in Hc. discriminate.
Qed.

End Scans.

(** ** What a run of [extract_invoice_data] returns *)

Section Runs.

Lemma say_more_nil w : say_more w [] = w.
Proof. destruct w; unfold say_more; simpl. rewrite app_nil_r. reflexivity. Qed.

Lemma say_more_app w evs evs' :
  say_more (say_more w evs) evs' = say_more w (evs ++ evs').
Proof. unfold say_more; simpl. rewrite app_assoc. reflexivity. Qed.

Lemma scan_fields_eq name text :
  let lines := PyStr.split "010"%char text in
  scan_fields name text
  = Ret {| invoice_number := scan_label "Invoice Number:" lines;
           vendor_name := scan_vendor lines;
           invoice_date := scan_label "Invoice Date:" lines;
           invoice_amount := first_amount lines;
           due_date := scan_label "Due Date:" lines;
           payment_status := fst (scan_payment_status lines);
           file_path := name |}.
Proof.
  intros lines. unfold scan_fields. fold lines. rewrite scan_amount_ret.
  rewrite scan_payment_status_find.
  destruct (List.find _ lines); reflexivity.
Qed.

Lemma scan_fields_ret name text :
  exists d, scan_fields name text = Ret d /\ file_path d = name.
Proof. rewrite scan_fields_eq. eauto. Qed.

Lemma extract_body_run pdf_path w :
  exists evs,
    extract_body pdf_path w
    = (match read_text (fs w) pdf_path with
       | Ret text => scan_fields (path_name pdf_path) text
       | Raise e => Raise e
       end, say_more w evs).
Proof.
  unfold extract_body, read_text, mbind, M_bind, print, open_pdf, lift, mret, M_ret.
  simpl.
  destruct (fs w !! pdf_path) as [[msg|pages]|]; simpl;
    try (exists [SayProcessing (path_name pdf_path)]; reflexivity).
  destruct (read_pages pages "") as [text|e]; simpl;
    try (exists [SayProcessing (path_name pdf_path)]; reflexivity).
  destruct (scan_fields (path_name pdf_path) text) as [d|e]; simpl;
    try (exists [SayProcessing (path_name pdf_path)]; reflexivity).
  exists [SayProcessing (path_name pdf_path); SayExtracted d].
  unfold say_more; simpl. rewrite <- app_assoc. reflexivity.
Qed.

Lemma extract_invoice_data_run pdf_path w :
  exists evs,
    extract_invoice_data pdf_path w
    = (Ret (extracted (fs w) pdf_path), say_more w evs).
Proof.
  destruct (extract_body_run pdf_path w) as [evs Hb].
  unfold extract_invoice_data, try_except, extracted. rewrite Hb.
  destruct (read_text (fs w) pdf_path) as [text|e].
  - destruct (scan_fields_ret (path_name pdf_path) text) as (d & -> & _).
    eauto.
  - exists (evs ++ [SayError pdf_path e]).
    rewrite <- say_more_app. reflexivity.
Qed.

Lemma extract_all_run files : forall acc w,
  exists evs,
    extract_all files acc w
    = (Ret (acc ++ List.filter has_data (map (extracted (fs w)) files)),
       say_more w evs).
Proof.
  induction files as [|p files IH]; intros acc w.
  - exists []. simpl. rewrite app_nil_r, say_more_nil. reflexivity.
  - destruct (extract_invoice_data_run p w) as [evs Hp].
    cbn [extract_all]. unfold mbind, M_bind at 1. rewrite Hp.
    destruct (IH (if has_data (extracted (fs w) p)
                  then acc ++ [extracted (fs w) p] else acc)
                 (say_more w evs)) as [evs' ->].
    exists (evs ++ evs'). rewrite say_more_app. simpl.
    destruct (has_data (extracted (fs w) p)); simpl.
    + rewrite <- app_assoc. reflexivity.
    + reflexivity.
Qed.

End Runs.

(** * The claims *)

(** C1. Extraction never raises. Whatever is stored under the path, and
    in every world, [extract_invoice_data] returns a record: a value of
    the record type with exactly the seven components [invoice_number],
    [vendor_name], [invoice_date], [invoice_amount], [due_date],
    [payment_status] and [file_path], the last being the base name of
    the path. When the [try] block raises, for whatever reason, the
    record has its six data fields [None]; this is so in particular when
    reading the document fails. *)
Theorem extract_never_raises (pdf_path : string) (w : world) :
  exists d w',
    extract_invoice_data pdf_path w = (Ret d, w')
    /\ d = {| invoice_number := invoice_number d; vendor_name := vendor_name d;
              invoice_date := invoice_date d; invoice_amount := invoice_amount d;
              due_date := due_date d; payment_status := payment_status d;
              file_path := path_name pdf_path |}
    /\ (forall e w1, extract_body pdf_path w = (Raise e, w1) ->
          d = null_data (path_name pdf_path))
    /\ (forall e, read_text (fs w) pdf_path = Raise e ->
          d = null_data (path_name pdf_path)).
Proof.
  destruct (extract_invoice_data_run pdf_path w) as [evs Hrun].
  exists (extracted (fs w) pdf_path), (say_more w evs).
  split; [exact Hrun|].
  assert (Hname : file_path (extracted (fs w) pdf_path) = path_name pdf_path).
  { unfold extracted. destruct (read_text (fs w) pdf_path); [|reflexivity].
    destruct (scan_fields_ret (path_name pdf_path) a) as (d & -> & Hd). exact Hd. }
  split; [|split].
  - rewrite <- Hname. destruct (extracted (fs w) pdf_path). reflexivity.
  - intros e w1 Hb. destruct (extract_body_run pdf_path w) as [evs' Hb'].
    rewrite Hb' in Hb. unfold extracted.
    destruct (read_text (fs w) pdf_path) as [text|e']; [|reflexivity].
    destruct (scan_fields_ret (path_name pdf_path) text) as (d & Hd & _).
    rewrite Hd in Hb. discriminate.
  - intros e He. unfold extracted. rewrite He. reflexivity.
Qed.

Lemma extract_never_raises_witness :
  exists w',
    extract_invoice_data "input/bad.pdf" sample_world
    = (Ret (null_data "bad.pdf"), w').
Proof.
  destruct (extract_never_raises "input/bad.pdf" sample_world)
    as (d & w' & Hrun & _ & _ & Hnull).
  exists w'. rewrite Hrun.
  rewrite (Hnull (PdfError "EOF marker not found") eq_refl).
  reflexivity.
Defined.

(** C8. Determinism. Two runs of [extract_invoice_data] on the same path,
    the second in the world the first one left, return the same record;
    the runs leave the object, the files and the written workbooks as
    they were (only console output is added); and any run, in any world
    and under any path with the same base name, that reads the same text
    returns that record too: the record depends on the text read and on
    the file name, and on nothing else. *)
Theorem extract_deterministic (pdf_path : string) (w : world) :
  exists d w1 w2,
    extract_invoice_data pdf_path w = (Ret d, w1)
    /\ extract_invoice_data pdf_path w1 = (Ret d, w2)
    /\ self w2 = self w /\ fs w2 = fs w /\ written w2 = written w
    /\ (forall pdf_path' w',
          path_name pdf_path' = path_name pdf_path ->
          read_text (fs w') pdf_path' = read_text (fs w) pdf_path ->
          fst (extract_invoice_data pdf_path' w') = Ret d).
Proof.
  destruct (extract_invoice_data_run pdf_path w) as [evs1 H1].
  destruct (extract_invoice_data_run pdf_path (say_more w evs1)) as [evs2 H2].
  exists (extracted (fs w) pdf_path), (say_more w evs1),
         (say_more (say_more w evs1) evs2).
  repeat split; auto.
  intros p' w' Hn Ht.
  destruct (extract_invoice_data_run p' w') as [evs' ->]. simpl.
  unfold extracted. rewrite Ht, Hn. reflexivity.
Qed.

Lemma extract_deterministic_witness :
  fst (extract_invoice_data "archive/a.pdf"
         {| self := sample_rpa;
            fs := {[ "archive/a.pdf" := Pdf [Ret sample_text; Ret "page two"] ]};
            stdout := [Say banner]; written := [] |})
  = fst (extract_invoice_data "input/a.pdf" sample_world).
Proof.
  destruct (extract_deterministic "input/a.pdf" sample_world)
    as (d & w1 & w2 & H1 & _ & _ & _ & _ & Hsame).
  rewrite H1. simpl.
  apply Hsame; reflexivity.
Defined.

(** C2. The amount rule. The amount loop never raises and returns the
    amount of the first line that yields one, where a line yields an
    amount when it contains a dollar sign, the amount pattern matches
    somewhere on it, and the last match, with its commas removed, reads
    as a float. Lines before that one are passed over, whether they have
    no dollar sign, no match, or a last match that [float] rejects; lines
    after it play no part. When no line yields an amount the result is
    [None]. The single line [Total Due: $1,234.56 $999.00] gives 999.0.
    Every string handed to [float] is made of digits with at most one
    point, the shape [float_of_str] is defined for. The field
    [invoice_amount] of the record is the result of the loop. *)
Theorem amount_rule (lines : list string) :
  scan_amount lines = Ret (first_amount lines)
  /\ (forall pre line post x,
        lines = pre ++ line :: post ->
        Forall (fun l => line_amount l = None) pre ->
        line_amount line = Some x ->
        scan_amount lines = Ret (Some x))
  /\ (Forall (fun l => line_amount l = None) lines -> scan_amount lines = Ret None)
  /\ scan_amount ["Total Due: $1,234.56 $999.00"]
     = Ret (Some (S754_finite false (Z.to_pos (999 * 2 ^ 43)) (-43)))
  /\ scan_amount ["Total Due: $abc"; "Total Due: $,"; "Fee: $12 "]
     = Ret (Some (S754_finite false (Z.to_pos (12 * 2 ^ 49)) (-49)))
  /\ (forall line g, In g (findall_amounts line) ->
        amount_literal (PyStr.remove_char "," g) = true)
  /\ (forall name text,
        exists d, scan_fields name text = Ret d
                  /\ invoice_amount d = first_amount (PyStr.split "010"%char text)).
Proof.
  split; [apply scan_amount_ret|].
  split.
  { intros pre line post x -> Hpre Hline. rewrite scan_amount_ret.
    rewrite first_amount_app. apply first_amount_none in Hpre. rewrite Hpre.
    simpl. rewrite Hline. reflexivity. }
  split.
  { intros H. rewrite scan_amount_ret. apply first_amount_none in H.
    rewrite H. reflexivity. }
  split; [vm_compute; reflexivity|].
  split; [vm_compute; reflexivity|].
  split; [apply findall_amounts_literal|].
  intros name text. rewrite scan_fields_eq. eauto.
Qed.

Lemma amount_rule_witness :
  scan_amount ["Invoice"; "Subtotal $"; "Total Due: $1,234.56 $999.00"; "Tax $5"]
  = Ret (Some (S754_finite false 8787296929185792 (-43)))
  /\ scan_amount ["Invoice"; "Subtotal $"] = Ret None.
Proof.
  split.
  - destruct (amount_rule ["Invoice"; "Subtotal $"; "Total Due: $1,234.56 $999.00"; "Tax $5"])
      as (_ & Hfirst & _).
    apply (Hfirst ["Invoice"; "Subtotal $"] "Total Due: $1,234.56 $999.00" ["Tax $5"]).
    + reflexivity.
    + repeat constructor.
    + vm_compute. reflexivity.
  - destruct (amount_rule ["Invoice"; "Subtotal $"]) as (_ & _ & Hnone & _).
    apply Hnone. repeat constructor.
Defined.

(** C3, as stated, fails: on the line [Invoice Number: INV-2024:001] the
    stripped text after the first colon is [INV-2024:001], but the loop
    assigns [INV-2024]. *)
Lemma invoice_number_not_after_colon :
  let lines := ["Invoice Number: INV-2024:001"] in
  List.find (PyStr.contains "Invoice Number:") lines
    = Some "Invoice Number: INV-2024:001"
  /\ after_colon_value "Invoice Number: INV-2024:001" = "INV-2024:001"
  /\ scan_label "Invoice Number:" lines = Some "INV-2024"
  /\ scan_label "Invoice Number:" lines
     <> option_map after_colon_value
          (List.find (PyStr.contains "Invoice Number:") lines).
Proof. vm_compute. repeat split; discriminate. Qed.

(** C3, amended. The invoice number is the stripped text between the
    first colon and the next colon (or the end of the line) of the first
    line containing [Invoice Number:], and [None] when no line contains
    that label; when nothing after the first colon is a colon, this is
    the stripped text after the first colon; and a line
    [Invoice Number: INV-2024-001] that is the first with the label
    gives [INV-2024-001]. The field [invoice_number] of the record is
    this value. *)
Theorem invoice_number_rule (lines : list string) :
  scan_label "Invoice Number:" lines
  = option_map colon_value (List.find (PyStr.contains "Invoice Number:") lines)
  /\ (List.find (PyStr.contains "Invoice Number:") lines = None ->
      scan_label "Invoice Number:" lines = None)
  /\ (forall line, has_char ":" (after_char ":" line) = false ->
                   colon_value line = after_colon_value line)
  /\ (forall pre post,
        Forall (fun l => PyStr.contains "Invoice Number:" l = false) pre ->
        scan_label "Invoice Number:"
          (pre ++ "Invoice Number: INV-2024-001" :: post)
        = Some "INV-2024-001")
  /\ (forall name text,
        exists d, scan_fields name text = Ret d
                  /\ invoice_number d
                     = scan_label "Invoice Number:" (PyStr.split "010"%char text)).
Proof.
  split; [apply scan_label_find; reflexivity|].
  split.
  { intros H. rewrite scan_label_find by reflexivity. rewrite H. reflexivity. }
  split.
  { intros line H. unfold colon_value, after_colon_value.
    rewrite before_char_no; auto. }
  split.
  { intros pre post Hpre. rewrite scan_label_find by reflexivity.
    rewrite find_app_first; auto. }
  intros name text. rewrite scan_fields_eq. eauto.
Qed.

Lemma invoice_number_rule_witness :
  scan_label "Invoice Number:"
    (["ACME Corp"; "Invoice Date: 2024-01-05"]
       ++ "Invoice Number: INV-2024-001" :: ["Invoice Number: INV-9"])
  = Some "INV-2024-001"
  /\ colon_value "Invoice Number: INV-2024-001" = "INV-2024-001".
Proof.
  destruct (invoice_number_rule ["Invoice Number: INV-2024-001"])
    as (_ & _ & Hfull & Hex & _).
  split.
  - apply Hex. repeat constructor.
  - rewrite Hfull; reflexivity.
Defined.

(** C5, as stated, fails: on the line [Payment Status: Note: unpaid] the
    value after the colon contains [unpaid], yet the status assigned is
    the raw text [Note], not [Unpaid]. *)
Lemma payment_status_not_after_colon :
  let lines := ["Payment Status: Note: unpaid"] in
  after_colon_value "Payment Status: Note: unpaid" = "Note: unpaid"
  /\ normalize_status (after_colon_value "Payment Status: Note: unpaid") = "Unpaid"
  /\ scan_payment_status lines = (Some "Note", true)
  /\ fst (scan_payment_status lines)
     <> option_map (fun l => normalize_status (after_colon_value l))
          (List.find (PyStr.contains "Payment Status:") lines).
Proof. vm_compute. repeat split; discriminate. Qed.

(** C5, amended. The payment status is decided by the first line
    containing [Payment Status:], from the stripped text between that
    line's first colon and the next colon (or the end of the line): if
    that text, lowercased, contains [unpaid] the status is [Unpaid];
    otherwise, if it contains [paid], the status is [Paid]; otherwise the
    status is that text unchanged. With no such line the status is
    [None]. A first labelled line [Payment Status: UNPAID] gives
    [Unpaid] and [Payment Status: Paid in full] gives [Paid]. The field
    [payment_status] of the record is this value. *)
Theorem payment_status_rule (lines : list string) :
  fst (scan_payment_status lines)
  = option_map (fun l => normalize_status (colon_value l))
      (List.find (PyStr.contains "Payment Status:") lines)
  /\ (List.find (PyStr.contains "Payment Status:") lines = None ->
      fst (scan_payment_status lines) = None)
  /\ (forall v, PyStr.contains "unpaid" (PyStr.lower v) = true ->
                normalize_status v = "Unpaid")
  /\ (forall v, PyStr.contains "unpaid" (PyStr.lower v) = false ->
                PyStr.contains "paid" (PyStr.lower v) = true ->
                normalize_status v = "Paid")
  /\ (forall v, PyStr.contains "unpaid" (PyStr.lower v) = false ->
                PyStr.contains "paid" (PyStr.lower v) = false ->
                normalize_status v = v)
  /\ (forall pre post,
        Forall (fun l => PyStr.contains "Payment Status:" l = false) pre ->
        fst (scan_payment_status (pre ++ "Payment Status: UNPAID" :: post))
        = Some "Unpaid"
        /\ fst (scan_payment_status
                  (pre ++ "Payment Status: Paid in full" :: post))
           = Some "Paid")
  /\ (forall name text,
        exists d, scan_fields name text = Ret d
                  /\ payment_status d
                     = fst (scan_payment_status (PyStr.split "010"%char text))).
Proof.
  split.
  { rewrite scan_payment_status_find. destruct (List.find _ lines); reflexivity. }
  split.
  { intros H. rewrite scan_payment_status_find, H. reflexivity. }
  split; [intros v H; unfold normalize_status; rewrite H; reflexivity|].
  split; [intros v H1 H2; unfold normalize_status; rewrite H1, H2; reflexivity|].
  split; [intros v H1 H2; unfold normalize_status; rewrite H1, H2; reflexivity|].
  split.
  { intros pre post Hpre.
    rewrite !scan_payment_status_find, !find_app_first; auto. }
  intros name text. rewrite scan_fields_eq. eauto.
Qed.

Lemma payment_status_rule_witness :
  fst (scan_payment_status
         (["ACME Corp"; "Status: open"] ++ "Payment Status: UNPAID"
            :: ["Payment Status: Paid"]))
  = Some "Unpaid"
  /\ normalize_status "Paid in full" = "Paid"
  /\ normalize_status "pending" = "pending".
Proof.
  destruct (payment_status_rule []) as (_ & _ & _ & Hpaid & Hraw & Hex & _).
  split; [|split].
  - apply (Hex ["ACME Corp"; "Status: open"] ["Payment Status: Paid"]).
    repeat constructor.
  - apply Hpaid; reflexivity.
  - apply Hraw; reflexivity.
Defined.

(** C4. The vendor rule. The vendor name is the stripped form of the
    first line whose stripped form is non-empty, longer than three
    characters and, lowercased, contains none of the seventeen words of
    the stoplist; with no such line it is [None]. The field [vendor_name]
    of the record is this value. *)
Theorem vendor_name_rule (lines : list string) :
  scan_vendor lines
  = option_map PyStr.strip
      (List.find (fun line => vendor_candidate (PyStr.strip line)) lines)
  /\ (forall s, vendor_candidate s = true <->
                s <> "" /\ 3 < String.length s
                /\ forall keyword, In keyword skip_keywords ->
                     PyStr.contains keyword (PyStr.lower s) = false)
  /\ skip_keywords
     = ["invoice"; "bill"; "date"; "phone"; "email"; "address"; "description";
        "qty"; "unit"; "total"; "please"; "share"; "form"; "within"; "hours";
        "recent"; "infusion"]
  /\ (List.find (fun line => vendor_candidate (PyStr.strip line)) lines = None
      <-> scan_vendor lines = None)
  /\ (forall name text,
        exists d, scan_fields name text = Ret d
                  /\ vendor_name d = scan_vendor (PyStr.split "010"%char text)).
Proof.
  split; [apply scan_vendor_find|].
  split; [apply vendor_candidate_spec|].
  split; [reflexivity|].
  split.
  { rewrite scan_vendor_find. destruct (List.find _ lines); simpl; split;
      (discriminate || reflexivity). }
  intros name text. rewrite scan_fields_eq. eauto.
Qed.

(** C9. For each of the labels [Invoice Number:], [Invoice Date:] and
    [Due Date:]: when the first line containing the label carries an
    empty value (nothing but blanks between its first colon and the next
    colon or the end of the line, which is the case whenever nothing but
    blanks follows its first colon), as the line consisting of the label
    alone does, the loop assigns the empty string, whereas without any
    labelled line it assigns nothing and the field stays [None]. So a
    document whose lines are the three bare labels has the three fields
    equal to the empty string, and the empty document has them [None]. *)
Theorem empty_value_is_empty_string :
  (forall label line pre post,
     In label ["Invoice Number:"; "Invoice Date:"; "Due Date:"] ->
     Forall (fun l => PyStr.contains label l = false) pre ->
     PyStr.contains label line = true ->
     colon_value line = "" ->
     scan_label label (pre ++ line :: post) = Some "")
  /\ (forall label pre post,
        In label ["Invoice Number:"; "Invoice Date:"; "Due Date:"] ->
        Forall (fun l => PyStr.contains label l = false) pre ->
        scan_label label (pre ++ label :: post) = Some ""
        /\ scan_label label pre = None)
  /\ (forall line, after_colon_value line = "" -> colon_value line = "")
  /\ (forall name,
        exists d,
          scan_fields name
            ("Invoice Number:" +:+ newline +:+ "Invoice Date:" +:+ newline
             +:+ "Due Date:") = Ret d
          /\ invoice_number d = Some "" /\ invoice_date d = Some ""
          /\ due_date d = Some "")
  /\ (forall name,
        exists d,
          scan_fields name "" = Ret d
          /\ invoice_number d = None /\ invoice_date d = None
          /\ due_date d = None)
  /\ (forall name text,
        exists d,
          scan_fields name text = Ret d
          /\ invoice_number d
             = scan_label "Invoice Number:" (PyStr.split "010"%char text)
          /\ invoice_date d
             = scan_label "Invoice Date:" (PyStr.split "010"%char text)
          /\ due_date d
             = scan_label "Due Date:" (PyStr.split "010"%char text)).
Proof.
  assert (Hcolon : forall label,
            In label ["Invoice Number:"; "Invoice Date:"; "Due Date:"] ->
            has_char ":" label = true
            /\ PyStr.contains label label = true /\ colon_value label = "").
  { intros label Hlabel. simpl in Hlabel.
    destruct Hlabel as [<-|[<-|[<-|[]]]]; repeat split; reflexivity. }
  split.
  { intros label line pre post Hlabel Hpre Hline Hval.
    destruct (Hcolon label Hlabel) as (Hc & _ & _).
    rewrite scan_label_find, find_app_first; auto.
    simpl. rewrite Hval. reflexivity. }
  split.
  { intros label pre post Hlabel Hpre.
    destruct (Hcolon label Hlabel) as (Hc & Hself & Hval).
    split.
    - rewrite scan_label_find, find_app_first; auto.
      simpl. rewrite Hval. reflexivity.
    - rewrite scan_label_find by auto.
      apply find_none_Forall in Hpre. rewrite Hpre. reflexivity. }
  split.
  { intros line. apply strip_empty_before_char. }
  split.
  { intros name. rewrite scan_fields_eq. eexists. split; [reflexivity|].
    repeat split; reflexivity. }
  split.
  { intros name. rewrite scan_fields_eq. eexists. split; [reflexivity|].
    repeat split; reflexivity. }
  intros name text. rewrite scan_fields_eq. eexists. split; [reflexivity|].
  repeat split; reflexivity.
Qed.

Lemma empty_value_is_empty_string_witness :
  scan_label "Due Date:"
    (["ACME Corp"; "Invoice Date:"] ++ "Due Date:  " :: ["Due Date: 1 May"])
  = Some ""
  /\ scan_label "Invoice Date:" (["ACME Corp"] ++ "Invoice Date:" :: []) = Some ""
  /\ scan_label "Invoice Date:" ["ACME Corp"] = None.
Proof.
  destruct empty_value_is_empty_string as (Hline & Hbare & _).
  split.
  - apply Hline.
    + simpl. auto.
    + repeat constructor.
    + reflexivity.
    + reflexivity.
  - apply Hbare.
    + simpl. auto.
    + repeat constructor.
Defined.

(** C10. Whenever the record returned by [extract_invoice_data] has a
    vendor name, the document was read, and the name is the stripped
    form of one of the lines of its text, is longer than three
    characters, and, lowercased, contains none of the seventeen words of
    the stoplist. *)
Theorem vendor_name_invariant
    (pdf_path : string) (w w' : world) (d : invoice_data) (v : string) :
  extract_invoice_data pdf_path w = (Ret d, w') ->
  vendor_name d = Some v ->
  exists text line,
    read_text (fs w) pdf_path = Ret text
    /\ In line (PyStr.split "010"%char text)
    /\ v = PyStr.strip line
    /\ 3 < String.length v
    /\ Forall (fun keyword => PyStr.contains keyword (PyStr.lower v) = false)
         skip_keywords
    /\ length skip_keywords = 17.
Proof.
  intros Hrun Hv.
  destruct (extract_invoice_data_run pdf_path w) as [evs Hrun'].
  rewrite Hrun' in Hrun. injection Hrun as <- _.
  unfold extracted in Hv.
  destruct (read_text (fs w) pdf_path) as [text|e]; [|discriminate].
  rewrite scan_fields_eq in Hv. simpl in Hv.
  rewrite scan_vendor_find in Hv.
  destruct (List.find _ _) as [line|] eqn:Hfind; [|discriminate].
  injection Hv as <-.
  apply find_some in Hfind as [Hin Hc].
  apply vendor_candidate_spec in Hc as (_ & Hlen & Hstop).
  exists text, line. repeat split; auto.
  apply Forall_forall. intros k Hk. apply Hstop. apply list_elem_of_In. exact Hk.
Qed.

Lemma vendor_name_invariant_witness :
  exists text line,
    read_text sample_files "input/a.pdf" = Ret text
    /\ In line (PyStr.split "010"%char text)
    /\ "ACME Corp" = PyStr.strip line
    /\ 3 < String.length "ACME Corp"
    /\ Forall (fun keyword =>
                 PyStr.contains keyword (PyStr.lower "ACME Corp") = false)
         skip_keywords
    /\ length skip_keywords = 17.
Proof.
  eapply (vendor_name_invariant "input/a.pdf" sample_world).
  - vm_compute. reflexivity.
  - reflexivity.
Defined.

(** ** The records the caller keeps *)

Section Report.

Lemma extracted_well_formed fsys pdf_path :
  well_formed (extracted fsys pdf_path).
Proof.
  unfold extracted.
  destruct (read_text fsys pdf_path) as [text|e];
    [|split; [discriminate|discriminate]].
  rewrite scan_fields_eq. split; simpl.
  - apply first_amount_sign_clear.
  - rewrite scan_vendor_find.
    destruct (List.find _ _) as [line|] eqn:Hfind; [|discriminate].
    apply find_some in Hfind as [_ Hc].
    apply vendor_candidate_spec in Hc as (Hne & _). simpl. congruence.
Qed.

Lemma has_data_false d :
  well_formed d ->
  has_data d = false <->
  (invoice_number d = None \/ invoice_number d = Some "")
  /\ (invoice_amount d = None \/ invoice_amount d = Some PyFloat.zero)
  /\ vendor_name d = None.
Proof.
  intros [Hamount Hvendor]. unfold has_data.
  rewrite !orb_false_iff. split.
  - intros [[Hn Ha] Hv]. repeat split.
    + destruct (invoice_number d) as [s|]; [|auto]. simpl in Hn.
      apply negb_false_iff, String.eqb_eq in Hn. subst. auto.
    + destruct (invoice_amount d) as [x|]; [|auto]. simpl in Ha.
      right. f_equal. apply falsy_sign_clear; auto.
    + destruct (vendor_name d) as [s|]; [|auto]. simpl in Hv.
      apply negb_false_iff, String.eqb_eq in Hv. subst. congruence.
  - intros (Hn & Ha & Hv). repeat split.
    + destruct Hn as [->| ->]; reflexivity.
    + destruct Ha as [->| ->]; reflexivity.
    + rewrite Hv. reflexivity.
Qed.

Lemma sum_skips_zero (l : list invoice_data) : forall acc,
  sign_clear acc -> Forall well_formed l ->
  fold_left PyFloat.add
    (omap invoice_amount
       (List.filter (fun item => float_truthy (invoice_amount item)) l)) acc
  = fold_left PyFloat.add (omap invoice_amount l) acc.
Proof.
  induction l as [|d l IH]; intros acc Hacc Hl; [reflexivity|].
  inversion Hl as [|? ? [Hd _] Hl']; subst.
  simpl. destruct (invoice_amount d) as [x|] eqn:Hx; simpl.
  - destruct (PyFloat.truthy x) eqn:Ht; simpl.
    + rewrite Hx. simpl. apply IH; auto. apply add_sign_clear; auto.
    + rewrite (falsy_sign_clear x (Hd x eq_refl) Ht).
      rewrite add_zero_r by auto. apply IH; auto.
  - apply IH; auto.
Qed.

Lemma vendors_skip_none (l : list invoice_data) :
  Forall well_formed l ->
  omap vendor_name
    (List.filter (fun item => str_truthy (vendor_name item)) l)
  = omap vendor_name l.
Proof.
  induction 1 as [|d l [_ Hd] _ IH]; [reflexivity|].
  simpl. destruct (vendor_name d) as [s|] eqn:Hs; simpl.
  - destruct (String.eqb s "") eqn:He.
    + apply String.eqb_eq in He. subst. congruence.
    + simpl. rewrite Hs. simpl. f_equal. exact IH.
  - exact IH.
Qed.

Lemma size_list_to_set_remove_dups (l : list string) :
  size (list_to_set l : gset string) = length (remove_dups l).
Proof.
  rewrite <- (size_list_to_set (C := gset string) (remove_dups l))
    by apply NoDup_remove_dups.
  f_equal. apply set_eq. intros x.
  rewrite !elem_of_list_to_set, elem_of_remove_dups. reflexivity.
Qed.

Lemma summary_data_rows (l : list invoice_data) :
  Forall well_formed l -> summary_data l = summary_rows l.
Proof.
  intros Hl. unfold summary_data, summary_rows, total_amount, unique_vendors.
  unfold PyFloat.sum. rewrite sum_skips_zero by (simpl; auto).
  rewrite vendors_skip_none by auto.
  rewrite size_list_to_set_remove_dups. reflexivity.
Qed.

Lemma kept_well_formed fsys files :
  Forall well_formed (List.filter has_data (map (extracted fsys) files)).
Proof.
  apply Forall_forall. intros d Hd. apply list_elem_of_In in Hd.
  apply filter_In in Hd as [Hd _]. apply in_map_iff in Hd as (p & <- & _).
  apply extracted_well_formed.
Qed.

End Report.

(** ** What a run of [process_invoices] writes *)

Section ProcessRun.

Lemma bind_print {A} (ev : event) (k : M A) (w : world) :
  (_ ← print ev; k) w = k (say_more w [ev]).
Proof. reflexivity. Qed.

Lemma bind_run {A B} (m : M A) (f : A -> M B) (w w' : world) (a : A) :
  m w = (Ret a, w') -> (m ≫= f) w = f a w'.
Proof. intros H. unfold mbind, M_bind. rewrite H. reflexivity. Qed.

Lemma process_invoices_run (to_excel : excel_writer) (files : list string)
    (w : world) :
  let records := List.filter has_data (map (extracted (fs w)) files) in
  let wb := {| Invoice_Data := records; Summary := summary_data records |} in
  exists evs,
    process_invoices to_excel files w
    = match records with
      | [] => (Ret tt, say_more w evs)
      | _ =>
          match to_excel (output_dir (self w)) wb with
          | Ret _ => (Ret tt, reported w evs wb)
          | Raise e => (Raise e, say_more w evs)
          end
      end.
Proof.
  cbv zeta. unfold process_invoices.
  rewrite !bind_print.
  destruct files as [|p files'] eqn:Hfiles.
  - simpl. eexists. unfold print. simpl.
    rewrite <- !app_assoc. reflexivity.
  - rewrite <- Hfiles. rewrite !bind_print.
    rewrite !say_more_app.
    match goal with
    | |- context [mbind ?f (extract_all files []) ?w0] =>
        destruct (extract_all_run files [] w0) as [evs Hall];
        rewrite (bind_run _ f _ _ _ Hall)
    end.
    cbn [fs say_more app].
    destruct (List.filter has_data (map (extracted (fs w)) files))
      as [|d records'].
    + eexists. unfold print, say_more. simpl.
      rewrite <- !app_assoc. reflexivity.
    + rewrite !bind_print.
      unfold mbind at 1, M_bind at 1, get_self.
      unfold mbind at 1, M_bind at 1, write_excel. cbn [self say_more].
      destruct (to_excel _ _) as [u|e].
      * cbv beta iota. rewrite !bind_print, !say_more_app.
        eexists. unfold print, say_more, reported.
        cbn [self fs stdout written]. rewrite <- !app_assoc. reflexivity.
      * eexists. unfold say_more. cbn [self fs stdout written].
        rewrite <- !app_assoc. reflexivity.
Qed.

End ProcessRun.

(** C6, as stated, fails: the document whose only line is
    [Invoice Number:] gives a record whose invoice number is the empty
    string, not [None], and the caller still leaves the record out. *)
Lemma discard_not_only_null :
  let d := extracted sample_files "input/blank.pdf" in
  fst (extract_invoice_data "input/blank.pdf" sample_world) = Ret d
  /\ invoice_number d = Some ""
  /\ all_null d = false
  /\ fst (extract_all ["input/blank.pdf"] [] sample_world) = Ret []
  /\ fst (extract_all ["input/blank.pdf"] [] sample_world)
     <> Ret (List.filter (fun r => negb (all_null r))
               (map (extracted sample_files) ["input/blank.pdf"])).
Proof. vm_compute. repeat split; discriminate. Qed.

(** C6, amended. The caller keeps, in order, exactly the records with a
    true field among the three: a record is left out exactly when its
    invoice number is [None] or the empty string, its amount is [None]
    or zero, and its vendor name is [None]. In particular a record with
    the three fields [None] is left out, and a record with a non-empty
    invoice number, a non-zero amount or a vendor name is kept. *)
Theorem discard_rule (files : list string) (w : world) :
  exists w',
    extract_all files [] w
    = (Ret (List.filter has_data (map (extracted (fs w)) files)), w')
    /\ (forall pdf_path,
          has_data (extracted (fs w) pdf_path) = false <->
          (invoice_number (extracted (fs w) pdf_path) = None
           \/ invoice_number (extracted (fs w) pdf_path) = Some "")
          /\ (invoice_amount (extracted (fs w) pdf_path) = None
              \/ invoice_amount (extracted (fs w) pdf_path) = Some PyFloat.zero)
          /\ vendor_name (extracted (fs w) pdf_path) = None)
    /\ (forall pdf_path,
          all_null (extracted (fs w) pdf_path) = true ->
          has_data (extracted (fs w) pdf_path) = false)
    /\ (forall pdf_path,
          fst (extract_invoice_data pdf_path w) = Ret (extracted (fs w) pdf_path)).
Proof.
  destruct (extract_all_run files [] w) as [evs Hall].
  exists (say_more w evs). split; [exact Hall|].
  split; [intros p; apply has_data_false, extracted_well_formed|].
  split.
  - intros p. unfold all_null, has_data.
    destruct (invoice_number _), (invoice_amount _), (vendor_name _);
      try discriminate. reflexivity.
  - intros p. destruct (extract_invoice_data_run p w) as [evs' ->]. reflexivity.
Qed.

(** A record whose only datum is a zero amount is left out as well. *)
Example discard_zero_amount :
  invoice_amount (extracted sample_files "input/zero.pdf") = Some PyFloat.zero
  /\ fst (extract_all ["input/zero.pdf"; "input/a.pdf"] [] sample_world)
     = Ret [extracted sample_files "input/a.pdf"].
Proof. vm_compute. split; reflexivity. Qed.

(** C7. The summary. For every non-empty list of kept records, the
    summary sheet that [process_invoices] builds has exactly three rows:
    the number of records; the sum of the amounts that are not [None],
    formatted with a dollar sign, thousands separators and two decimals;
    and the number of distinct vendor names that are not [None]. It is
    the summary sheet of the one workbook the method hands to the
    writer, whose data sheet is the list of kept records: when the
    writer writes it, the method returns normally and that workbook is
    written; when the writer raises, nothing catches the exception, and
    the workbook is not among those written in full. *)
Theorem summary_rule (to_excel : excel_writer) (files : list string)
    (w : world) :
  List.filter has_data (map (extracted (fs w)) files) <> [] ->
  exists records wb,
    records = List.filter has_data (map (extracted (fs w)) files)
    /\ fst (extract_all files [] w) = Ret records
    /\ summary_data records
       = [("Total Invoices", CInt (Z.of_nat (length records)));
          ("Total Amount",
           CStr ("$" +:+ PyFloat.format_2f
                           (PyFloat.sum (omap invoice_amount records))));
          ("Unique Vendors",
           CInt (Z.of_nat (length (remove_dups (omap vendor_name records)))))]
    /\ wb = {| Invoice_Data := records; Summary := summary_data records |}
    /\ (to_excel (output_dir (self w)) wb = Ret tt ->
        exists w',
          process_invoices to_excel files w = (Ret tt, w')
          /\ written w' = written w ++ [(output_dir (self w), wb)])
    /\ (forall e,
          to_excel (output_dir (self w)) wb = Raise e ->
          exists w',
            process_invoices to_excel files w = (Raise e, w')
            /\ written w' = written w).
Proof.
  intros Hne.
  destruct (process_invoices_run to_excel files w) as [evs Hrun].
  cbv zeta in Hrun.
  destruct (extract_all_run files [] w) as [evs' Hall].
  pose proof (kept_well_formed (fs w) files) as Hwf.
  destruct (List.filter has_data (map (extracted (fs w)) files))
    as [|d records'] eqn:Hrec; [congruence|].
  exists (d :: records'), {| Invoice_Data := d :: records';
                            Summary := summary_data (d :: records') |}.
  split; [reflexivity|].
  split; [rewrite Hall; reflexivity|].
  split; [apply (summary_data_rows _ Hwf)|].
  split; [reflexivity|].
  split.
  - intros Hok. rewrite Hok in Hrun. eexists. split; [exact Hrun|reflexivity].
  - intros e He. rewrite He in Hrun. eexists. split; [exact Hrun|reflexivity].
Qed.

Lemma summary_rule_witness :
  exists w',
    process_invoices strict_writer
      ["input/a.pdf"; "input/bad.pdf"; "input/zero.pdf";
       "input/torn.pdf"; "input/a.pdf"] sample_world
    = (Ret tt, w')
    /\ map (fun entry => Summary (snd entry)) (written w')
       = [[("Total Invoices", CInt 2); ("Total Amount", CStr "$1,998.00");
           ("Unique Vendors", CInt 1)]].
Proof.
  destruct (summary_rule strict_writer
              ["input/a.pdf"; "input/bad.pdf"; "input/zero.pdf";
               "input/torn.pdf"; "input/a.pdf"] sample_world)
    as (records & wb & Hrec & _ & _ & Hwb & Hok & _).
  - vm_compute. discriminate.
  - destruct Hok as (w' & Hrun & Hwritten).
    + rewrite Hwb, Hrec. vm_compute. reflexivity.
    + exists w'. split; [exact Hrun|].
      rewrite Hwritten, Hwb, Hrec. vm_compute. reflexivity.
Defined.

(** * Further properties *)

(** ** Substrings *)

Section Substrings.

Lemma prefix_iff sub s :
  String.prefix sub s = true <-> exists post, s = sub +:+ post.
Proof.
  revert sub. induction s as [|d s IH]; intros [|a sub]; simpl.
  - split; [intros _; exists ""; reflexivity|reflexivity].
  - split; [discriminate|]. intros [post H]. discriminate.
  - split; [intros _; exists (String d s); reflexivity|reflexivity].
  - destruct (ascii_dec a d) as [->|Hne].
    + rewrite IH. split; intros [post H]; exists post.
      * rewrite H. reflexivity.
      * injection H as H. exact H.
    + split; [discriminate|]. intros [post H]. injection H as H _. congruence.
Qed.

Lemma contains_iff sub s :
  PyStr.contains sub s = true <-> exists pre post, s = pre +:+ sub +:+ post.
Proof.
  induction s as [|d s IH].
  - simpl. destruct sub as [|a sub]; simpl.
    + split; [intros _; exists "", ""; reflexivity|reflexivity].
    + split; [discriminate|]. intros (pre & post & H).
      destruct pre; discriminate.
  - cbn [PyStr.contains].
    destruct (String.prefix sub (String d s)) eqn:Hp.
    + split; [|reflexivity]. intros _. apply prefix_iff in Hp as [post Hp].
      exists "", post. exact Hp.
    + rewrite IH. split.
      * intros (pre & post & ->). exists (String d pre), post. reflexivity.
      * intros (pre & post & H). destruct pre as [|c pre].
        -- assert (String.prefix sub (String d s) = true) as Hp'
             by (apply prefix_iff; eauto).
           congruence.
        -- injection H as _ H. eauto.
Qed.

Lemma append_assoc (a b c : string) : (a +:+ b) +:+ c = a +:+ (b +:+ c).
Proof. induction a as [|x a IH]; [reflexivity|]. exact (f_equal (String x) IH). Qed.

Lemma append_nil_r (a : string) : a +:+ "" = a.
Proof. induction a as [|x a IH]; [reflexivity|]. exact (f_equal (String x) IH). Qed.

Lemma contains_trans a b s :
  PyStr.contains a b = true -> PyStr.contains b s = true ->
  PyStr.contains a s = true.
Proof.
  rewrite !contains_iff. intros (p1 & q1 & ->) (p2 & q2 & ->).
  exists (p2 +:+ p1), (q1 +:+ q2). rewrite !append_assoc. reflexivity.
Qed.

Lemma lower_app a b : PyStr.lower (a +:+ b) = PyStr.lower a +:+ PyStr.lower b.
Proof.
  induction a as [|x a IH]; [reflexivity|].
  exact (f_equal (String (PyStr.lower_char x)) IH).
Qed.

Lemma contains_lower sub s :
  PyStr.contains sub s = true ->
  PyStr.contains (PyStr.lower sub) (PyStr.lower s) = true.
Proof.
  rewrite !contains_iff. intros (pre & post & ->).
  exists (PyStr.lower pre), (PyStr.lower post). rewrite !lower_app. reflexivity.
Qed.

Lemma has_char_app c a b : has_char c (a +:+ b) = has_char c a || has_char c b.
Proof.
  induction a as [|x a IH]; [reflexivity|].
  change (Ascii.eqb x c || has_char c (a +:+ b)
          = Ascii.eqb x c || has_char c a || has_char c b).
  rewrite IH. apply orb_assoc.
Qed.

End Substrings.

(** ** The text of a document *)

Section Pages.

Lemma split_app_sep c a b :
  PyStr.split c (a +:+ String c b) = PyStr.split c a ++ PyStr.split c b.
Proof.
  induction a as [|d a IH].
  - change (PyStr.split c (String c b) = [""] ++ PyStr.split c b).
    simpl. rewrite Ascii.eqb_refl. reflexivity.
  - change (PyStr.split c (String d (a +:+ String c b))
            = PyStr.split c (String d a) ++ PyStr.split c b).
    simpl. destruct (Ascii.eqb d c).
    + rewrite IH. reflexivity.
    + rewrite IH. rewrite (split_unfold c a). reflexivity.
Qed.

Lemma read_pages_texts texts : forall acc,
  exists text,
    read_pages (map Ret texts) acc = Ret (acc +:+ text)
    /\ PyStr.split "010" text
       = flat_map (PyStr.split "010") texts ++ [""].
Proof.
  induction texts as [|t texts IH]; intros acc.
  - exists "". rewrite append_nil_r. split; reflexivity.
  - destruct (IH (acc +:+ t +:+ newline)) as (text & Hr & Hs).
    exists (t +:+ String "010" text). split.
    + simpl. rewrite Hr. f_equal. unfold newline.
      rewrite !append_assoc. reflexivity.
    + rewrite split_app_sep, Hs. simpl. rewrite <- app_assoc. reflexivity.
Qed.

Lemma read_pages_raise pages e : forall acc,
  In (Raise e) pages -> exists e', read_pages pages acc = Raise e'.
Proof.
  induction pages as [|page pages IH]; intros acc; [intros []|].
  intros [->|Hin]; simpl; [eauto|].
  destruct page as [t|e0]; [apply IH; exact Hin|eauto].
Qed.

End Pages.

(** X1. The pages of a document are scanned as one sequence of lines:
    when every page gives its text, the lines the field rules see are
    the lines of the first page, then those of the second, and so on,
    followed by one empty line, and the record returned is the one the
    rules give on the pages' texts each followed by a line break. *)
Theorem pages_scanned_in_order
    (pdf_path : string) (w : world) (texts : list string) :
  fs w !! pdf_path = Some (Pdf (map Ret texts)) ->
  exists text,
    read_text (fs w) pdf_path = Ret text
    /\ PyStr.split "010" text = flat_map (PyStr.split "010") texts ++ [""]
    /\ (exists d, scan_fields (path_name pdf_path) text = Ret d
                  /\ fst (extract_invoice_data pdf_path w) = Ret d).
Proof.
  intros Hfile. destruct (read_pages_texts texts "") as (text & Hr & Hs).
  change ("" +:+ text) with text in Hr.
  exists text. unfold read_text. rewrite Hfile. split; [exact Hr|].
  split; [exact Hs|].
  destruct (scan_fields_ret (path_name pdf_path) text) as (d & Hd & _).
  exists d. split; [exact Hd|].
  destruct (extract_invoice_data_run pdf_path w) as [evs ->]. simpl.
  unfold extracted, read_text. rewrite Hfile, Hr, Hd. reflexivity.
Qed.

Lemma pages_scanned_in_order_witness :
  exists text,
    read_text sample_files "input/a.pdf" = Ret text
    /\ PyStr.split "010" text
       = ["ACME Corp"; "Invoice Number: INV-2024-001";
          "Total Due: $1,234.56 $999.00"; "Payment Status: UNPAID";
          "page two"; ""].
Proof.
  destruct (pages_scanned_in_order "input/a.pdf" sample_world
              [sample_text; "page two"] eq_refl) as (text & Hr & Hs & _).
  exists text. split; [exact Hr|]. rewrite Hs. reflexivity.
Defined.

(** X2. A page that fails voids the document: when [extract_text] raises
    on any page, the record returned has every data field [None],
    whatever the other pages hold. *)
Theorem failing_page_voids_document
    (pdf_path : string) (w : world) (pages : list (result string)) (e : exn) :
  fs w !! pdf_path = Some (Pdf pages) ->
  In (Raise e) pages ->
  fst (extract_invoice_data pdf_path w) = Ret (null_data (path_name pdf_path)).
Proof.
  intros Hfile Hin.
  destruct (extract_invoice_data_run pdf_path w) as [evs ->]. simpl.
  unfold extracted, read_text. rewrite Hfile.
  destruct (read_pages_raise pages e "" Hin) as [e' ->]. reflexivity.
Qed.

Lemma failing_page_voids_document_witness :
  fst (extract_invoice_data "input/torn.pdf" sample_world)
  = Ret (null_data "torn.pdf").
Proof.
  apply (failing_page_voids_document "input/torn.pdf" sample_world
           [Ret "ACME Corp"; Raise (PdfError "bad page")] (PdfError "bad page")).
  - reflexivity.
  - simpl. auto.
Defined.

(** ** When a line yields an amount *)

Section AmountLines.

Lemma span_append p s : s = fst (PyStr.span p s) +:+ snd (PyStr.span p s).
Proof.
  induction s as [|c s IH]; [reflexivity|]. simpl.
  destruct (p c); [|reflexivity].
  destruct (PyStr.span p s) as [a b]. simpl in *.
  exact (f_equal (String c) IH).
Qed.

Lemma has_digit_app a b : has_digit (a +:+ b) = has_digit a || has_digit b.
Proof.
  induction a as [|x a IH]; [reflexivity|].
  change (PyStr.isdigit x || has_digit (a +:+ b)
          = PyStr.isdigit x || has_digit a || has_digit b).
  rewrite IH. apply orb_assoc.
Qed.

Lemma has_digit_all_digits s :
  PyStr.forallb PyStr.isdigit s = true ->
  has_digit s = match s with EmptyString => false | _ => true end.
Proof.
  destruct s as [|c s]; [reflexivity|]. simpl.
  intros H. apply andb_true_iff in H as [-> _]. reflexivity.
Qed.

Lemma has_digit_remove_comma s :
  has_digit (PyStr.remove_char "," s) = has_digit s.
Proof.
  induction s as [|c s IH]; [reflexivity|]. simpl.
  destruct (Ascii.eqb c ",") eqn:Hc; simpl; rewrite IH; [|reflexivity].
  apply Ascii.eqb_eq in Hc. subst c. reflexivity.
Qed.

(** On the strings of the loop, [float] fails exactly for lack of a digit. *)
Lemma float_of_str_literal s :
  amount_literal s = true ->
  if has_digit s then exists x, PyFloat.float_of_str s = Ret x
  else PyFloat.float_of_str s = Raise ValueError.
Proof.
  unfold amount_literal, PyFloat.float_of_str.
  pose proof (span_append PyStr.isdigit s) as Hs.
  pose proof (span_fst_all PyStr.isdigit s) as Hip.
  destruct (PyStr.span PyStr.isdigit s) as [ip r]. simpl in Hs, Hip.
  rewrite Hs, has_digit_app, (has_digit_all_digits ip Hip).
  destruct r as [|c fp].
  - intros _. destruct ip; simpl; eauto.
  - intros H. apply andb_true_iff in H as [Hc Hfp].
    apply Ascii.eqb_eq in Hc. subst c. rewrite Hfp.
    change (has_digit (String "." fp)) with (has_digit fp).
    rewrite (has_digit_all_digits fp Hfp).
    destruct ip as [|a ip]; simpl.
    + destruct fp; simpl; eauto.
    + eauto.
Qed.

Lemma contains_char c s : PyStr.contains (String c "") s = has_char c s.
Proof.
  induction s as [|d s IH]; [reflexivity|].
  cbn [PyStr.contains has_char]. simpl String.prefix.
  destruct (ascii_dec c d) as [->|Hne].
  - rewrite Ascii.eqb_refl. destruct s; reflexivity.
  - rewrite IH. destruct (Ascii.eqb d c) eqn:He; [|reflexivity].
    apply Ascii.eqb_eq in He. congruence.
Qed.

Lemma findall_from_no_dollar s : forall skip,
  has_char "$" s = false -> findall_from skip s = [].
Proof.
  induction s as [|c s IH]; intros skip; [reflexivity|]. simpl.
  intros H. apply orb_false_iff in H as [Hc Hs]. rewrite Hc.
  destruct skip; apply IH; exact Hs.
Qed.

Lemma last_in {A} (l : list A) (d : A) : l <> [] -> In (List.last l d) l.
Proof.
  induction l as [|a l IH]; [congruence|]. intros _.
  destruct l as [|b l]; [left; reflexivity|].
  right. apply IH. discriminate.
Qed.

End AmountLines.

(** X3. A line yields no amount exactly when the amount pattern matches
    nowhere on it or its last match has no digit (only commas, possibly
    followed by a point); the test for a dollar sign adds nothing, since
    a line without one has no match. When the last match has a digit,
    the amount is the float read from it with the commas removed. *)
Theorem line_amount_none_iff (line : string) :
  (line_amount line = None <->
   findall_amounts line = []
   \/ has_digit (List.last (findall_amounts line) "") = false)
  /\ (PyStr.contains "$" line = false -> findall_amounts line = [])
  /\ (findall_amounts line <> [] ->
      has_digit (List.last (findall_amounts line) "") = true ->
      exists x,
        PyFloat.float_of_str
          (PyStr.remove_char "," (List.last (findall_amounts line) "")) = Ret x
        /\ line_amount line = Some x).
Proof.
  assert (Hdollar : PyStr.contains "$" line = false -> findall_amounts line = []).
  { intros H. apply findall_from_no_dollar. rewrite <- contains_char. exact H. }
  assert (Hdigit : findall_amounts line <> [] ->
            if has_digit (List.last (findall_amounts line) "")
            then exists x,
                PyFloat.float_of_str
                  (PyStr.remove_char "," (List.last (findall_amounts line) ""))
                = Ret x
            else PyFloat.float_of_str
                   (PyStr.remove_char "," (List.last (findall_amounts line) ""))
                 = Raise ValueError).
  { intros Hne. rewrite <- has_digit_remove_comma.
    apply float_of_str_literal, (findall_amounts_literal line), last_in, Hne. }
  assert (Hunfold : findall_amounts line <> [] ->
            line_amount line
            = match PyFloat.float_of_str
                      (PyStr.remove_char ","
                         (List.last (findall_amounts line) "")) with
              | Ret x => Some x
              | Raise _ => None
              end).
  { intros Hne. unfold line_amount.
    destruct (PyStr.contains "$" line); [|specialize (Hdollar eq_refl); congruence].
    destruct (findall_amounts line); [congruence|reflexivity]. }
  split; [|split; [exact Hdollar|]].
  - destruct (findall_amounts line) as [|g gs] eqn:Hg.
    + split; [auto|]. intros _. unfold line_amount. rewrite Hg.
      destruct (PyStr.contains "$" line); reflexivity.
    + rewrite <- Hg in *.
      assert (Hne : findall_amounts line <> []) by (rewrite Hg; discriminate).
      rewrite (Hunfold Hne). specialize (Hdigit Hne).
      destruct (has_digit (List.last (findall_amounts line) "")).
      * destruct Hdigit as [x ->]. split; [discriminate|].
        intros [H|H]; [congruence|discriminate].
      * rewrite Hdigit. split; auto.
  - intros Hne Hd. specialize (Hdigit Hne). rewrite Hd in Hdigit.
    destruct Hdigit as [x Hx]. exists x. split; [exact Hx|].
    rewrite (Hunfold Hne), Hx. reflexivity.
Qed.

Lemma line_amount_none_iff_witness :
  line_amount "Fee: $12 and $,,." = None
  /\ exists x, line_amount "Fee: $,,. and $12" = Some x.
Proof.
  split.
  - apply (line_amount_none_iff "Fee: $12 and $,,."). right. reflexivity.
  - destruct (line_amount_none_iff "Fee: $,,. and $12") as (_ & _ & H).
    destruct H as (x & _ & Hx); [discriminate|reflexivity|].
    exists x. exact Hx.
Defined.

(** ** The file name of a record *)

Section FileName.

Lemma split_no_sep c s :
  Forall (fun part => has_char c part = false) (PyStr.split c s).
Proof.
  induction s as [|d s IH]; simpl.
  - repeat constructor.
  - destruct (Ascii.eqb d c) eqn:Hd.
    + constructor; [reflexivity|exact IH].
    + destruct (PyStr.split c s) as [|part parts].
      * repeat constructor. simpl. rewrite Hd. reflexivity.
      * inversion IH; subst. constructor; [|assumption].
        simpl. rewrite Hd. assumption.
Qed.

Lemma last_Forall {A} (P : A -> Prop) (l : list A) (d : A) :
  P d -> Forall P l -> P (List.last l d).
Proof.
  intros Hd Hl. induction Hl as [|a l Ha Hl IH]; [exact Hd|].
  destruct l; [exact Ha|exact IH].
Qed.

Lemma path_name_plain p :
  has_char "/" (path_name p) = false /\ path_name p <> ".".
Proof.
  unfold path_name.
  apply (last_Forall (fun s => has_char "/" s = false /\ s <> ".")).
  - split; [reflexivity|discriminate].
  - apply Forall_forall. intros part Hin. apply list_elem_of_In in Hin.
    apply filter_In in Hin as [Hin Hkeep].
    split.
    + pose proof (split_no_sep "/" p) as Hall.
      rewrite Forall_forall in Hall. apply Hall, list_elem_of_In, Hin.
    + apply negb_true_iff, orb_false_iff in Hkeep as [_ Hdot].
      apply String.eqb_neq. exact Hdot.
Qed.

End FileName.

(** X4. The file name of a record is a bare name: whatever the path
    given, the [file_path] of the record returned has no slash and is
    not the single point, and a path without a slash other than the
    single point is its own file name. *)
Theorem file_path_is_bare_name (pdf_path : string) (w : world) :
  exists d w',
    extract_invoice_data pdf_path w = (Ret d, w')
    /\ has_char "/" (file_path d) = false
    /\ file_path d <> "."
    /\ (has_char "/" pdf_path = false -> pdf_path <> "." ->
        file_path d = pdf_path).
Proof.
  destruct (extract_invoice_data_run pdf_path w) as [evs Hrun].
  exists (extracted (fs w) pdf_path), (say_more w evs).
  split; [exact Hrun|].
  assert (Hname : file_path (extracted (fs w) pdf_path) = path_name pdf_path).
  { unfold extracted. destruct (read_text (fs w) pdf_path) as [text|e]; [|reflexivity].
    destruct (scan_fields_ret (path_name pdf_path) text) as (d & -> & Hd). exact Hd. }
  rewrite Hname. destruct (path_name_plain pdf_path) as [H1 H2].
  repeat split; auto.
  intros Hns Hnd. unfold path_name.
  rewrite split_unfold, Hns, before_char_no by exact Hns. simpl.
  destruct (String.eqb pdf_path "") eqn:He.
  - apply String.eqb_eq in He. subst. reflexivity.
  - apply String.eqb_neq in Hnd. rewrite Hnd. reflexivity.
Qed.

Lemma file_path_is_bare_name_witness :
  exists d w',
    extract_invoice_data "scan.pdf" sample_world = (Ret d, w')
    /\ file_path d = "scan.pdf".
Proof.
  destruct (file_path_is_bare_name "scan.pdf" sample_world)
    as (d & w' & Hrun & _ & _ & Hsame).
  exists d, w'. split; [exact Hrun|]. apply Hsame; [reflexivity|discriminate].
Defined.

(** ** Amounts are plain numbers *)

Section PlainAmounts.

Lemma shr_1_nonneg mrs : (0 <= shr_m mrs -> 0 <= shr_m (shr_1 mrs))%Z.
Proof.
  destruct mrs as [m r s]. simpl.
  destruct m as [|[p|p|]|p]; simpl; intros H; try apply Pos2Z.is_nonneg;
    try reflexivity; try exact H.
  all: try (exfalso; apply H; reflexivity).
Qed.

Lemma iter_pos_shr_1_nonneg p : forall mrs,
  (0 <= shr_m mrs -> 0 <= shr_m (SpecFloat.iter_pos shr_1 p mrs))%Z.
Proof.
  induction p as [p IH|p IH|]; intros mrs H; simpl.
  - apply IH, IH, shr_1_nonneg, H.
  - apply IH, IH, H.
  - apply shr_1_nonneg, H.
Qed.

Lemma shr_fexp_nonneg m e l :
  (0 <= m)%Z ->
  (0 <= shr_m (fst (shr_fexp PyFloat.prec PyFloat.emax m e l)))%Z.
Proof.
  intros H. unfold shr_fexp, shr.
  assert (H0 : (0 <= shr_m (shr_record_of_loc m l))%Z).
  { destruct l as [|[]]; exact H. }
  destruct (Z.sub _ _); simpl; auto.
  apply iter_pos_shr_1_nonneg, H0.
Qed.

Lemma round_nearest_even_nonneg m l :
  (0 <= m)%Z -> (0 <= round_nearest_even m l)%Z.
Proof.
  intros H. unfold round_nearest_even.
  destruct l as [|[]]; try exact H.
  - destruct (Z.even m); [exact H|]. apply Z.add_nonneg_nonneg; [exact H|discriminate].
  - apply Z.add_nonneg_nonneg; [exact H|discriminate].
Qed.

Lemma binary_round_aux_plain m e l :
  (0 <= m)%Z ->
  plain_amount (binary_round_aux PyFloat.prec PyFloat.emax false m e l).
Proof.
  intros H. unfold binary_round_aux.
  pose proof (shr_fexp_nonneg m e l H) as H1.
  destruct (shr_fexp _ _ m e l) as [mrs' e']. simpl in H1.
  pose proof (shr_fexp_nonneg _ e' loc_Exact
                (round_nearest_even_nonneg _ (loc_of_shr_record mrs') H1)) as H2.
  destruct (shr_fexp _ _ _ e' loc_Exact) as [mrs'' e'']. simpl in H2.
  destruct (shr_m mrs'') as [|p|p]; simpl.
  - reflexivity.
  - destruct (Z.leb _ _); reflexivity.
  - apply H2. reflexivity.
Qed.

Lemma of_decimal_plain m k : plain_amount (PyFloat.of_decimal m k).
Proof.
  unfold PyFloat.of_decimal. destruct m as [|p|p]; try reflexivity.
  unfold SFdiv_core_binary.
  set (s := Z.sub _ _).
  set (m' := match s with Zpos _ => Z.shiftl (Zpos p) s | Z0 => Zpos p | Zneg _ => Z0 end).
  assert (Hm' : (0 <= m')%Z).
  { subst m'. destruct s; try discriminate.
    apply Z.shiftl_nonneg. discriminate. }
  pose proof (Z.div_pos m' (10 ^ Z.of_nat k) Hm') as Hq.
  unfold Z.div in Hq.
  destruct (Z.div_eucl m' (10 ^ Z.of_nat k)) as [q r]. simpl in Hq.
  apply binary_round_aux_plain, Hq.
  apply Z.pow_pos_nonneg; [reflexivity|apply Nat2Z.is_nonneg].
Qed.

Lemma float_of_str_plain s x : PyFloat.float_of_str s = Ret x -> plain_amount x.
Proof.
  unfold PyFloat.float_of_str.
  destruct (PyStr.span PyStr.isdigit s) as [ip r].
  destruct r as [|c fp].
  - destruct ip; [discriminate|]. intros [= <-]. apply of_decimal_plain.
  - destruct (Ascii.eqb c "."%char) eqn:Hc.
    + apply Ascii.eqb_eq in Hc as ->.
      destruct (PyStr.forallb _ fp); [|discriminate].
      destruct (ip +:+ fp); [discriminate|].
      intros [= <-]. apply of_decimal_plain.
    + intros H. exfalso. revert H Hc.
      destruct c as [[] [] [] [] [] [] [] []]; simpl; discriminate.
Qed.

Lemma first_amount_plain lines x : first_amount lines = Some x -> plain_amount x.
Proof.
  induction lines as [|l lines IH]; simpl; [discriminate|].
  destruct (line_amount l) as [y|] eqn:Hl; [|exact IH].
  intros [= <-]. unfold line_amount in Hl.
  destruct (PyStr.contains "$" l); [|discriminate].
  destruct (findall_amounts l); [discriminate|].
  destruct (PyFloat.float_of_str _) eqn:Hf; [|discriminate].
  injection Hl as <-. eapply float_of_str_plain; eauto.
Qed.

Lemma add_plain x y :
  plain_amount x -> plain_amount y -> plain_amount (PyFloat.add x y).
Proof.
  destruct x as [sx|sx| |sx mx ex], y as [sy|sy| |sy my ey]; simpl;
    intros Hx Hy; subst; simpl; auto.
  unfold binary_normalize.
  destruct (shl_align mx ex (Z.min ex ey)) as [ax ?].
  destruct (shl_align my ey (Z.min ex ey)) as [ay ?]. simpl.
  unfold binary_round.
  destruct (shl_align _ _ _) as [mz ez].
  apply binary_round_aux_plain. discriminate.
Qed.

Lemma sum_plain xs : forall acc,
  plain_amount acc -> Forall plain_amount xs ->
  plain_amount (fold_left PyFloat.add xs acc).
Proof.
  induction xs as [|x xs IH]; intros acc Hacc Hxs; [exact Hacc|].
  inversion Hxs; subst. simpl. apply IH; [apply add_plain|]; assumption.
Qed.

Lemma extracted_amount_plain fsys pdf_path x :
  invoice_amount (extracted fsys pdf_path) = Some x -> plain_amount x.
Proof.
  unfold extracted. destruct (read_text fsys pdf_path) as [text|e]; [|discriminate].
  rewrite scan_fields_eq. simpl. apply first_amount_plain.
Qed.

End PlainAmounts.

(** X5. Amounts are plain numbers. An amount in a record returned by
    [extract_invoice_data] is never negative and never a NaN: it is
    [+0.0], a positive finite float or [+inf]; and so is the total of
    the summary, over any files. *)
Theorem amounts_are_plain (files : list string) (w : world) :
  (forall pdf_path d w' x,
     extract_invoice_data pdf_path w = (Ret d, w') ->
     invoice_amount d = Some x -> plain_amount x)
  /\ plain_amount
       (total_amount (List.filter has_data (map (extracted (fs w)) files))).
Proof.
  split.
  - intros p d w' x Hrun.
    destruct (extract_invoice_data_run p w) as [evs Hrun'].
    rewrite Hrun' in Hrun. injection Hrun as <- _.
    apply extracted_amount_plain.
  - unfold total_amount, PyFloat.sum. apply sum_plain; [reflexivity|].
    apply Forall_forall. intros x Hx. apply list_elem_of_omap in Hx as (d & Hd & Hx).
    apply list_elem_of_In, filter_In in Hd as [Hd _].
    apply filter_In in Hd as [Hd _].
    apply in_map_iff in Hd as (p & <- & _).
    eapply extracted_amount_plain; eauto.
Qed.

Lemma amounts_are_plain_witness :
  plain_amount (S754_finite false 8787296929185792 (-43)).
Proof.
  destruct (amounts_are_plain [] sample_world) as [Hone _].
  eapply (Hone "input/a.pdf").
  - vm_compute. reflexivity.
  - reflexivity.
Defined.

(** ** The whole of [process_invoices] *)

Section Pipeline.

Lemma download_invoices_from_gmail_run call w :
  exists evs,
    download_invoices_from_gmail call w
    = (Ret (files_handed_on call), say_more w evs).
Proof.
  unfold download_invoices_from_gmail. rewrite bind_print.
  destruct call as [r|msg]; simpl.
  - destruct (success r); rewrite bind_print, say_more_app; eexists; reflexivity.
  - rewrite bind_print, say_more_app. eexists. reflexivity.
Qed.

Lemma process_invoices_main_run (to_excel : excel_writer)
    (call : download_outcome) (w : world) :
  let records :=
    List.filter has_data (map (extracted (fs w)) (files_handed_on call)) in
  let wb := {| Invoice_Data := records; Summary := summary_data records |} in
  exists evs,
    process_invoices_main to_excel call w
    = match records with
      | [] => (Ret tt, say_more w evs)
      | _ =>
          match to_excel (output_dir (self w)) wb with
          | Ret _ => (Ret tt, reported w evs wb)
          | Raise e => (Raise e, say_more w evs)
          end
      end.
Proof.
  cbv zeta. unfold process_invoices_main.
  rewrite !bind_print, !say_more_app.
  match goal with
  | |- context [mbind ?f (download_invoices_from_gmail call) ?w0] =>
      destruct (download_invoices_from_gmail_run call w0) as [evs0 Hd];
      rewrite (bind_run _ f _ _ _ Hd)
  end.
  rewrite say_more_app.
  destruct (files_handed_on call) as [|p files'] eqn:Hfiles.
  - simpl. eexists. unfold print. simpl.
    rewrite <- !app_assoc. reflexivity.
  - rewrite <- Hfiles. rewrite !bind_print, !say_more_app.
    match goal with
    | |- context [mbind ?f (extract_all (files_handed_on call) []) ?w0] =>
        destruct (extract_all_run (files_handed_on call) [] w0) as [evs Hall];
        rewrite (bind_run _ f _ _ _ Hall)
    end.
    cbn [fs say_more app].
    destruct (List.filter has_data
                (map (extracted (fs w)) (files_handed_on call)))
      as [|d records'].
    + eexists. unfold print, say_more. simpl.
      rewrite <- !app_assoc. reflexivity.
    + rewrite !bind_print.
      unfold mbind at 1, M_bind at 1, get_self.
      unfold mbind at 1, M_bind at 1, write_excel. cbn [self say_more].
      destruct (to_excel _ _) as [u|e].
      * cbv beta iota. rewrite !bind_print, !say_more_app.
        eexists. unfold print, say_more, reported.
        cbn [self fs stdout written]. rewrite <- !app_assoc. reflexivity.
      * eexists. unfold say_more. cbn [self fs stdout written].
        rewrite <- !app_assoc. reflexivity.
Qed.

Lemma unreadable_no_data (fsys : gmap string pdf_file) (files : list string) :
  (forall pdf_path, In pdf_path files ->
     exists e, read_text fsys pdf_path = Raise e) ->
  List.filter has_data (map (extracted fsys) files) = [].
Proof.
  induction files as [|p files IH]; intros H; [reflexivity|].
  simpl. destruct (H p (or_introl eq_refl)) as [e He].
  unfold extracted at 1. rewrite He. simpl.
  apply IH. intros q Hq. apply H. right. exact Hq.
Qed.

End Pipeline.

(** X6. What [process_invoices] writes and raises. The method leaves
    the object and the files as they were and writes at most one
    workbook. When no extracted record has data, which includes the
    cases of an empty list of files and of files that are all
    unreadable, it returns normally and writes no workbook, whatever
    the writer does. Otherwise it hands one workbook to the writer, with
    the kept records as its data sheet: when the writer writes it, the
    method returns normally and the workbook is written to the output
    directory; when the writer raises, the method raises the same
    exception and the workbook is not among those written in full. *)
Theorem process_invoices_writes_at_most_once (to_excel : excel_writer)
    (files : list string) (w : world) :
  let records := List.filter has_data (map (extracted (fs w)) files) in
  let wb := {| Invoice_Data := records; Summary := summary_data records |} in
  exists res w',
    process_invoices to_excel files w = (res, w')
    /\ self w' = self w /\ fs w' = fs w
    /\ (records = [] -> res = Ret tt /\ written w' = written w)
    /\ (files = [] -> res = Ret tt /\ written w' = written w)
    /\ ((forall pdf_path, In pdf_path files ->
           exists e, read_text (fs w) pdf_path = Raise e) ->
        res = Ret tt /\ written w' = written w)
    /\ (records <> [] -> to_excel (output_dir (self w)) wb = Ret tt ->
        res = Ret tt
        /\ written w' = written w ++ [(output_dir (self w), wb)])
    /\ (records <> [] ->
        forall e, to_excel (output_dir (self w)) wb = Raise e ->
                  res = Raise e /\ written w' = written w).
Proof.
  cbv zeta.
  destruct (process_invoices_run to_excel files w) as [evs Hrun].
  cbv zeta in Hrun.
  pose proof (unreadable_no_data (fs w) files) as Hunread.
  assert (Hnil : files = [] ->
            List.filter has_data (map (extracted (fs w)) files) = []).
  { intros ->. reflexivity. }
  destruct (List.filter has_data (map (extracted (fs w)) files))
    as [|d records] eqn:Hrec.
  - eexists _, _. split; [exact Hrun|]. simpl.
    repeat split; auto; congruence.
  - destruct (to_excel _ _) as [[]|e] eqn:Hw.
    + eexists _, _. split; [exact Hrun|]. simpl.
      split; [reflexivity|]. split; [reflexivity|].
      split; [discriminate|].
      split; [intros H; specialize (Hnil H); discriminate|].
      split; [intros H; specialize (Hunread H); discriminate|].
      split; [intros _ _; split; reflexivity|].
      intros _ e He. discriminate.
    + eexists _, _. split; [exact Hrun|]. simpl.
      split; [reflexivity|]. split; [reflexivity|].
      split; [discriminate|].
      split; [intros H; specialize (Hnil H); discriminate|].
      split; [intros H; specialize (Hunread H); discriminate|].
      split; [intros _ He; discriminate|].
      intros _ e' He. injection He as <-. split; reflexivity.
Qed.

Lemma process_invoices_writes_at_most_once_witness :
  (exists w',
     process_invoices strict_writer ["input/m.pdf"] marked_world
     = (Raise (WriterError "IllegalCharacterError"), w')
     /\ written w' = [])
  /\ (exists w',
        process_invoices strict_writer
          ["input/bad.pdf"; "input/none.pdf"; "input/torn.pdf"] sample_world
        = (Ret tt, w')
        /\ written w' = []).
Proof.
  split.
  - destruct (process_invoices_writes_at_most_once strict_writer
                ["input/m.pdf"] marked_world)
      as (res & w' & Hrun & _ & _ & _ & _ & _ & _ & Hraise).
    destruct (Hraise ltac:(vm_compute; discriminate)
                (WriterError "IllegalCharacterError") eq_refl) as [-> Hw].
    exists w'. split; [exact Hrun|exact Hw].
  - destruct (process_invoices_writes_at_most_once strict_writer
                ["input/bad.pdf"; "input/none.pdf"; "input/torn.pdf"]
                sample_world)
      as (res & w' & Hrun & _ & _ & _ & _ & Hunread & _).
    destruct Hunread as [-> Hw].
    { intros p [<-|[<-|[<-|[]]]]; eexists; reflexivity. }
    exists w'. split; [exact Hrun|exact Hw].
Defined.

(** X7. The download step. [download_invoices_from_gmail] hands on the
    downloaded files of a dictionary whose [success] is true, and the
    empty list otherwise, also when the downloader raises. The whole of
    [process_invoices] then ends as the processing of that list ends,
    with the same workbooks written. So when the downloader raises,
    reports a failure or brings no file, [process_invoices] returns
    normally and writes no workbook, whatever the writer does. *)
Theorem download_failure_writes_nothing (to_excel : excel_writer)
    (call : download_outcome) (w : world) :
  exists res w' w'',
    process_invoices_main to_excel call w = (res, w')
    /\ process_invoices to_excel (files_handed_on call) w = (res, w'')
    /\ written w' = written w'' /\ fs w' = fs w /\ self w' = self w
    /\ fst (download_invoices_from_gmail call w) = Ret (files_handed_on call)
    /\ (files_handed_on call = [] -> res = Ret tt /\ written w' = written w)
    /\ (forall msg, call = Raised msg ->
                    res = Ret tt /\ written w' = written w)
    /\ (forall r, call = Returned r -> success r = false ->
                  res = Ret tt /\ written w' = written w).
Proof.
  destruct (process_invoices_main_run to_excel call w) as [evs Hmain].
  destruct (process_invoices_run to_excel (files_handed_on call) w)
    as [evs' Hrun].
  cbv zeta in Hmain, Hrun.
  destruct (download_invoices_from_gmail_run call w) as [evs0 Hd].
  assert (Hempty : files_handed_on call = [] ->
            List.filter has_data
              (map (extracted (fs w)) (files_handed_on call)) = []).
  { intros ->. reflexivity. }
  assert (Hcases : forall P : Prop,
            (files_handed_on call = [] -> P) ->
            (forall msg, call = Raised msg -> P)
            /\ (forall r, call = Returned r -> success r = false -> P)).
  { intros P HP. split.
    - intros msg ->. apply HP. reflexivity.
    - intros r -> Hs. apply HP. simpl. rewrite Hs. reflexivity. }
  destruct (List.filter has_data
              (map (extracted (fs w)) (files_handed_on call)))
    as [|d records] eqn:Hrec.
  - eexists _, _, _. split; [exact Hmain|]. split; [exact Hrun|].
    rewrite Hd. simpl.
    repeat (split; [reflexivity|]).
    split; [intros _; split; reflexivity|].
    apply Hcases. intros _. split; reflexivity.
  - destruct (to_excel _ _) as [[]|e].
    + eexists _, _, _. split; [exact Hmain|]. split; [exact Hrun|].
      rewrite Hd. simpl.
      repeat (split; [reflexivity|]).
      split; [intros H; specialize (Hempty H); discriminate|].
      apply Hcases. intros H. specialize (Hempty H). discriminate.
    + eexists _, _, _. split; [exact Hmain|]. split; [exact Hrun|].
      rewrite Hd. simpl.
      repeat (split; [reflexivity|]).
      split; [intros H; specialize (Hempty H); discriminate|].
      apply Hcases. intros H. specialize (Hempty H). discriminate.
Qed.

Lemma download_failure_writes_nothing_witness :
  exists w',
    process_invoices_main (fun _ _ => Raise (WriterError "disk full"))
      (Returned {| success := false; error := Some "Gmail connection failed";
                   emails_found := 0; files_downloaded := 0;
                   downloaded_files := [] |}) sample_world = (Ret tt, w')
    /\ written w' = [].
Proof.
  destruct (download_failure_writes_nothing
              (fun _ _ => Raise (WriterError "disk full"))
              (Returned {| success := false;
                           error := Some "Gmail connection failed";
                           emails_found := 0; files_downloaded := 0;
                           downloaded_files := [] |}) sample_world)
    as (res & w' & w'' & Hrun & _ & _ & _ & _ & _ & _ & _ & Hfail).
  destruct (Hfail _ eq_refl eq_refl) as [-> Hw].
  exists w'. split; [exact Hrun|exact Hw].
Defined.

(** ** The two date fields *)



(** * Properties of the mail download *)

(** ** The subject test *)

Section SubjectTest.
Import Gmail GmailSpec.

Lemma lower_char_idem c : PyStr.lower_char (PyStr.lower_char c) = PyStr.lower_char c.
Proof. destruct c as [[] [] [] [] [] [] [] []]; reflexivity. Qed.

Lemma prefix_of_lower k : forall s,
  String.prefix k (PyStr.lower s) = true -> PyStr.lower k = k.
Proof.
  induction k as [|a k IH]; intros [|d s]; simpl; try reflexivity; try discriminate.
  destruct (ascii_dec a (PyStr.lower_char d)) as [->|]; [|discriminate].
  intros H. rewrite lower_char_idem, (IH s H). reflexivity.
Qed.

(** A substring of a lowercased string is its own lowercase. *)
Lemma contains_in_lower k s :
  PyStr.contains k (PyStr.lower s) = true -> PyStr.lower k = k.
Proof.
  induction s as [|d s IH].
  - destruct k; [reflexivity|discriminate].
  - cbn [PyStr.lower PyStr.contains].
    destruct (String.prefix k (String (PyStr.lower_char d) (PyStr.lower s))) eqn:Hp.
    + intros _. apply (prefix_of_lower k (String d s)). exact Hp.
    + exact IH.
Qed.

Lemma core_found core keyword s :
  In core core_keywords ->
  PyStr.contains core keyword = true ->
  PyStr.contains keyword s = true ->
  exists core, In core core_keywords /\ PyStr.contains core s = true.
Proof. intros Hin H1 H2. exists core. split; [exact Hin|]. eapply contains_trans; eauto. Qed.

Lemma keyword_has_core s keyword :
  In keyword invoice_keywords ->
  PyStr.contains keyword (PyStr.lower s) = true ->
  exists core, In core core_keywords
               /\ PyStr.contains core (PyStr.lower s) = true.
Proof.
  intros Hin Hc. pose proof (contains_in_lower _ _ Hc) as Hlow.
  unfold invoice_keywords in Hin. simpl in Hin.
  repeat (destruct Hin as [<-|Hin]; [
    match type of Hc with
    | PyStr.contains ?k _ = true =>
        first
          [ vm_compute in Hlow; discriminate Hlow
          | apply (core_found "invoice" k _ (or_introl eq_refl) eq_refl Hc)
          | apply (core_found "bill" k _ (or_intror (or_introl eq_refl))
                     eq_refl Hc)
          | apply (core_found "receipt" k _
                     (or_intror (or_intror (or_introl eq_refl))) eq_refl Hc)
          | apply (core_found "statement" k _
                     (or_intror (or_intror (or_intror (or_introl eq_refl))))
                     eq_refl Hc)
          | apply (core_found "payment" k _
                     (or_intror
                        (or_intror (or_intror (or_intror (or_introl eq_refl)))))
                     eq_refl Hc) ]
    end |]).
  destruct Hin.
Qed.

End SubjectTest.

(** X8. The subject test depends on five words only. A mail passes it
    exactly when its subject, lowercased, contains one of [invoice],
    [bill], [receipt], [statement] and [payment]: every other keyword of
    the list contains one of the five, except the five written in
    capitals, which no lowercased subject contains. A mail without a
    subject does not pass. *)
Theorem subject_test_five_words (email_message : Gmail.message) :
  Gmail.is_invoice_email email_message
  = existsb
      (fun core =>
         PyStr.contains core
           (PyStr.lower (Gmail.get (Gmail.subject email_message) "")))
      GmailSpec.core_keywords
  /\ (forall keyword s,
        In keyword ["INV-"; "INVOICE-"; "BILL-"; "RECEIPT-"; "PAYMENT-"] ->
        In keyword Gmail.invoice_keywords
        /\ PyStr.contains keyword (PyStr.lower s) = false)
  /\ (Gmail.subject email_message = None ->
      Gmail.is_invoice_email email_message = false).
Proof.
  split; [|split].
  - unfold Gmail.is_invoice_email.
    set (s := Gmail.get (Gmail.subject email_message) "").
    apply eq_true_iff_eq. rewrite !existsb_exists. split.
    + intros (k & Hin & Hc). apply (keyword_has_core s k Hin Hc).
    + intros (k & Hin & Hc). exists k. split; [|exact Hc].
      unfold GmailSpec.core_keywords in Hin. unfold Gmail.invoice_keywords.
      simpl in *. tauto.
  - intros keyword s Hin. split.
    + unfold Gmail.invoice_keywords. simpl in *. tauto.
    + destruct (PyStr.contains keyword (PyStr.lower s)) eqn:Hc; [|reflexivity].
      apply contains_in_lower in Hc. simpl in Hin.
      destruct Hin as [<-|[<-|[<-|[<-|[<-|[]]]]]];
        vm_compute in Hc; discriminate Hc.
  - intros Hnone. unfold Gmail.is_invoice_email. rewrite Hnone. reflexivity.
Qed.

Lemma subject_test_five_words_witness :
  Gmail.is_invoice_email
    {| Gmail.subject := Some "INV-2024-001 attached"; Gmail.sender := None;
       Gmail.date := None; Gmail.parts := [] |} = false
  /\ Gmail.is_invoice_email
       {| Gmail.subject := Some "Your PAYMENT-7 is due"; Gmail.sender := None;
          Gmail.date := None; Gmail.parts := [] |} = true.
Proof.
  split.
  - destruct (subject_test_five_words
                {| Gmail.subject := Some "INV-2024-001 attached";
                   Gmail.sender := None; Gmail.date := None;
                   Gmail.parts := [] |}) as [-> _].
    reflexivity.
  - destruct (subject_test_five_words
                {| Gmail.subject := Some "Your PAYMENT-7 is due";
                   Gmail.sender := None; Gmail.date := None;
                   Gmail.parts := [] |}) as [-> _].
    reflexivity.
Defined.

(** ** The safe subject *)

Section SafeSubject.
Import Gmail GmailSpec.

Lemma str_to_length n : forall s, String.length (str_to n s) <= n.
Proof.
  induction n as [|n IH]; intros [|c s]; simpl; try lia.
  specialize (IH s). lia.
Qed.

Lemma str_to_from n : forall s, s = str_to n s +:+ str_from n s.
Proof.
  induction n as [|n IH]; intros [|c s]; try reflexivity.
  exact (f_equal (String c) (IH s)).
Qed.

Lemma str_to_all n : forall s, String.length s <= n -> str_to n s = s.
Proof.
  induction n as [|n IH]; intros [|c s]; simpl; try reflexivity; try lia.
  intros H. rewrite IH by lia. reflexivity.
Qed.

Lemma forallb_str_to p n : forall s,
  PyStr.forallb p s = true -> PyStr.forallb p (str_to n s) = true.
Proof.
  induction n as [|n IH]; intros [|c s]; simpl; try reflexivity.
  intros H. apply andb_true_iff in H as [-> Hs]. apply IH, Hs.
Qed.

Lemma forallb_no_char p c s :
  PyStr.forallb p s = true -> p c = false -> has_char c s = false.
Proof.
  intros Hs Hc. induction s as [|d s IH]; [reflexivity|]. simpl in *.
  apply andb_true_iff in Hs as [Hd Hs]. rewrite (IH Hs).
  destruct (Ascii.eqb d c) eqn:He; [|reflexivity].
  apply Ascii.eqb_eq in He. congruence.
Qed.

Lemma word_not_separator c : isword c = true -> hyphen_or_space c = false.
Proof. destruct c as [[] [] [] [] [] [] [] []]; vm_compute; congruence. Qed.

Lemma hyphen_is_separator c : Ascii.eqb c "-" = true -> hyphen_or_space c = true.
Proof. unfold hyphen_or_space. intros ->. reflexivity. Qed.

Lemma join_runs_chars s : forall in_run,
  PyStr.forallb (fun c => isword c || PyStr.isspace c || Ascii.eqb c "-") s = true ->
  PyStr.forallb word_or_hyphen (join_runs in_run s) = true.
Proof.
  induction s as [|c s IH]; intros in_run; [reflexivity|]. simpl.
  intros H. apply andb_true_iff in H as [Hc Hs].
  destruct (hyphen_or_space c) eqn:Hsep.
  - destruct in_run; simpl; auto.
  - simpl. rewrite (IH false Hs), andb_true_r. unfold word_or_hyphen.
    unfold hyphen_or_space in Hsep. apply orb_false_iff in Hsep as [H1 H2].
    rewrite H1, H2, !orb_false_r in Hc. rewrite Hc. reflexivity.
Qed.

Lemma drop_unsafe_chars s :
  PyStr.forallb (fun c => isword c || PyStr.isspace c || Ascii.eqb c "-")
    (drop_unsafe s) = true.
Proof.
  induction s as [|c s IH]; [reflexivity|]. simpl.
  destruct (isword c || PyStr.isspace c || Ascii.eqb c "-") eqn:Hc; [|exact IH].
  simpl. rewrite Hc. exact IH.
Qed.

Lemma contains_cons sub c s :
  PyStr.contains sub (String c s)
  = String.prefix sub (String c s) || PyStr.contains sub s.
Proof. cbn [PyStr.contains]. destruct (String.prefix sub (String c s)); reflexivity. Qed.

Lemma prefix_cons a k c s :
  String.prefix (String a k) (String c s)
  = if ascii_dec a c then String.prefix k s else false.
Proof. reflexivity. Qed.

Lemma prefix_two_hyphens c s :
  String.prefix "--" (String c s) = Ascii.eqb c "-" && String.prefix "-" s.
Proof.
  rewrite prefix_cons. destruct (ascii_dec "-" c) as [<-|Hne]; [reflexivity|].
  destruct (Ascii.eqb c "-") eqn:He; [|reflexivity].
  apply Ascii.eqb_eq in He. congruence.
Qed.

Lemma prefix_hyphen c s : String.prefix "-" (String c s) = Ascii.eqb c "-".
Proof.
  rewrite prefix_cons. destruct (ascii_dec "-" c) as [<-|Hne];
    [destruct s; reflexivity|].
  destruct (Ascii.eqb c "-") eqn:He; [|reflexivity].
  apply Ascii.eqb_eq in He. congruence.
Qed.

Lemma join_runs_no_double s : forall in_run,
  PyStr.contains "--" (join_runs in_run s) = false
  /\ (in_run = true -> String.prefix "-" (join_runs in_run s) = false).
Proof.
  induction s as [|c s IH]; intros in_run; [split; reflexivity|]. simpl.
  destruct (hyphen_or_space c) eqn:Hsep.
  - destruct in_run; [apply IH|].
    destruct (IH true) as [H1 H2]. split; [|discriminate].
    rewrite contains_cons, prefix_two_hyphens, H1, (H2 eq_refl). reflexivity.
  - destruct (IH false) as [H1 _].
    assert (Hc : Ascii.eqb c "-" = false).
    { destruct (Ascii.eqb c "-") eqn:He; [|reflexivity].
      rewrite (hyphen_is_separator c He) in Hsep. discriminate. }
    split.
    + rewrite contains_cons, prefix_two_hyphens, Hc, H1. reflexivity.
    + intros _. rewrite prefix_hyphen. exact Hc.
Qed.

Lemma contains_str_to sub n s :
  PyStr.contains sub (str_to n s) = true -> PyStr.contains sub s = true.
Proof.
  rewrite !contains_iff. intros (pre & post & H).
  exists pre, (post +:+ str_from n s).
  rewrite (str_to_from n s) at 1. rewrite H, !append_assoc. reflexivity.
Qed.

Lemma drop_unsafe_id s :
  PyStr.forallb word_or_hyphen s = true -> drop_unsafe s = s.
Proof.
  induction s as [|c s IH]; [reflexivity|]. simpl.
  intros H. apply andb_true_iff in H as [Hc Hs]. rewrite (IH Hs).
  unfold word_or_hyphen in Hc. apply orb_true_iff in Hc as [->| ->];
    [reflexivity|rewrite orb_true_r; reflexivity].
Qed.

Lemma join_runs_id s : forall in_run,
  PyStr.forallb word_or_hyphen s = true ->
  PyStr.contains "--" s = false ->
  (in_run = true -> String.prefix "-" s = false) ->
  join_runs in_run s = s.
Proof.
  induction s as [|c s IH]; intros in_run; [reflexivity|]. simpl PyStr.forallb.
  intros H Hdd Hrun. apply andb_true_iff in H as [Hc Hs].
  rewrite contains_cons, prefix_two_hyphens in Hdd.
  apply orb_false_iff in Hdd as [Hpre Hdd].
  rewrite prefix_hyphen in Hrun. simpl.
  destruct (Ascii.eqb c "-") eqn:He.
  - rewrite (hyphen_is_separator c He). simpl in Hpre.
    destruct in_run; [specialize (Hrun eq_refl); discriminate|].
    apply Ascii.eqb_eq in He. subst c.
    rewrite (IH true Hs Hdd (fun _ => Hpre)). reflexivity.
  - unfold word_or_hyphen in Hc. rewrite He, orb_false_r in Hc.
    rewrite (word_not_separator c Hc).
    rewrite (IH false Hs Hdd); [reflexivity|discriminate].
Qed.

Lemma safe_subject_is_safe_aux subject :
  String.length (safe_subject subject) <= 50
  /\ PyStr.forallb word_or_hyphen (safe_subject subject) = true
  /\ PyStr.contains "--" (safe_subject subject) = false.
Proof.
  split; [apply str_to_length|]. split.
  - unfold safe_subject. apply forallb_str_to, join_runs_chars, drop_unsafe_chars.
  - unfold safe_subject.
    destruct (PyStr.contains "--" (str_to 50 _)) eqn:Hc; [|reflexivity].
    apply contains_str_to in Hc.
    rewrite (proj1 (join_runs_no_double _ false)) in Hc. discriminate.
Qed.

End SafeSubject.

(** X9. The safe subject is safe as part of a file name: for every
    subject it has at most fifty characters, each of them a word
    character or a hyphen, so it has no slash, no point and no blank, and
    it has no two hyphens in a row. *)
Theorem safe_subject_is_safe (subject : string) :
  String.length (Gmail.safe_subject subject) <= 50
  /\ PyStr.forallb GmailSpec.word_or_hyphen (Gmail.safe_subject subject) = true
  /\ PyStr.contains "--" (Gmail.safe_subject subject) = false
  /\ has_char "/" (Gmail.safe_subject subject) = false
  /\ has_char "." (Gmail.safe_subject subject) = false
  /\ (forall c, PyStr.isspace c = true ->
                has_char c (Gmail.safe_subject subject) = false).
Proof.
  destruct (safe_subject_is_safe_aux subject) as (Hlen & Hchars & Hdd).
  split; [exact Hlen|]. split; [exact Hchars|]. split; [exact Hdd|].
  split; [apply (forallb_no_char _ _ _ Hchars); reflexivity|].
  split; [apply (forallb_no_char _ _ _ Hchars); reflexivity|].
  intros c Hc. apply (forallb_no_char _ _ _ Hchars).
  unfold GmailSpec.word_or_hyphen.
  destruct (Gmail.isword c) eqn:Hw.
  - apply word_not_separator in Hw. unfold Gmail.hyphen_or_space in Hw.
    rewrite Hc, orb_true_r in Hw. discriminate.
  - simpl. destruct (Ascii.eqb c "-") eqn:He; [|reflexivity].
    apply Ascii.eqb_eq in He. subst c. discriminate.
Qed.

(** X10. Making a subject safe is idempotent: a safe subject is its own
    safe subject. *)
Theorem safe_subject_idempotent (subject : string) :
  Gmail.safe_subject (Gmail.safe_subject subject) = Gmail.safe_subject subject.
Proof.
  destruct (safe_subject_is_safe_aux subject) as (Hlen & Hchars & Hdd).
  unfold Gmail.safe_subject at 1.
  rewrite (drop_unsafe_id _ Hchars).
  rewrite (join_runs_id _ false Hchars Hdd) by discriminate.
  apply str_to_all, Hlen.
Qed.

(** ** Names of the files written *)

Section FileNames.
Import Gmail GmailSpec.

Lemma string_of_uint_digits d :
  PyStr.forallb PyStr.isdigit (NilEmpty.string_of_uint d) = true.
Proof. induction d; simpl; auto. Qed.

Lemma str_of_nat_digits n : PyStr.forallb PyStr.isdigit (str_of_nat n) = true.
Proof.
  unfold str_of_nat, PyFloat.str_of_Z, NilZero.string_of_uint.
  destruct (N.to_uint _) eqn:Hd; try reflexivity;
    rewrite <- Hd; apply string_of_uint_digits.
Qed.

Lemma forallb_app p a b :
  PyStr.forallb p (a +:+ b) = PyStr.forallb p a && PyStr.forallb p b.
Proof.
  induction a as [|x a IH]; [reflexivity|].
  change (p x && PyStr.forallb p (a +:+ b)
          = p x && PyStr.forallb p a && PyStr.forallb p b).
  rewrite IH. apply andb_assoc.
Qed.

Lemma two_digits_digits n : PyStr.forallb PyStr.isdigit (two_digits n) = true.
Proof.
  unfold two_digits. destruct (n <? 10)%nat.
  - rewrite forallb_app, str_of_nat_digits. reflexivity.
  - apply str_of_nat_digits.
Qed.

Lemma timestamp_no_slash t : has_char "/" (timestamp_of t) = false.
Proof.
  unfold timestamp_of. rewrite !has_char_app.
  rewrite (forallb_no_char _ "/" _ (str_of_nat_digits _) eq_refl).
  rewrite !(forallb_no_char _ "/" _ (two_digits_digits _) eq_refl).
  reflexivity.
Qed.

Lemma has_char_str_to c n : forall s,
  has_char c s = false -> has_char c (str_to n s) = false.
Proof.
  induction n as [|n IH]; intros [|d s]; simpl; try reflexivity.
  intros H. apply orb_false_iff in H as [-> Hs]. apply IH, Hs.
Qed.

Lemma stem_no_slash p : has_char "/" (stem p) = false.
Proof.
  unfold stem. destruct (path_name_plain p) as [H _].
  destruct (suffix_index (path_name p)); [apply has_char_str_to|]; exact H.
Qed.

Lemma supported_in ext : supported ext = true -> In ext supported_extensions.
Proof.
  unfold supported. rewrite existsb_exists.
  intros (x & Hin & Hx). apply String.eqb_eq in Hx. subst. exact Hin.
Qed.

Lemma supported_no_slash ext : In ext supported_extensions -> has_char "/" ext = false.
Proof.
  unfold supported_extensions. simpl.
  intros [<-|[<-|[<-|[<-|[<-|[]]]]]]; reflexivity.
Qed.

(** The name given to an attachment has no slash and ends with the
    extension; neither has the name of its metadata file. *)
Lemma new_filename_plain safe filename t :
  has_char "/" safe = false ->
  supported (PyStr.lower (suffix filename)) = true ->
  let new_filename :=
    safe +:+ "_" +:+ stem filename +:+ "_" +:+ timestamp_of t
    +:+ PyStr.lower (suffix filename) in
  has_char "/" new_filename = false
  /\ has_char "/" (with_suffix_name new_filename ".metadata.txt") = false
  /\ supported_file_name new_filename.
Proof.
  intros Hsafe Hext new_filename.
  apply supported_in in Hext.
  assert (Hnew : has_char "/" new_filename = false).
  { subst new_filename. rewrite !has_char_app, Hsafe, stem_no_slash,
      timestamp_no_slash, (supported_no_slash _ Hext). reflexivity. }
  split; [exact Hnew|]. split.
  - unfold with_suffix_name. rewrite has_char_app, stem_no_slash. reflexivity.
  - exists (safe +:+ "_" +:+ stem filename +:+ "_" +:+ timestamp_of t),
      (PyStr.lower (suffix filename)).
    split; [|exact Hext].
    subst new_filename. rewrite !append_assoc. reflexivity.
Qed.

Lemma has_char_proper c name :
  has_char c name = true -> Ascii.eqb "." c = false ->
  name <> "" /\ name <> "." /\ name <> "..".
Proof.
  intros H Hc. repeat split; intros ->; cbn [has_char] in H;
    rewrite ?Hc in H; discriminate.
Qed.

(** Both names stay in the directory. *)
Lemma new_filename_proper safe filename t :
  has_char "/" safe = false ->
  supported (PyStr.lower (suffix filename)) = true ->
  let new_filename :=
    safe +:+ "_" +:+ stem filename +:+ "_" +:+ timestamp_of t
    +:+ PyStr.lower (suffix filename) in
  plain_name new_filename
  /\ plain_name (with_suffix_name new_filename ".metadata.txt").
Proof.
  intros Hsafe Hext new_filename.
  destruct (new_filename_plain safe filename t Hsafe Hext) as (Hnew & Hmeta & _).
  split.
  - split; [exact Hnew|]. apply (has_char_proper "_"); [|reflexivity].
    subst new_filename. rewrite !has_char_app. simpl.
    rewrite orb_true_r. reflexivity.
  - split; [exact Hmeta|]. apply (has_char_proper "m"); [|reflexivity].
    unfold with_suffix_name. rewrite has_char_app. simpl.
    apply orb_true_r.
Qed.

End FileNames.

(** ** Runs of the downloader *)

Section DownloaderRuns.
Import Gmail GmailSpec.

Variable srv : server.
Variable dir : string.

Lemma adds_refl st : adds st st [] [].
Proof. unfold adds. rewrite !app_nil_r. auto. Qed.

Lemma adds_trans st1 st2 st3 cs1 cs2 fs1 fs2 :
  adds st1 st2 cs1 fs1 -> adds st2 st3 cs2 fs2 ->
  adds st1 st3 (cs1 ++ cs2) (fs1 ++ fs2).
Proof.
  intros [H1 H2] [H3 H4]. unfold adds.
  rewrite H3, H1, H4, H2, !app_assoc. auto.
Qed.

Lemma bind_ok {A B} (m : G A) (f : A -> G B) st a st' :
  m st = (Ok a, st') -> (m ≫= f) st = f a st'.
Proof. intros H. unfold mbind, G_bind. rewrite H. reflexivity. Qed.

Lemma bind_err {A B} (m : G A) (f : A -> G B) st e st' :
  m st = (Err e, st') -> (m ≫= f) st = (Err e, st').
Proof. intros H. unfold mbind, G_bind. rewrite H. reflexivity. Qed.

Lemma send_spec {A} c (answer : outcome A) st :
  send c answer st = (answer, sending st [c]) /\ adds st (sending st [c]) [c] [].
Proof. split; [reflexivity|]. unfold adds. simpl. rewrite app_nil_r. auto. Qed.

Lemma has_supported_existsb walk :
  _has_supported_attachments walk = existsb supported_part walk.
Proof.
  induction walk as [|p walk IH]; [reflexivity|]. simpl.
  unfold supported_part at 1.
  destruct (String.eqb (maintype p) "multipart"); [exact IH|]. simpl.
  destruct (filename p) as [f|]; [|exact IH].
  destruct (negb (String.eqb f "") && supported (PyStr.lower (suffix f)));
    [reflexivity|exact IH].
Qed.

(** *** [search_invoices] *)

Lemma search_loop_spec email_ids : forall invoice_emails st,
  exists st',
    search_loop srv email_ids invoice_emails st
    = (Ok (invoice_emails ++ List.filter (selected srv) email_ids), st')
    /\ adds st st' (map Fetch email_ids) [].
Proof.
  induction email_ids as [|email_id rest IH]; intros acc st.
  - exists st. simpl. rewrite app_nil_r. split; [reflexivity|apply adds_refl].
  - cbn [search_loop].
    match goal with
    | |- context [mbind ?f (try_g ?body ?h) st] =>
        assert (Hstep : try_g body h st
                        = (Ok (selected srv email_id), sending st [Fetch email_id]))
    end.
    { unfold try_g, mbind, G_bind, send, selected.
      destruct (fetch srv email_id) as [[status data]|e]; [|reflexivity].
      destruct (String.eqb status "OK"); [|reflexivity]. simpl.
      destruct (subject_is_header data); reflexivity. }
    rewrite (bind_ok _ _ _ _ _ Hstep).
    destruct (IH (if selected srv email_id then acc ++ [email_id] else acc)
                 (sending st [Fetch email_id])) as (st' & Hrun & Hadds).
    exists st'. split.
    + rewrite Hrun. f_equal. f_equal. simpl.
      destruct (selected srv email_id); [rewrite <- app_assoc|]; reflexivity.
    + apply (adds_trans _ _ _ [Fetch email_id] _ [] [] (proj2 (send_spec (A:=unit) _ (Ok tt) st)) Hadds).
Qed.

Lemma search_invoices_spec st :
  exists st',
    snd (search_invoices srv st) = st'
    /\ match select srv, search srv with
       | Ok _, Ok (status, email_ids) =>
           if String.eqb status "OK" then
             fst (search_invoices srv st)
             = Ok (List.filter (selected srv) email_ids)
             /\ adds st st' ([Select; Search] ++ map Fetch email_ids) []
           else
             fst (search_invoices srv st)
             = Err (EmailError
                      "Failed to search invoices: Failed to search emails")
             /\ adds st st' [Select; Search] []
       | Ok _, Err e =>
           fst (search_invoices srv st)
           = Err (EmailError ("Failed to search invoices: " +:+ exc_msg e))
           /\ adds st st' [Select; Search] []
       | Err e, _ =>
           fst (search_invoices srv st)
           = Err (EmailError ("Failed to search invoices: " +:+ exc_msg e))
           /\ adds st st' [Select] []
       end.
Proof.
  eexists. split; [reflexivity|].
  unfold search_invoices, try_g, mbind, G_bind, send, now, raise.
  destruct (select srv) as [u|e]; simpl.
  - destruct (search srv) as [[status email_ids]|e]; simpl.
    + destruct (String.eqb status "OK") eqn:Hs; simpl.
      * match goal with
        | |- context [search_loop srv email_ids [] ?s0] =>
            destruct (search_loop_spec email_ids [] s0) as (st' & -> & Ha)
        end.
        simpl. split; [reflexivity|].
        destruct Ha as [Ha1 Ha2]. simpl in *. unfold adds.
        rewrite Ha1, Ha2, <- !app_assoc. simpl. rewrite !app_nil_r. auto.
      * split; [reflexivity|]. unfold adds. simpl.
        rewrite <- !app_assoc, app_nil_r. auto.
    + split; [reflexivity|]. unfold adds. simpl.
      rewrite <- !app_assoc, app_nil_r. auto.
  - split; [reflexivity|]. unfold adds. simpl. rewrite app_nil_r. auto.
Qed.

End DownloaderRuns.

Section AttachmentRuns.
Import Gmail GmailSpec.

Variable srv : server.
Variable dir : string.

Lemma metadata_spec new_filename subject from_email date st :
  plain_name (with_suffix_name new_filename ".metadata.txt") ->
  exists st' fs,
    _create_metadata_file srv dir new_filename subject from_email date st
    = (Ok tt, st')
    /\ adds st st' [] fs
    /\ Forall (fun f => inside dir (fst f)) fs
    /\ Forall (fun f => forall bytes, snd f <> Attachment bytes) fs.
Proof.
  intros Hname.
  unfold _create_metadata_file, try_g, mbind, G_bind, open_for_writing, now,
    put_file, in_input_dir.
  destruct (can_write srv _) as [u|e]; simpl.
  - eexists. eexists. split; [reflexivity|]. split; [|split].
    + unfold adds. simpl. rewrite app_nil_r. split; reflexivity.
    + repeat constructor. eexists. split; [reflexivity|exact Hname].
    + repeat constructor. simpl. discriminate.
  - exists st, []. split; [reflexivity|]. split; [apply adds_refl|].
    split; constructor.
Qed.

(** Saving one attachment: the [try] block around the write. *)
Lemma save_spec new_filename subject from_email date payload st :
  plain_name new_filename ->
  plain_name (with_suffix_name new_filename ".metadata.txt") ->
  exists written st' fs,
    try_g (A := bool)
      (_ ← write_payload srv (in_input_dir dir new_filename) payload;
       _ ← _create_metadata_file srv dir new_filename subject from_email date;
       mret true)
      (fun _ => mret false) st
    = (Ok written, st')
    /\ adds st st' [] fs
    /\ Forall (fun f => inside dir (fst f)) fs
    /\ (written = true ->
        exists bytes,
          payload = Some bytes
          /\ In (in_input_dir dir new_filename, Attachment bytes) fs)
    /\ (written = false ->
        Forall (fun f => snd f = Attachment "") fs)
    /\ ((exists u, can_write srv (in_input_dir dir new_filename) = Ok u) ->
        payload <> None -> written = true).
Proof.
  intros Hnew Hmeta.
  assert (Hin : inside dir (in_input_dir dir new_filename)).
  { eexists. split; [reflexivity|exact Hnew]. }
  unfold try_g at 1. unfold mbind at 1, G_bind at 1.
  unfold write_payload at 1. unfold mbind at 1, G_bind at 1.
  unfold open_for_writing.
  destruct (can_write srv (in_input_dir dir new_filename)) as [u|e].
  - destruct payload as [bytes|].
    + unfold put_file at 1.
      match goal with
      | |- context [mbind _ (_create_metadata_file _ _ _ _ _ _) ?s0] =>
          destruct (metadata_spec new_filename subject from_email date s0 Hmeta)
            as (st' & fs & Hrun & Ha & Hfs & Hnot)
      end.
      rewrite (bind_ok _ _ _ _ _ Hrun).
      exists true, st', ((in_input_dir dir new_filename, Attachment bytes) :: fs).
      split; [reflexivity|]. split; [|split; [|split; [|split]]].
      * destruct Ha as [Ha1 Ha2]. simpl in *. unfold adds.
        rewrite Ha1, Ha2, <- app_assoc, app_nil_r. auto.
      * constructor; assumption.
      * intros _. exists bytes. split; [reflexivity|left; reflexivity].
      * discriminate.
      * reflexivity.
    + unfold mbind, G_bind, put_file, raise, mret, G_ret.
      eexists false, _, [(in_input_dir dir new_filename, Attachment "")].
      split; [reflexivity|]. split; [|split; [|split; [|split]]].
      * unfold adds. simpl. rewrite app_nil_r. auto.
      * repeat constructor. exact Hin.
      * discriminate.
      * intros _. repeat constructor.
      * intros _ H. congruence.
  - exists false, st, []. split; [reflexivity|].
    split; [apply adds_refl|]. split; [constructor|]. split; [discriminate|].
    split; [constructor|]. intros [u Hu]. discriminate.
Qed.

Lemma attachments_loop_spec safe subject from_email date walk :
  has_char "/" safe = false ->
  forall downloaded_files st,
  exists new st' fs,
    attachments_loop srv dir safe subject from_email date walk
      downloaded_files st = (Ok (downloaded_files ++ new), st')
    /\ adds st st' [] fs
    /\ Forall (fun f => inside dir (fst f)) fs
    /\ Forall (supported_file dir) new
    /\ Forall (fun path => exists bytes, In (path, Attachment bytes) fs) new
    /\ length new <= length (List.filter supported_part walk)
    /\ ((forall path, exists u, can_write srv path = Ok u) ->
        Forall (fun p => supported_part p = true -> payload p <> None) walk ->
        length new = length (List.filter supported_part walk))
    /\ (existsb supported_part walk = false -> new = [] /\ fs = []).
Proof.
  intros Hsafe. induction walk as [|p walk IH]; intros acc st.
  - exists [], st, []. simpl. rewrite app_nil_r.
    split; [reflexivity|]. split; [apply adds_refl|].
    repeat split; auto.
  - cbn [attachments_loop].
    assert (Hskip : supported_part p = false ->
              exists new st' fs,
                attachments_loop srv dir safe subject from_email date walk acc st
                = (Ok (acc ++ new), st')
                /\ adds st st' [] fs
                /\ Forall (fun f => inside dir (fst f)) fs
                /\ Forall (supported_file dir) new
                /\ Forall (fun path =>
                     exists bytes, In (path, Attachment bytes) fs) new
                /\ length new <= length (List.filter supported_part (p :: walk))
                /\ ((forall path, exists u, can_write srv path = Ok u) ->
                    Forall (fun p => supported_part p = true ->
                                     payload p <> None) (p :: walk) ->
                    length new
                    = length (List.filter supported_part (p :: walk)))
                /\ (existsb supported_part (p :: walk) = false ->
                    new = [] /\ fs = [])).
    { intros Hp. destruct (IH acc st)
        as (new & st' & fs & Hrun & Ha & Hfs & Hnew & Hw & Hle & Heq & Hnone).
      exists new, st', fs. simpl. rewrite Hp. simpl.
      split; [exact Hrun|]. split; [exact Ha|]. split; [exact Hfs|].
      split; [exact Hnew|]. split; [exact Hw|]. split; [exact Hle|].
      split; [|exact Hnone].
      intros Hcw Hall. inversion Hall; subst. auto. }
    unfold supported_part in Hskip.
    destruct (String.eqb (maintype p) "multipart") eqn:Hmulti;
      [apply Hskip; reflexivity|].
    destruct (filename p) as [filename|] eqn:Hname;
      [|apply Hskip; reflexivity].
    destruct (String.eqb filename "") eqn:Hempty;
      [apply Hskip; reflexivity|].
    destruct (supported (PyStr.lower (suffix filename))) eqn:Hext;
      [|apply Hskip; reflexivity].
    clear Hskip.
    assert (Hp : supported_part p = true).
    { unfold supported_part. rewrite Hmulti, Hname, Hempty, Hext. reflexivity. }
    cbn [negb].
    unfold mbind at 1, G_bind at 1. unfold now at 1.
    set (t := clock srv (clock_reads st)).
    set (st1 := {| sent := sent st; files := files st;
                   clock_reads := S (clock_reads st) |}).
    set (new_filename :=
           safe +:+ "_" +:+ stem filename +:+ "_" +:+ timestamp_of t
           +:+ PyStr.lower (suffix filename)).
    destruct (new_filename_plain safe filename t Hsafe Hext)
      as (Hplain & _ & Hsup).
    destruct (new_filename_proper safe filename t Hsafe Hext)
      as (Hproper & Hmeta).
    fold new_filename in Hplain, Hproper, Hmeta, Hsup.
    destruct (save_spec new_filename subject from_email date (payload p) st1
                Hproper Hmeta)
      as (written & st2 & fs1 & Hsave & Ha1 & Hfs1 & Hyes & Hno & Hok).
    rewrite (bind_ok _ _ _ _ _ Hsave).
    destruct (IH (if written then acc ++ [in_input_dir dir new_filename]
                  else acc) st2)
      as (new & st' & fs2 & Hrun & Ha2 & Hfs2 & Hnew & Hw & Hle & Heq & Hnone).
    assert (Ha : adds st st' [] (fs1 ++ fs2)).
    { assert (Ha0 : adds st st1 [] []) by (unfold adds; simpl; rewrite !app_nil_r; auto).
      pose proof (adds_trans _ _ _ _ _ _ _ (adds_trans _ _ _ _ _ _ _ Ha0 Ha1) Ha2) as H.
      exact H. }
    assert (Hw2 : Forall (fun path =>
                     exists bytes, In (path, Attachment bytes) (fs1 ++ fs2)) new).
    { eapply Forall_impl; [exact Hw|]. intros path [b Hb]. exists b.
      apply in_or_app. right. exact Hb. }
    simpl List.filter. rewrite Hp. simpl length.
    destruct written.
    + exists (in_input_dir dir new_filename :: new), st', (fs1 ++ fs2).
      split; [rewrite Hrun, <- app_assoc; reflexivity|].
      split; [exact Ha|]. split; [apply Forall_app; auto|].
      split.
      { constructor; [|exact Hnew].
        exists new_filename. repeat split; auto. }
      split.
      { constructor; [|exact Hw2].
        destruct (Hyes eq_refl) as (b & _ & Hb). exists b.
        apply in_or_app. left. exact Hb. }
      split; [simpl; lia|]. split.
      { intros Hcw Hall. inversion Hall; subst. simpl. rewrite Heq; auto. }
      simpl. rewrite Hp. discriminate.
    + exists new, st', (fs1 ++ fs2).
      split; [exact Hrun|]. split; [exact Ha|].
      split; [apply Forall_app; auto|]. split; [exact Hnew|].
      split; [exact Hw2|]. split; [lia|]. split.
      { intros Hcw Hall. inversion Hall as [|? ? Hpay Hall']; subst.
        specialize (Hok (Hcw _) (Hpay Hp)). discriminate. }
      simpl. rewrite Hp. discriminate.
Qed.

End AttachmentRuns.

Section MailRuns.
Import Gmail GmailSpec.

Variable srv : server.
Variable dir : string.

Lemma safe_subject_no_slash subject : has_char "/" (safe_subject subject) = false.
Proof.
  destruct (safe_subject_is_safe_aux subject) as (_ & Hchars & _).
  apply (forallb_no_char _ _ _ Hchars). reflexivity.
Qed.

Lemma download_email_attachments_spec email_message subject from_email date st :
  exists new st' fs,
    _download_email_attachments srv dir email_message subject from_email date st
    = (Ok new, st')
    /\ adds st st' [] fs
    /\ Forall (fun f => inside dir (fst f)) fs
    /\ Forall (supported_file dir) new
    /\ Forall (fun path => exists bytes, In (path, Attachment bytes) fs) new
    /\ length new <= length (List.filter supported_part (parts email_message))
    /\ ((forall path, exists u, can_write srv path = Ok u) ->
        Forall (fun p => supported_part p = true -> payload p <> None)
          (parts email_message) ->
        length new = length (List.filter supported_part (parts email_message)))
    /\ (existsb supported_part (parts email_message) = false ->
        new = [] /\ fs = []).
Proof.
  destruct (attachments_loop_spec srv dir (safe_subject subject) subject
              from_email date (parts email_message)
              (safe_subject_no_slash subject) [] st)
    as (new & st' & fs & Hrun & H).
  exists new, st', fs. split; [|exact H].
  unfold _download_email_attachments, try_g. rewrite Hrun. reflexivity.
Qed.

(** One round of the loop of [download_attachments]. *)
Lemma download_mail_spec email_id st :
  exists new st' fs,
    try_g (A := list string)
      (answer ← send (Fetch email_id) (fetch srv email_id);
       let '(status, data) := answer in
       if negb (String.eqb status "OK") then mret []
       else if subject_is_header data then mret []
       else
         let email_message := parsed data in
         _download_email_attachments srv dir email_message
           (get (subject email_message) "Unknown")
           (get (sender email_message) "Unknown")
           (get (date email_message) "Unknown"))
      (fun _ => mret []) st
    = (Ok new, st')
    /\ adds st st' [Fetch email_id] fs
    /\ Forall (fun f => inside dir (fst f)) fs
    /\ Forall (supported_file dir) new
    /\ Forall (fun path => exists bytes, In (path, Attachment bytes) fs) new
    /\ ((forall status data,
           fetch srv email_id = Ok (status, data) ->
           existsb supported_part (parts (parsed data)) = false) ->
        new = [] /\ fs = []).
Proof.
  pose proof (proj2 (send_spec (A := unit) (Fetch email_id) (Ok tt) st)) as Hsend.
  unfold try_g at 1. unfold mbind at 1, G_bind at 1. unfold send at 1.
  fold (sending st [Fetch email_id]).
  destruct (fetch srv email_id) as [[status data]|e].
  - destruct (String.eqb status "OK"); cbn [negb];
      [destruct (subject_is_header data);
       [exists [], (sending st [Fetch email_id]), [];
        split; [reflexivity|]; split; [exact Hsend|];
        repeat (split; [constructor|]); auto|]|].
    + set (email_message := parsed data). cbv zeta.
      destruct (download_email_attachments_spec email_message
                  (get (subject email_message) "Unknown")
                  (get (sender email_message) "Unknown")
                  (get (date email_message) "Unknown")
                  (sending st [Fetch email_id]))
        as (new & st' & fs & Hrun & Ha & Hfs & Hnew & Hw & _ & _ & Hnone).
      rewrite Hrun. exists new, st', fs. split; [reflexivity|].
      split; [exact (adds_trans _ _ _ _ _ _ _ Hsend Ha)|].
      repeat (split; [assumption|]).
      intros H. apply Hnone. eapply H. reflexivity.
    + exists [], (sending st [Fetch email_id]), [].
      split; [reflexivity|]. split; [exact Hsend|].
      repeat (split; [constructor|]). auto.
  - exists [], (sending st [Fetch email_id]), [].
    split; [reflexivity|]. split; [exact Hsend|].
    repeat (split; [constructor|]). auto.
Qed.

Lemma download_loop_spec email_ids : forall downloaded_files st,
  exists new st' fs,
    download_loop srv dir email_ids downloaded_files st
    = (Ok (downloaded_files ++ new), st')
    /\ adds st st' (map Fetch email_ids) fs
    /\ Forall (fun f => inside dir (fst f)) fs
    /\ Forall (supported_file dir) new
    /\ Forall (fun path => exists bytes, In (path, Attachment bytes) fs) new
    /\ ((forall email_id status data,
           In email_id email_ids ->
           fetch srv email_id = Ok (status, data) ->
           existsb supported_part (parts (parsed data)) = false) ->
        new = [] /\ fs = []).
Proof.
  induction email_ids as [|email_id rest IH]; intros acc st.
  - exists [], st, []. simpl. rewrite app_nil_r.
    split; [reflexivity|]. split; [apply adds_refl|].
    repeat (split; [constructor|]). auto.
  - cbn [download_loop].
    destruct (download_mail_spec email_id st)
      as (new1 & st1 & fs1 & Hrun1 & Ha1 & Hfs1 & Hnew1 & Hw1 & Hnone1).
    rewrite (bind_ok _ _ _ _ _ Hrun1).
    destruct (IH (acc ++ new1) st1)
      as (new2 & st2 & fs2 & Hrun2 & Ha2 & Hfs2 & Hnew2 & Hw2 & Hnone2).
    exists (new1 ++ new2), st2, (fs1 ++ fs2).
    split; [rewrite Hrun2, <- app_assoc; reflexivity|].
    split; [exact (adds_trans _ _ _ _ _ _ _ Ha1 Ha2)|].
    split; [apply Forall_app; auto|]. split; [apply Forall_app; auto|].
    split.
    + apply Forall_app. split.
      * eapply Forall_impl; [exact Hw1|]. intros path [b Hb]. exists b.
        apply in_or_app. left. exact Hb.
      * eapply Forall_impl; [exact Hw2|]. intros path [b Hb]. exists b.
        apply in_or_app. right. exact Hb.
    + intros H.
      destruct Hnone1 as [-> ->].
      { intros status msg Hf. apply (H email_id status msg); [left; reflexivity|exact Hf]. }
      destruct Hnone2 as [-> ->]; [|split; reflexivity].
      intros id status msg Hin Hf. apply (H id status msg); [right; exact Hin|exact Hf].
Qed.

Lemma download_attachments_spec email_ids st :
  exists new st' fs,
    download_attachments srv dir email_ids st = (Ok new, st')
    /\ adds st st' (map Fetch email_ids) fs
    /\ Forall (fun f => inside dir (fst f)) fs
    /\ Forall (supported_file dir) new
    /\ Forall (fun path => exists bytes, In (path, Attachment bytes) fs) new
    /\ ((forall email_id status data,
           In email_id email_ids ->
           fetch srv email_id = Ok (status, data) ->
           existsb supported_part (parts (parsed data)) = false) ->
        new = [] /\ fs = []).
Proof.
  destruct (download_loop_spec email_ids [] st) as (new & st' & fs & Hrun & H).
  exists new, st', fs. split; [|exact H].
  unfold download_attachments, try_g. rewrite Hrun. reflexivity.
Qed.

Lemma sending_app st cs1 cs2 :
  sending (sending st cs1) cs2 = sending st (cs1 ++ cs2).
Proof. unfold sending. simpl. rewrite app_assoc. reflexivity. Qed.

Lemma sending_nil st : sending st [] = st.
Proof. destruct st. unfold sending. simpl. rewrite app_nil_r. reflexivity. Qed.

Lemma mark_loop_run email_ids : forall st,
  mark_loop srv email_ids st = (Ok tt, sending st (map Store email_ids)).
Proof.
  induction email_ids as [|email_id rest IH]; intros st.
  - simpl. rewrite sending_nil. reflexivity.
  - cbn [mark_loop].
    assert (Hstep : try_g (send (Store email_id) (store srv email_id))
                      (fun _ => mret tt) st
                    = (Ok tt, sending st [Store email_id])).
    { unfold try_g, send. destruct (store srv email_id) as [[]|e]; reflexivity. }
    rewrite (bind_ok _ _ _ _ _ Hstep), IH, sending_app. reflexivity.
Qed.

Lemma mark_emails_as_read_run email_ids st :
  mark_emails_as_read srv email_ids st
  = (Ok tt, sending st (map Store email_ids)).
Proof. unfold mark_emails_as_read, try_g. rewrite mark_loop_run. reflexivity. Qed.

Lemma adds_sending st cs : adds st (sending st cs) cs [].
Proof. unfold adds. simpl. rewrite app_nil_r. auto. Qed.

Lemma connect_to_gmail_run st :
  connect_to_gmail srv st
  = match connect srv with
    | Err e =>
        (Err (EmailError ("Gmail connection failed: " +:+ exc_msg e)),
         sending st [Connect])
    | Ok _ =>
        match login srv with
        | Err e =>
            (Err (EmailError ("Gmail connection failed: " +:+ exc_msg e)),
             sending st [Connect; Login])
        | Ok _ => (Ok tt, sending st [Connect; Login])
        end
    end.
Proof.
  unfold connect_to_gmail, try_g, mbind, G_bind, send, raise, sending.
  destruct (connect srv) as [u|e]; simpl; [|reflexivity].
  destruct (login srv) as [u'|e]; simpl; rewrite <- app_assoc; reflexivity.
Qed.

End MailRuns.

Section InvoiceRuns.
Import Gmail GmailSpec GmailCases.

Variable srv : server.
Variable dir : string.

Lemma search_invoices_run st :
  exists st',
    match select srv, search srv with
    | Ok _, Ok (status, email_ids) =>
        if String.eqb status "OK" then
          search_invoices srv st = (Ok (found srv email_ids), st')
          /\ adds st st' ([Select; Search] ++ map Fetch email_ids) []
        else
          search_invoices srv st
          = (Err (EmailError
                    "Failed to search invoices: Failed to search emails"), st')
          /\ adds st st' [Select; Search] []
    | Ok _, Err e =>
        search_invoices srv st
        = (Err (EmailError ("Failed to search invoices: " +:+ exc_msg e)), st')
        /\ adds st st' [Select; Search] []
    | Err e, _ =>
        search_invoices srv st
        = (Err (EmailError ("Failed to search invoices: " +:+ exc_msg e)), st')
        /\ adds st st' [Select] []
    end.
Proof.
  destruct (search_invoices_spec srv st) as (st' & Hsnd & H).
  exists st'. destruct (search_invoices srv st) as [res st''].
  simpl in *. subst st''.
  destruct (select srv); [destruct (search srv) as [[status ids]|]|];
    [destruct (String.eqb status "OK")| |]; destruct H as [-> Ha]; auto.
Qed.

Lemma try_ok {A} (body : G A) (h : exc -> G A) st a st' :
  body st = (Ok a, st') -> try_g body h st = (Ok a, st').
Proof. intros H. unfold try_g. rewrite H. reflexivity. Qed.

Lemma try_err {A} (body : G A) (h : exc -> G A) st e st' :
  body st = (Err e, st') -> try_g body h st = h e st'.
Proof. intros H. unfold try_g. rewrite H. reflexivity. Qed.

Lemma search_ok_not_fails all : search_ok srv all -> search_fails srv -> False.
Proof.
  intros [[u Hs] Hq] [[e He]|[_ [[e He]|(status & all' & Hq' & Hst)]]].
  - congruence.
  - congruence.
  - rewrite Hq in Hq'. injection Hq' as <- <-. discriminate Hst.
Qed.

Lemma search_ok_unique all all' :
  search_ok srv all -> search_ok srv all' -> all = all'.
Proof. intros [_ H] [_ H']. congruence. Qed.

(** The two ways [search_invoices] ends. *)
Lemma search_invoices_cases st :
  exists res st' cs,
    search_invoices srv st = (res, st')
    /\ adds st st' cs []
    /\ ((exists all,
           search_ok srv all /\ res = Ok (found srv all)
           /\ cs = [Select; Search] ++ map Fetch all)
        \/ (search_fails srv
            /\ (exists msg,
                  res = Err (EmailError ("Failed to search invoices: " +:+ msg)))
            /\ (cs = [Select] \/ cs = [Select; Search]))).
Proof.
  destruct (search_invoices_run st) as (st' & H).
  destruct (select srv) as [u|e] eqn:Hselect.
  - destruct (search srv) as [[status all]|e] eqn:Hsearch.
    + destruct (String.eqb status "OK") eqn:Hstatus; destruct H as [Hrun Ha].
      * apply String.eqb_eq in Hstatus. subst status.
        eexists _, st', _. split; [exact Hrun|]. split; [exact Ha|].
        left. exists all. split; [split; eauto|]. split; reflexivity.
      * eexists _, st', _. split; [exact Hrun|]. split; [exact Ha|].
        right. split; [right; split; eauto|].
        split; [eexists; reflexivity|right; reflexivity].
    + destruct H as [Hrun Ha].
      eexists _, st', _. split; [exact Hrun|]. split; [exact Ha|].
      right. split; [right; split; eauto|].
      split; [eexists; reflexivity|right; reflexivity].
  - destruct H as [Hrun Ha].
    eexists _, st', _. split; [exact Hrun|]. split; [exact Ha|].
    right. split; [left; eauto|].
    split; [eexists; reflexivity|left; reflexivity].
Qed.

Lemma called_rev_fresh (test : command -> bool) (cs l : list command) :
  Forall (fun c => test c = false) cs ->
  called_rev test (rev cs ++ Connect :: l) = false.
Proof.
  induction cs as [|c cs IH] using rev_ind; intros H; [reflexivity|].
  apply Forall_app in H as [Hcs Hc].
  inversion Hc as [|? ? Hx _]; subst.
  rewrite rev_app_distr. simpl.
  destruct c; try reflexivity; rewrite Hx; apply IH, Hcs.
Qed.

Lemma called_fresh (test : command -> bool) st (l cs : list command) :
  sent st = l ++ Connect :: cs ->
  Forall (fun c => test c = false) cs ->
  called test st = false.
Proof.
  intros H Hcs. unfold called. rewrite H, rev_app_distr. simpl.
  rewrite <- app_assoc. apply called_rev_fresh, Hcs.
Qed.

Lemma called_sending (test : command -> bool) st c :
  c <> Connect ->
  called test (sending st [c]) = test c || called test st.
Proof.
  intros Hc. unfold called, sending. simpl. rewrite rev_app_distr. simpl.
  destruct c; try reflexivity. congruence.
Qed.

Lemma quiet_map (test : command -> bool) {A} (f : A -> command) (l : list A) :
  (forall x, test (f x) = false) ->
  Forall (fun c => test c = false) (map f l).
Proof. intros H. induction l; simpl; constructor; auto. Qed.

(** On a connection just opened, after commands that [test] refuses. *)
Lemma called_connected (test : command -> bool) st st' cs fs :
  adds (sending st [Connect; Login]) st' cs fs ->
  test Login = false ->
  Forall (fun c => test c = false) cs ->
  called test st' = false.
Proof.
  intros [Hsent _] Hl Hcs.
  apply (called_fresh test st' (sent st) (Login :: cs)).
  - rewrite Hsent. simpl. rewrite <- app_assoc. reflexivity.
  - constructor; assumption.
Qed.

Lemma mail_close_run st :
  mail_close srv st
  = (if called is_close st then close_again srv else close srv,
     sending st [Close]).
Proof. reflexivity. Qed.

Lemma mail_logout_run st :
  mail_logout srv st
  = (if called is_logout st then logout_again srv else logout srv,
     sending st [Logout]).
Proof. reflexivity. Qed.

(** The inner [except] block, by what the [try] block has called. *)
Lemma close_and_raise_run e st :
  close_and_raise srv e st
  = (Err (snd (cleanup srv (called is_close st) (called is_logout st) e)),
     sending st
       (fst (cleanup srv (called is_close st) (called is_logout st) e))).
Proof.
  unfold close_and_raise, cleanup.
  unfold mbind at 1, G_bind at 1. rewrite mail_close_run.
  destruct (if called is_close st then close_again srv else close srv)
    as [u|e0]; [|reflexivity].
  unfold mbind at 1, G_bind at 1. rewrite mail_logout_run.
  rewrite called_sending by discriminate. simpl orb.
  destruct (if called is_logout st then logout_again srv else logout srv)
    as [u'|e1]; unfold raise; rewrite sending_app; reflexivity.
Qed.

(** The inner [try] with its [except], on a connection just opened. *)
Lemma download_session_run mark_as_read st :
  exists res st' cs fs,
    try_g (download_found srv dir mark_as_read) (close_and_raise srv)
      (sending st [Connect; Login])
    = (res, st')
    /\ adds (sending st [Connect; Login]) st' cs fs
    /\ Forall (fun f => inside dir (fst f)) fs
    /\ ((exists e cs1,
            search_fails srv /\ fs = []
            /\ (cs1 = [Select] \/ cs1 = [Select; Search])
            /\ (exists msg,
                  e = EmailError ("Failed to search invoices: " +:+ msg))
            /\ res = Err (snd (cleanup srv false false e))
            /\ cs = cs1 ++ fst (cleanup srv false false e))
        \/ (exists all,
              search_ok srv all /\ found srv all = []
              /\ res = Ok (succeeded 0 []) /\ fs = []
              /\ cs = [Select; Search] ++ map Fetch all)
        \/ (exists all new,
              search_ok srv all /\ found srv all <> []
              /\ (exists u, close srv = Ok u) /\ (exists u, logout srv = Ok u)
              /\ res = Ok (succeeded (length (found srv all)) new)
              /\ cs = [Select; Search] ++ map Fetch all
                      ++ map Fetch (found srv all)
                      ++ stores mark_as_read (found srv all)
                      ++ [Close; Logout]
              /\ Forall (supported_file dir) new
              /\ Forall (fun path =>
                   exists bytes, In (path, Attachment bytes) fs) new)
        \/ (exists all e logged_out called_tail,
              search_ok srv all /\ found srv all <> []
              /\ ((close srv = Err e /\ logged_out = false
                   /\ called_tail = [Close])
                  \/ ((exists u, close srv = Ok u) /\ logout srv = Err e
                      /\ logged_out = true /\ called_tail = [Close; Logout]))
              /\ res = Err (snd (cleanup srv true logged_out e))
              /\ cs = [Select; Search] ++ map Fetch all
                      ++ map Fetch (found srv all)
                      ++ stores mark_as_read (found srv all)
                      ++ called_tail
                      ++ fst (cleanup srv true logged_out e))).
Proof.
  set (st0 := sending st [Connect; Login]).
  destruct (search_invoices_cases st0) as (res1 & st1 & cs1 & Hs & Ha1 & Hcases).
  destruct Hcases as [(all & Hok & -> & ->)|(Hsf & [msg ->] & Hcs1)].
  2:{ assert (Hc1 : called is_close st1 = false).
      { apply (called_connected _ _ _ _ _ Ha1 eq_refl).
        destruct Hcs1 as [-> | ->]; repeat constructor. }
      assert (Hl1 : called is_logout st1 = false).
      { apply (called_connected _ _ _ _ _ Ha1 eq_refl).
        destruct Hcs1 as [-> | ->]; repeat constructor. }
      pose proof (close_and_raise_run
                    (EmailError ("Failed to search invoices: " +:+ msg)) st1)
        as Hclean.
      rewrite Hc1, Hl1 in Hclean.
      eexists _, _, _, []. split.
      { erewrite try_err; [exact Hclean|].
        unfold download_found. erewrite bind_err; [reflexivity|exact Hs]. }
      split; [exact (adds_trans _ _ _ _ _ _ _ Ha1 (adds_sending st1 _))|].
      split; [constructor|].
      left. eexists _, cs1. split; [exact Hsf|]. split; [reflexivity|].
      split; [exact Hcs1|]. split; [eexists; reflexivity|].
      split; reflexivity. }
  destruct (found srv all) as [|id ids] eqn:Hfound.
  { exists (Ok (succeeded 0 [])), st1, ([Select; Search] ++ map Fetch all), [].
    split.
    { apply try_ok. unfold download_found.
      rewrite (bind_ok _ _ _ _ _ Hs). reflexivity. }
    split; [exact Ha1|]. split; [constructor|].
    right. left. exists all. split; [exact Hok|]. repeat split; auto. }
  assert (Hne : found srv all <> []) by (rewrite Hfound; discriminate).
  destruct (download_attachments_spec srv dir (found srv all) st1)
    as (new & st2 & fs & Hdl & Ha2 & Hfs & Hnew & Hw & _).
  assert (Hmark : exists st3,
            (if mark_as_read then mark_emails_as_read srv (found srv all)
             else mret tt) st2 = (Ok tt, st3)
            /\ adds st2 st3 (stores mark_as_read (found srv all)) []).
  { destruct mark_as_read; simpl.
    - eexists. split; [apply mark_emails_as_read_run|apply adds_sending].
    - exists st2. split; [reflexivity|apply adds_refl]. }
  destruct Hmark as (st3 & Hmk & Ha3).
  set (cs3 := [Select; Search] ++ map Fetch all
              ++ map Fetch (found srv all)
              ++ stores mark_as_read (found srv all)).
  assert (Ha03 : adds st0 st3 cs3 fs).
  { pose proof (adds_trans _ _ _ _ _ _ _
                  (adds_trans _ _ _ _ _ _ _ Ha1 Ha2) Ha3) as H.
    simpl in H. rewrite !app_nil_r in H.
    rewrite <- !app_assoc in H. exact H. }
  assert (Ha : forall tail, adds st0 (sending st3 tail) (cs3 ++ tail) fs).
  { intros tail.
    pose proof (adds_trans _ _ _ _ _ _ _ Ha03 (adds_sending st3 tail)) as H.
    rewrite app_nil_r in H. exact H. }
  assert (Hquiet : forall test : command -> bool,
            test Select = false -> test Search = false ->
            (forall id, test (Fetch id) = false) ->
            (forall id, test (Store id) = false) ->
            Forall (fun c => test c = false) cs3).
  { intros test H1 H2 H3 H4. unfold cs3.
    repeat (constructor; [assumption|]).
    apply Forall_app. split; [apply quiet_map, H3|].
    apply Forall_app. split; [apply quiet_map, H3|].
    unfold stores. destruct mark_as_read; [apply quiet_map, H4|constructor]. }
  assert (Hc3 : called is_close st3 = false).
  { apply (called_connected _ _ _ _ _ Ha03 eq_refl).
    apply Hquiet; reflexivity. }
  assert (Hl3 : called is_logout st3 = false).
  { apply (called_connected _ _ _ _ _ Ha03 eq_refl).
    apply Hquiet; reflexivity. }
  assert (Hbody : download_found srv dir mark_as_read st0
                  = (_ ← mail_close srv;
                     _ ← mail_logout srv;
                     mret (succeeded (length (found srv all)) new)) st3).
  { unfold download_found. rewrite (bind_ok _ _ _ _ _ Hs).
    cbv beta iota. rewrite <- Hfound.
    rewrite (bind_ok _ _ _ _ _ Hdl), (bind_ok _ _ _ _ _ Hmk). reflexivity. }
  assert (Hclose : mail_close srv st3 = (close srv, sending st3 [Close])).
  { rewrite mail_close_run, Hc3. reflexivity. }
  assert (Hlogout : mail_logout srv (sending st3 [Close])
                    = (logout srv, sending st3 [Close; Logout])).
  { rewrite mail_logout_run, called_sending by discriminate.
    rewrite Hl3, sending_app. reflexivity. }
  destruct (close srv) as [uc|ec] eqn:Hcl.
  - destruct (logout srv) as [ul|el] eqn:Hlo.
    + exists (Ok (succeeded (length (found srv all)) new)),
        (sending st3 [Close; Logout]), (cs3 ++ [Close; Logout]), fs.
      split.
      { apply try_ok. rewrite Hbody.
        rewrite (bind_ok _ _ _ _ _ Hclose), (bind_ok _ _ _ _ _ Hlogout).
        reflexivity. }
      split; [exact (Ha [Close; Logout])|]. split; [exact Hfs|].
      right. right. left. exists all, new.
      split; [exact Hok|]. split; [exact Hne|].
      split; [eauto|]. split; [eauto|]. split; [reflexivity|].
      split; [unfold cs3; rewrite <- !app_assoc; reflexivity|].
      split; assumption.
    + pose proof (close_and_raise_run el (sending st3 [Close; Logout]))
        as Hclean.
      assert (Hc5 : called is_close (sending st3 [Close; Logout]) = true).
      { unfold called, sending. cbn [sent]. rewrite rev_app_distr.
        reflexivity. }
      assert (Hl5 : called is_logout (sending st3 [Close; Logout]) = true).
      { unfold called, sending. cbn [sent]. rewrite rev_app_distr.
        reflexivity. }
      rewrite Hc5, Hl5, sending_app in Hclean.
      eexists _, _, _, fs. split.
      { erewrite try_err; [exact Hclean|].
        rewrite Hbody, (bind_ok _ _ _ _ _ Hclose).
        erewrite bind_err; [reflexivity|exact Hlogout]. }
      split; [apply Ha|]. split; [exact Hfs|].
      right. right. right. exists all, el, true, [Close; Logout].
      split; [exact Hok|]. split; [exact Hne|].
      split; [right; eauto|]. split; [reflexivity|].
      unfold cs3. rewrite <- !app_assoc. reflexivity.
  - pose proof (close_and_raise_run ec (sending st3 [Close])) as Hclean.
    rewrite !called_sending in Hclean by discriminate.
    rewrite Hl3 in Hclean. cbn [is_close is_logout orb] in Hclean.
    rewrite sending_app in Hclean.
    eexists _, _, _, fs. split.
    { erewrite try_err; [exact Hclean|].
      rewrite Hbody. erewrite bind_err; [reflexivity|exact Hclose]. }
    split; [apply Ha|]. split; [exact Hfs|].
    right. right. right. exists all, ec, false, [Close].
    split; [exact Hok|]. split; [exact Hne|].
    split; [left; auto|]. split; [reflexivity|].
    unfold cs3. rewrite <- !app_assoc. reflexivity.
Qed.

Lemma download_invoices_analysis mark_as_read st :
  exists r st' cs fs,
    download_invoices srv dir mark_as_read st = (Ok r, st')
    /\ adds st st' cs fs
    /\ Forall (fun f => inside dir (fst f)) fs
    /\ ((exists msg,
           r = failed msg /\ fs = []
           /\ (((exists e, connect srv = Err e) /\ cs = [Connect])
               \/ ((exists u, connect srv = Ok u)
                   /\ (exists e, login srv = Err e)
                   /\ cs = [Connect; Login])))
        \/ (connected srv
            /\ exists e cs1,
                 search_fails srv /\ fs = []
                 /\ (cs1 = [Select] \/ cs1 = [Select; Search])
                 /\ (exists msg,
                       e = EmailError ("Failed to search invoices: " +:+ msg))
                 /\ r = failed (exc_msg (snd (cleanup srv false false e)))
                 /\ cs = [Connect; Login] ++ cs1
                         ++ fst (cleanup srv false false e))
        \/ (connected srv
            /\ exists all,
                 search_ok srv all /\ found srv all = []
                 /\ r = succeeded 0 [] /\ fs = []
                 /\ cs = [Connect; Login; Select; Search] ++ map Fetch all)
        \/ (connected srv
            /\ exists all new,
                 search_ok srv all /\ found srv all <> []
                 /\ (exists u, close srv = Ok u) /\ (exists u, logout srv = Ok u)
                 /\ r = succeeded (length (found srv all)) new
                 /\ cs = [Connect; Login; Select; Search] ++ map Fetch all
                         ++ map Fetch (found srv all)
                         ++ stores mark_as_read (found srv all)
                         ++ [Close; Logout]
                 /\ Forall (supported_file dir) new
                 /\ Forall (fun path =>
                      exists bytes, In (path, Attachment bytes) fs) new)
        \/ (connected srv
            /\ exists all e logged_out called_tail,
                 search_ok srv all /\ found srv all <> []
                 /\ ((close srv = Err e /\ logged_out = false
                      /\ called_tail = [Close])
                     \/ ((exists u, close srv = Ok u) /\ logout srv = Err e
                         /\ logged_out = true
                         /\ called_tail = [Close; Logout]))
                 /\ r = failed (exc_msg (snd (cleanup srv true logged_out e)))
                 /\ cs = [Connect; Login; Select; Search] ++ map Fetch all
                         ++ map Fetch (found srv all)
                         ++ stores mark_as_read (found srv all)
                         ++ called_tail
                         ++ fst (cleanup srv true logged_out e))).
Proof.
  unfold download_invoices.
  pose proof (connect_to_gmail_run srv st) as Hconnect.
  destruct (connect srv) as [u|e] eqn:Hc.
  2:{ eexists _, _, [Connect], []. split.
      { erewrite try_err; [reflexivity|].
        erewrite bind_err; [reflexivity|exact Hconnect]. }
      split; [apply adds_sending|]. split; [constructor|].
      left. eexists. split; [reflexivity|]. split; [reflexivity|].
      left. eauto. }
  destruct (login srv) as [u'|e] eqn:Hl.
  2:{ eexists _, _, [Connect; Login], []. split.
      { erewrite try_err; [reflexivity|].
        erewrite bind_err; [reflexivity|exact Hconnect]. }
      split; [apply adds_sending|]. split; [constructor|].
      left. eexists. split; [reflexivity|]. split; [reflexivity|].
      right. eauto. }
  assert (Hconn : connected srv) by (split; eauto).
  assert (Ha0 : adds st (sending st [Connect; Login]) [Connect; Login] [])
    by apply adds_sending.
  destruct (download_session_run mark_as_read st)
    as (res & st' & cs & fs & Hrun & Ha & Hfs & Hcases).
  assert (Hadds : adds st st' ([Connect; Login] ++ cs) fs)
    by exact (adds_trans _ _ _ _ _ _ _ Ha0 Ha).
  destruct Hcases as [H|[H|[H|H]]].
  - destruct H as (e & cs1 & Hsf & -> & Hcs1 & Hmsg & -> & ->).
    eexists _, st', _, []. split.
    { erewrite try_err; [reflexivity|].
      rewrite (bind_ok _ _ _ _ _ Hconnect). exact Hrun. }
    split; [exact Hadds|]. split; [constructor|].
    right. left. split; [exact Hconn|].
    exists e, cs1. split; [exact Hsf|]. split; [reflexivity|].
    split; [exact Hcs1|]. split; [exact Hmsg|]. split; reflexivity.
  - destruct H as (all & Hok & Hfound & -> & -> & ->).
    eexists _, st', _, []. split.
    { erewrite try_ok; [reflexivity|].
      rewrite (bind_ok _ _ _ _ _ Hconnect). exact Hrun. }
    split; [exact Hadds|]. split; [constructor|].
    right. right. left. split; [exact Hconn|].
    exists all. split; [exact Hok|]. repeat split; auto.
  - destruct H as (all & new & Hok & Hne & Hcl & Hlo & -> & -> & Hnew & Hw).
    eexists _, st', _, fs. split.
    { erewrite try_ok; [reflexivity|].
      rewrite (bind_ok _ _ _ _ _ Hconnect). exact Hrun. }
    split; [exact Hadds|]. split; [exact Hfs|].
    right. right. right. left. split; [exact Hconn|].
    exists all, new. split; [exact Hok|]. repeat split; auto.
  - destruct H as (all & e & lo & ct & Hok & Hne & Hcl & -> & ->).
    eexists _, st', _, fs. split.
    { erewrite try_err; [reflexivity|].
      rewrite (bind_ok _ _ _ _ _ Hconnect). exact Hrun. }
    split; [exact Hadds|]. split; [exact Hfs|].
    right. right. right. right. split; [exact Hconn|].
    exists all, e, lo, ct. split; [exact Hok|]. split; [exact Hne|].
    split; [exact Hcl|]. split; reflexivity.
Qed.

(** The dictionary returned is one of the two the method builds. *)
Lemma download_invoices_shape mark_as_read st :
  exists r st' fs,
    download_invoices srv dir mark_as_read st = (Ok r, st')
    /\ files st' = files st ++ fs
    /\ Forall (fun f => inside dir (fst f)) fs
    /\ ((exists msg, r = failed msg)
        \/ (exists n new,
              r = succeeded n new
              /\ Forall (supported_file dir) new
              /\ Forall (fun path =>
                   exists bytes, In (path, Attachment bytes) fs) new)).
Proof.
  destruct (download_invoices_analysis mark_as_read st)
    as (r & st' & cs & fs & Hrun & [_ Hfiles] & Hfs & Hcases).
  exists r, st', fs. split; [exact Hrun|]. split; [exact Hfiles|].
  split; [exact Hfs|].
  destruct Hcases as [H|[H|[H|[H|H]]]].
  - destruct H as (msg & -> & _). left. eauto.
  - destruct H as (_ & e & cs1 & _ & _ & _ & _ & -> & _). left. eauto.
  - destruct H as (_ & all & _ & _ & -> & _). right. exists 0, [].
    split; [reflexivity|]. split; constructor.
  - destruct H as (_ & all & new & _ & _ & _ & _ & -> & _ & Hnew & Hw).
    right. eauto.
  - destruct H as (_ & all & e & lo & ct & _ & _ & _ & -> & _). left. eauto.
Qed.

(** A run on a connection that opens and a search that answers. *)
Lemma download_invoices_searched mark_as_read st all :
  connected srv -> search_ok srv all ->
  exists r st' cs fs,
    download_invoices srv dir mark_as_read st = (Ok r, st')
    /\ adds st st' ([Connect; Login; Select; Search] ++ map Fetch all ++ cs) fs
    /\ ((found srv all = [] /\ r = succeeded 0 [] /\ fs = [] /\ cs = [])
        \/ (found srv all <> []
            /\ (exists u, close srv = Ok u) /\ (exists u, logout srv = Ok u)
            /\ exists new,
                 r = succeeded (length (found srv all)) new
                 /\ cs = map Fetch (found srv all)
                         ++ stores mark_as_read (found srv all)
                         ++ [Close; Logout])
        \/ (found srv all <> []
            /\ exists e logged_out called_tail,
                 ((close srv = Err e /\ logged_out = false
                   /\ called_tail = [Close])
                  \/ ((exists u, close srv = Ok u) /\ logout srv = Err e
                      /\ logged_out = true /\ called_tail = [Close; Logout]))
                 /\ r = failed (exc_msg (snd (cleanup srv true logged_out e)))
                 /\ cs = map Fetch (found srv all)
                         ++ stores mark_as_read (found srv all)
                         ++ called_tail
                         ++ fst (cleanup srv true logged_out e))).
Proof.
  intros [[uc Hc] [ul Hl]] Hok.
  destruct (download_invoices_analysis mark_as_read st)
    as (r & st' & cs & fs & Hrun & Ha & Hfs & Hcases).
  destruct Hcases as [H|[H|[H|[H|H]]]].
  - destruct H as (msg & _ & _ & [[[e He] _]|(_ & [e He] & _)]); congruence.
  - destruct H as (_ & e & cs1 & Hsf & _).
    destruct (search_ok_not_fails all Hok Hsf).
  - destruct H as (_ & all' & Hok' & Hfound & -> & -> & ->).
    rewrite <- (search_ok_unique _ _ Hok Hok') in *.
    exists (succeeded 0 []), st', [], []. split; [exact Hrun|].
    split; [rewrite app_nil_r; exact Ha|]. left. auto.
  - destruct H as (_ & all' & new & Hok' & Hne & Hcl & Hlo & -> & -> & _).
    rewrite <- (search_ok_unique _ _ Hok Hok') in *.
    eexists _, st', _, fs. split; [exact Hrun|]. split; [exact Ha|].
    right. left. split; [exact Hne|]. split; [exact Hcl|].
    split; [exact Hlo|]. exists new. split; reflexivity.
  - destruct H as (_ & all' & e & lo & ct & Hok' & Hne & Hcl & -> & ->).
    rewrite <- (search_ok_unique _ _ Hok Hok') in *.
    eexists _, st', _, fs. split; [exact Hrun|]. split; [exact Ha|].
    right. right. split; [exact Hne|]. exists e, lo, ct.
    split; [exact Hcl|]. split; reflexivity.
Qed.

Lemma test_connection_run st :
  test_connection srv st
  = match connect srv with
    | Err _ => (Ok false, sending st [Connect])
    | Ok _ =>
        match login srv with
        | Err _ => (Ok false, sending st [Connect; Login])
        | Ok _ =>
            match close srv with
            | Err _ => (Ok false, sending st [Connect; Login; Close])
            | Ok _ =>
                match logout srv with
                | Err _ =>
                    (Ok false, sending st [Connect; Login; Close; Logout])
                | Ok _ =>
                    (Ok true, sending st [Connect; Login; Close; Logout])
                end
            end
        end
    end.
Proof.
  unfold test_connection.
  pose proof (connect_to_gmail_run srv st) as Hconnect.
  destruct (connect srv) as [u|e].
  2:{ erewrite try_err; [reflexivity|].
      erewrite bind_err; [reflexivity|exact Hconnect]. }
  destruct (login srv) as [u1|e].
  2:{ erewrite try_err; [reflexivity|].
      erewrite bind_err; [reflexivity|exact Hconnect]. }
  assert (Hclose : mail_close srv (sending st [Connect; Login])
                   = (close srv, sending st [Connect; Login; Close])).
  { rewrite mail_close_run.
    rewrite (called_fresh is_close (sending st [Connect; Login]) (sent st)
               [Login] eq_refl)
      by repeat constructor.
    rewrite sending_app. reflexivity. }
  assert (Hlogout : mail_logout srv (sending st [Connect; Login; Close])
                    = (logout srv, sending st [Connect; Login; Close; Logout])).
  { rewrite mail_logout_run.
    rewrite (called_fresh is_logout (sending st [Connect; Login; Close])
               (sent st) [Login; Close] eq_refl)
      by repeat constructor.
    rewrite sending_app. reflexivity. }
  destruct (close srv) as [u2|e].
  2:{ erewrite try_err; [reflexivity|].
      rewrite (bind_ok _ _ _ _ _ Hconnect).
      erewrite bind_err; [reflexivity|exact Hclose]. }
  destruct (logout srv) as [u3|e].
  2:{ erewrite try_err; [reflexivity|].
      rewrite (bind_ok _ _ _ _ _ Hconnect), (bind_ok _ _ _ _ _ Hclose).
      erewrite bind_err; [reflexivity|exact Hlogout]. }
  erewrite try_ok; [reflexivity|].
  rewrite (bind_ok _ _ _ _ _ Hconnect), (bind_ok _ _ _ _ _ Hclose),
    (bind_ok _ _ _ _ _ Hlogout).
  reflexivity.
Qed.

(** A run whose search step raises, on a connection that closes. *)
Lemma download_invoices_search_fails mark_as_read st :
  connected srv -> search_fails srv ->
  (exists u, close srv = Ok u) -> (exists u, logout srv = Ok u) ->
  exists msg cs1 st',
    download_invoices srv dir mark_as_read st
    = (Ok (failed ("Failed to search invoices: " +:+ msg)), st')
    /\ adds st st' ([Connect; Login] ++ cs1 ++ [Close; Logout]) []
    /\ (cs1 = [Select] \/ cs1 = [Select; Search]).
Proof.
  intros [[uc Hc] [ul Hl]] Hsf [u1 Hclose] [u2 Hlogout].
  destruct (download_invoices_analysis mark_as_read st)
    as (r & st' & cs & fs & Hrun & Ha & Hfs & Hcases).
  destruct Hcases as [H|[H|[H|[H|H]]]].
  - destruct H as (msg & _ & _ & [[[e He] _]|(_ & [e He] & _)]); congruence.
  - destruct H as (_ & e & cs1 & _ & -> & Hcs1 & [msg ->] & -> & ->).
    unfold cleanup in *. rewrite Hclose, Hlogout in *. simpl in *.
    exists msg, cs1, st'. split; [exact Hrun|]. split; [exact Ha|exact Hcs1].
  - destruct H as (_ & all & Hok & _).
    destruct (search_ok_not_fails all Hok Hsf).
  - destruct H as (_ & all & new & Hok & _).
    destruct (search_ok_not_fails all Hok Hsf).
  - destruct H as (_ & all & e & lo & ct & Hok & _).
    destruct (search_ok_not_fails all Hok Hsf).
Qed.

(** A run whose connection or login fails. *)
Lemma download_invoices_not_connected mark_as_read st e :
  (connect srv = Err e \/ ((exists u, connect srv = Ok u) /\ login srv = Err e)) ->
  exists cs,
    download_invoices srv dir mark_as_read st
    = (Ok (failed ("Gmail connection failed: " +:+ exc_msg e)), sending st cs)
    /\ (connect srv = Err e -> cs = [Connect])
    /\ ((exists u, connect srv = Ok u) -> cs = [Connect; Login]).
Proof.
  intros H.
  pose proof (connect_to_gmail_run srv st) as Hconnect.
  destruct H as [Hc|[[u Hc] Hl]].
  - rewrite Hc in Hconnect. exists [Connect]. split; [|split].
    + unfold download_invoices.
      erewrite try_err; [|erewrite bind_err; [reflexivity|exact Hconnect]].
      reflexivity.
    + reflexivity.
    + intros [u Hu]. congruence.
  - rewrite Hc, Hl in Hconnect. exists [Connect; Login]. split; [|split].
    + unfold download_invoices.
      erewrite try_err; [|erewrite bind_err; [reflexivity|exact Hconnect]].
      reflexivity.
    + intros Hc'. congruence.
    + reflexivity.
Qed.

Lemma disk_app_other (l fs : list (string * content)) (path : string) :
  Forall (fun f => fst f <> path) fs ->
  disk (l ++ fs) !! path = disk l !! path.
Proof.
  unfold disk. rewrite fold_left_app.
  generalize (fold_left (fun d f => <[fst f := snd f]> d) l
                (∅ : gmap string content)).
  induction fs as [|f fs IH]; intros d H; [reflexivity|].
  inversion H as [|? ? Hf Hfs]; subst. simpl.
  rewrite IH by exact Hfs. apply lookup_insert_ne. exact Hf.
Qed.

End InvoiceRuns.

(** ** What a run of the downloader returns *)

Import Gmail GmailSpec GmailCases.

(** X11. [download_invoices] never raises: for every server, directory,
    flag and state it returns a dictionary. In it [files_downloaded] is
    the length of [downloaded_files]; a successful one has no [error]
    key; a failed one has an [error], [emails_found] zero and no
    downloaded file. *)
Theorem download_invoices_never_raises (srv : server) (input_dir : string)
    (mark_as_read : bool) (st : state) :
  exists r st',
    download_invoices srv input_dir mark_as_read st = (Ok r, st')
    /\ files_downloaded r = length (downloaded_files r)
    /\ (success r = true -> error r = None)
    /\ (success r = false ->
        error r <> None /\ emails_found r = 0 /\ downloaded_files r = []).
Proof.
  destruct (download_invoices_shape srv input_dir mark_as_read st)
    as (r & st' & fs & Hrun & _ & _ & [[msg ->]|(n & new & -> & _)]).
  - exists (failed msg), st'. split; [exact Hrun|]. simpl.
    split; [reflexivity|]. split; [discriminate|].
    intros _. split; [discriminate|]. split; reflexivity.
  - exists (succeeded n new), st'. split; [exact Hrun|]. simpl.
    split; [reflexivity|]. split; [reflexivity|]. discriminate.
Qed.

Lemma download_invoices_never_raises_witness :
  exists r st',
    download_invoices GmailSample.locked "/data/input" true GmailSample.start
    = (Ok r, st')
    /\ error r <> None /\ downloaded_files r = [].
Proof.
  destruct (download_invoices_never_raises GmailSample.locked "/data/input"
              true GmailSample.start) as (r & st' & Hrun & _ & _ & Hfail).
  exists r, st'. split; [exact Hrun|].
  assert (Hs : success r = false).
  { vm_compute in Hrun. injection Hrun as <- _. reflexivity. }
  destruct (Hfail Hs) as (He & _ & Hd). split; assumption.
Defined.

(** X12. Whatever the mails contain, every write of a run of
    [download_invoices], of an attachment or of a metadata file, goes to
    a path directly inside the input directory, under a name that has no
    slash and is not empty, [.] or [..]: no subject and no attachment
    file name leads out of it. A write may replace a file of the same
    name in the input directory; every path that is not directly inside
    it holds after the run what it held before. *)
Theorem downloads_stay_in_input_dir (srv : server) (input_dir : string)
    (mark_as_read : bool) (st : state) :
  exists fs,
    files (snd (download_invoices srv input_dir mark_as_read st))
    = files st ++ fs
    /\ Forall (fun f => inside input_dir (fst f)) fs
    /\ (forall path,
          ~ inside input_dir path ->
          disk (files st ++ fs) !! path = disk (files st) !! path).
Proof.
  destruct (download_invoices_shape srv input_dir mark_as_read st)
    as (r & st' & fs & Hrun & Hfiles & Hfs & _).
  exists fs. rewrite Hrun. split; [exact Hfiles|]. split; [exact Hfs|].
  intros path Hout. apply disk_app_other.
  eapply Forall_impl; [exact Hfs|].
  intros f Hin Heq. apply Hout. rewrite <- Heq. exact Hin.
Qed.

Lemma downloads_stay_in_input_dir_witness :
  disk (files (snd (download_invoices GmailSample.srv "/data/input" true
                      {| sent := [];
                         files := [("/data/output/report.xlsx",
                                    Attachment "old")];
                         clock_reads := 0 |})))
    !! "/data/output/report.xlsx"
  = Some (Attachment "old").
Proof.
  destruct (downloads_stay_in_input_dir GmailSample.srv "/data/input" true
              {| sent := [];
                 files := [("/data/output/report.xlsx", Attachment "old")];
                 clock_reads := 0 |})
    as (fs & -> & _ & Hkept).
  rewrite Hkept; [reflexivity|].
  intros (name & Heq & _). discriminate Heq.
Defined.

(** X13. Every path in [downloaded_files] of the dictionary returned
    is a file directly inside the input directory whose name ends with
    one of the supported extensions, and the run has written the
    payload of an attachment to it. *)
Theorem reported_files_were_written (srv : server) (input_dir : string)
    (mark_as_read : bool) (st : state) (r : download_result) (st' : state) :
  download_invoices srv input_dir mark_as_read st = (Ok r, st') ->
  exists fs,
    files st' = files st ++ fs
    /\ Forall (fun path =>
         supported_file input_dir path
         /\ exists bytes, In (path, Attachment bytes) fs)
       (downloaded_files r).
Proof.
  intros Hrun.
  destruct (download_invoices_shape srv input_dir mark_as_read st)
    as (r0 & st0 & fs & Hrun0 & Hfiles & _ & Hshape).
  rewrite Hrun in Hrun0. injection Hrun0 as <- <-.
  exists fs. split; [exact Hfiles|].
  destruct Hshape as [[msg ->]|(n & new & -> & Hnew & Hw)].
  - constructor.
  - simpl. apply Forall_and. split; assumption.
Qed.

Lemma reported_files_were_written_witness :
  exists r st',
    download_invoices GmailSample.srv "/data/input" true GmailSample.start
    = (Ok r, st')
    /\ downloaded_files r
       = ["/data/input/Invoice-42-MarchApril_Report_20240506_070801.pdf";
          "/data/input/Unknown_scan_20240506_070804.pdf"]
    /\ Forall (fun path =>
         supported_file "/data/input" path
         /\ exists bytes, In (path, Attachment bytes) (files st'))
       (downloaded_files r).
Proof.
  destruct (download_invoices_shape GmailSample.srv "/data/input" true
              GmailSample.start) as (r & st' & fs0 & Hrun & _).
  destruct (reported_files_were_written _ _ _ _ _ _ Hrun)
    as (fs & Hfiles & Hall).
  exists r, st'. split; [exact Hrun|]. split.
  - vm_compute in Hrun. injection Hrun as <- _. reflexivity.
  - simpl in Hfiles. rewrite Hfiles. exact Hall.
Defined.

(** X14. [search_invoices] returns the identifiers the server gave
    that it selects, in the server's order: those whose fetch answers
    [OK], whose subject is a [str], and whose subject has a keyword or
    which have a supported attachment. A mail whose fetch fails, or
    whose subject is a [Header] object, on which [lower] raises, is left
    out, whatever its attachments, and does not fail the search.
    [search_invoices] fetches every identifier once and writes no file;
    when it raises, it raises an [EmailError] whose message starts with
    [Failed to search invoices: ], having fetched nothing. *)
Theorem search_invoices_selects (srv : server) (st : state)
    (res : outcome (list string)) (st' : state) :
  search_invoices srv st = (res, st') ->
  files st' = files st
  /\ match res with
     | Ok email_ids =>
         exists all,
           search_ok srv all
           /\ email_ids = List.filter (selected srv) all
           /\ sent st' = sent st ++ [Select; Search] ++ map Fetch all
           /\ (forall email_id,
                 In email_id email_ids ->
                 exists data,
                   fetch srv email_id = Ok ("OK", data)
                   /\ subject_is_header data = false
                   /\ (is_invoice_email (parsed data) = true
                       \/ _has_supported_attachments (parts (parsed data))
                          = true))
           /\ (forall email_id status data,
                 fetch srv email_id = Ok (status, data) ->
                 subject_is_header data = true ->
                 ~ In email_id email_ids)
     | Err e =>
         search_fails srv
         /\ (exists msg,
               e = EmailError ("Failed to search invoices: " +:+ msg))
         /\ (sent st' = sent st ++ [Select]
             \/ sent st' = sent st ++ [Select; Search])
     end.
Proof.
  intros Hrun.
  destruct (search_invoices_cases srv st)
    as (res0 & st0 & cs & Hrun0 & [Hsent Hfiles] & Hcases).
  rewrite Hrun in Hrun0. injection Hrun0 as <- <-.
  split; [rewrite Hfiles; apply app_nil_r|].
  destruct Hcases as [(all & Hok & -> & ->)|(Hsf & [msg ->] & Hcs)].
  - exists all. split; [exact Hok|]. split; [reflexivity|].
    split; [exact Hsent|]. unfold found. split.
    + intros email_id Hin. apply filter_In in Hin as [_ Hsel].
      unfold selected in Hsel.
      destruct (fetch srv email_id) as [[status data]|e]; [|discriminate].
      apply andb_true_iff in Hsel as [Hsel Hany].
      apply andb_true_iff in Hsel as [Hstatus Hstr].
      apply String.eqb_eq in Hstatus. subst status.
      exists data. split; [reflexivity|].
      split; [apply negb_true_iff, Hstr|].
      apply orb_true_iff, Hany.
    + intros email_id status data Hfetch Hheader Hin.
      apply filter_In in Hin as [_ Hsel].
      unfold selected in Hsel. rewrite Hfetch, Hheader in Hsel.
      rewrite andb_false_r in Hsel. discriminate.
  - split; [exact Hsf|]. split; [exists msg; reflexivity|].
    destruct Hcs as [-> | ->]; [left|right]; exact Hsent.
Qed.

Lemma search_invoices_selects_witness :
  exists st',
    search_invoices GmailSample.accented GmailSample.start = (Ok ["1"], st')
    /\ sent st' = [Select; Search; Fetch "1"; Fetch "5"]
    /\ _has_supported_attachments (parts GmailSample.facture) = true.
Proof.
  destruct (search_invoices_cases GmailSample.accented GmailSample.start)
    as (res & st' & cs & Hrun & _).
  destruct (search_invoices_selects _ _ _ _ Hrun) as [_ H].
  assert (Hres : exists email_ids, res = Ok email_ids).
  { vm_compute in Hrun. injection Hrun as <- _. eexists. reflexivity. }
  destruct Hres as [email_ids ->].
  destruct H as (all & [_ Hall] & -> & Hsent & _ & Hskip).
  injection Hall as <-.
  exists st'. split; [|split; [exact Hsent|reflexivity]].
  rewrite Hrun. reflexivity.
Defined.

(** X15. When the search selects no mail, [download_invoices] returns
    the successful dictionary with zero mails and no file, and leaves
    the connection as it is: after the fetches of the search it sends
    nothing, neither [close] nor [logout], and it writes no file. *)
Theorem nothing_found_leaves_connection_open (srv : server)
    (input_dir : string) (mark_as_read : bool) (st : state)
    (all : list string) :
  connected srv -> search_ok srv all -> found srv all = [] ->
  exists st',
    download_invoices srv input_dir mark_as_read st
    = (Ok (succeeded 0 []), st')
    /\ sent st' = sent st ++ [Connect; Login; Select; Search] ++ map Fetch all
    /\ files st' = files st
    /\ (forall c, In c ([Connect; Login; Select; Search] ++ map Fetch all) ->
                  c <> Close /\ c <> Logout).
Proof.
  intros Hconn Hok Hfound.
  destruct (download_invoices_searched srv input_dir mark_as_read st all
              Hconn Hok)
    as (r & st' & cs & fs & Hrun & [Hsent Hfiles] & Hcases).
  destruct Hcases as [(_ & -> & -> & ->)|[(Hne & _)|(Hne & _)]];
    [|contradiction|contradiction].
  exists st'. split; [exact Hrun|].
  split; [rewrite Hsent, app_nil_r; reflexivity|].
  split; [rewrite Hfiles; apply app_nil_r|].
  intros c Hin. simpl in Hin.
  destruct Hin as [<-|[<-|[<-|[<-|Hin]]]];
    try (split; discriminate).
  apply in_map_iff in Hin. destruct Hin as (x & <- & _). split; discriminate.
Qed.

Lemma nothing_found_leaves_connection_open_witness :
  exists st',
    download_invoices GmailSample.quiet "/data/input" true GmailSample.start
    = (Ok (succeeded 0 []), st')
    /\ sent st' = [Connect; Login; Select; Search].
Proof.
  destruct (nothing_found_leaves_connection_open GmailSample.quiet
              "/data/input" true GmailSample.start [])
    as (st' & Hrun & Hsent & _).
  - split; eexists; reflexivity.
  - split; [eexists|]; reflexivity.
  - reflexivity.
  - exists st'. split; [exact Hrun|exact Hsent].
Defined.

(** X16. The commands of a run that finds mails and closes: connect,
    login, select, search, one fetch for every identifier the server
    gave, a second fetch for every selected one, one store for every
    selected one when [mark_as_read] is set and none otherwise, then
    close and logout, in this order and nothing else. The dictionary is
    the successful one and [emails_found] counts the selected mails,
    whether or not they gave a file. *)
Theorem full_run_commands (srv : server) (input_dir : string)
    (mark_as_read : bool) (st : state) (all : list string) :
  connected srv -> search_ok srv all -> found srv all <> [] ->
  (exists u, close srv = Ok u) -> (exists u, logout srv = Ok u) ->
  exists new st',
    download_invoices srv input_dir mark_as_read st
    = (Ok (succeeded (length (found srv all)) new), st')
    /\ sent st'
       = sent st ++ [Connect; Login; Select; Search] ++ map Fetch all
         ++ map Fetch (found srv all)
         ++ (if mark_as_read then map Store (found srv all) else [])
         ++ [Close; Logout].
Proof.
  intros Hconn Hok Hne [u1 Hclose] [u2 Hlogout].
  destruct (download_invoices_searched srv input_dir mark_as_read st all
              Hconn Hok)
    as (r & st' & cs & fs & Hrun & [Hsent Hfiles] & Hcases).
  destruct Hcases as [(Hfound & _)|[H|H]]; [contradiction| |].
  - destruct H as (_ & _ & _ & new & -> & ->).
    exists new, st'. split; [exact Hrun|exact Hsent].
  - destruct H as (_ & e & lo & ct & [(Hc & _)|(_ & Hl & _)] & _);
      congruence.
Qed.

Lemma full_run_commands_witness :
  exists new st',
    download_invoices GmailSample.srv "/data/input" true GmailSample.start
    = (Ok (succeeded 2 new), st')
    /\ sent st'
       = [Connect; Login; Select; Search;
          Fetch "1"; Fetch "2"; Fetch "3"; Fetch "4";
          Fetch "1"; Fetch "4"; Store "1"; Store "4"; Close; Logout].
Proof.
  destruct (full_run_commands GmailSample.srv "/data/input" true
              GmailSample.start ["1"; "2"; "3"; "4"])
    as (new & st' & Hrun & Hsent).
  - split; eexists; reflexivity.
  - split; [eexists|]; reflexivity.
  - vm_compute. discriminate.
  - eexists; reflexivity.
  - eexists; reflexivity.
  - exists new, st'. split; [exact Hrun|]. rewrite Hsent. reflexivity.
Defined.

(** X17. When mails were found and the final [close] or [logout]
    raises, the handler calls [close] a second time. When this second
    [close] raises, as imaplib's does on a connection that has left the
    state [SELECTED], the handler's [logout] is not reached and the
    dictionary returned is the failed one with the text of the second
    [close]'s exception, not of the first one: it counts no mail and
    names no downloaded file, though the fetches, the writes and the
    stores of the run have taken place. *)
Theorem cleanup_failure_hides_files (srv : server) (input_dir : string)
    (mark_as_read : bool) (st : state) (all : list string) (e e2 : exc)
    (tail : list command) :
  connected srv -> search_ok srv all -> found srv all <> [] ->
  (close srv = Err e /\ tail = [Close; Close])
  \/ ((exists u, close srv = Ok u) /\ logout srv = Err e
      /\ tail = [Close; Logout; Close]) ->
  close_again srv = Err e2 ->
  exists st',
    download_invoices srv input_dir mark_as_read st
    = (Ok (failed (exc_msg e2)), st')
    /\ sent st'
       = sent st ++ [Connect; Login; Select; Search] ++ map Fetch all
         ++ map Fetch (found srv all)
         ++ (if mark_as_read then map Store (found srv all) else [])
         ++ tail.
Proof.
  intros Hconn Hok Hne Hfail Hagain.
  destruct (download_invoices_searched srv input_dir mark_as_read st all
              Hconn Hok)
    as (r & st' & cs & fs & Hrun & [Hsent Hfiles] & Hcases).
  destruct Hcases as [(Hfound & _)|[H|H]]; [contradiction| |].
  - destruct H as (_ & [u1 Hclose] & [u2 Hlogout] & _).
    destruct Hfail as [[Hc _]|(_ & Hl & _)]; congruence.
  - destruct H as (_ & e0 & lo & ct & Hfail0 & -> & ->).
    assert (Hclean : cleanup srv true lo e0 = ([Close], e2)).
    { unfold cleanup. rewrite Hagain. reflexivity. }
    rewrite Hclean in Hrun, Hsent. cbn [fst snd] in Hrun, Hsent.
    assert (Htail : ct ++ [Close] = tail).
    { destruct Hfail as [[Hc ->]|([u Hc] & Hl & ->)];
        destruct Hfail0 as [(Hc0 & _ & ->)|([u0 Hc0] & Hl0 & _ & ->)];
        try congruence; reflexivity. }
    rewrite <- Htail.
    exists st'. split; [exact Hrun|exact Hsent].
Qed.

Lemma cleanup_failure_hides_files_witness :
  exists st',
    download_invoices GmailSample.stuck "/data/input" false GmailSample.start
    = (Ok (failed "command CLOSE illegal in state AUTH"), st')
    /\ sent st'
       = [Connect; Login; Select; Search;
          Fetch "1"; Fetch "2"; Fetch "3"; Fetch "4";
          Fetch "1"; Fetch "4"; Close; Close]
    /\ files st' <> [].
Proof.
  destruct (cleanup_failure_hides_files GmailSample.stuck "/data/input" false
              GmailSample.start ["1"; "2"; "3"; "4"]
              (OtherError "socket error: EOF")
              (OtherError "command CLOSE illegal in state AUTH")
              [Close; Close])
    as (st' & Hrun & Hsent).
  - split; eexists; reflexivity.
  - split; [eexists|]; reflexivity.
  - vm_compute. discriminate.
  - left. split; reflexivity.
  - reflexivity.
  - exists st'. split; [exact Hrun|]. split; [rewrite Hsent; reflexivity|].
    vm_compute in Hrun. injection Hrun as <-. discriminate.
Defined.

(** X18. [mark_emails_as_read] never raises and sends one store for
    every identifier of its list, in the order of the list, also after
    a store has failed; it writes no file. *)
Theorem mark_emails_as_read_all (srv : server) (email_ids : list string)
    (st : state) :
  exists st',
    mark_emails_as_read srv email_ids st = (Ok tt, st')
    /\ sent st' = sent st ++ map Store email_ids
    /\ files st' = files st.
Proof.
  exists (sending st (map Store email_ids)).
  split; [apply mark_emails_as_read_run|]. split; reflexivity.
Qed.

(** X19. [_download_email_attachments] never raises and sends no
    command. It returns at most one path for every part that the test
    of [_has_supported_attachments] accepts; when that test fails on the
    mail it returns no path and writes no file; and when every file can
    be written and every accepted part has a payload, it returns exactly
    one path for each accepted part. *)
Theorem attachments_bounded (srv : server) (input_dir : string)
    (email_message : message) (subject from_email date : string)
    (st : state) :
  exists new st',
    _download_email_attachments srv input_dir email_message subject
      from_email date st = (Ok new, st')
    /\ sent st' = sent st
    /\ length new <= length (List.filter supported_part (parts email_message))
    /\ (_has_supported_attachments (parts email_message) = false ->
        new = [] /\ files st' = files st)
    /\ ((forall path, exists u, can_write srv path = Ok u) ->
        Forall (fun p => supported_part p = true -> payload p <> None)
          (parts email_message) ->
        length new = length (List.filter supported_part (parts email_message))).
Proof.
  destruct (download_email_attachments_spec srv input_dir email_message subject
              from_email date st)
    as (new & st' & fs & Hrun & [Hsent Hfiles] & _ & _ & _ & Hle & Heq & Hnone).
  exists new, st'. split; [exact Hrun|].
  split; [rewrite Hsent; apply app_nil_r|]. split; [exact Hle|].
  split; [|exact Heq].
  intros Hno. rewrite has_supported_existsb in Hno.
  destruct (Hnone Hno) as [-> ->]. split; [reflexivity|].
  rewrite Hfiles. apply app_nil_r.
Qed.

Lemma attachments_bounded_witness :
  exists st',
    _download_email_attachments GmailSample.srv "/data/input"
      GmailSample.greeting "Hello" "Unknown" "Unknown" GmailSample.start
    = (Ok [], st')
    /\ files st' = [].
Proof.
  destruct (attachments_bounded GmailSample.srv "/data/input"
              GmailSample.greeting "Hello" "Unknown" "Unknown"
              GmailSample.start)
    as (new & st' & Hrun & _ & _ & Hnone & _).
  destruct (Hnone eq_refl) as [-> Hfiles].
  exists st'. split; [exact Hrun|exact Hfiles].
Defined.

(** X20. [test_connection] never raises and writes no file. It returns
    [True] exactly when the connection, the login, the close and the
    logout all succeed, and then it has sent these four commands; when
    the login fails it returns [False] with the connection left open. *)
Theorem test_connection_true_iff (srv : server) (st : state) :
  exists b st',
    test_connection srv st = (Ok b, st')
    /\ files st' = files st
    /\ (b = true <->
        (exists u, connect srv = Ok u) /\ (exists u, login srv = Ok u)
        /\ (exists u, close srv = Ok u) /\ (exists u, logout srv = Ok u))
    /\ (b = true -> sent st' = sent st ++ [Connect; Login; Close; Logout])
    /\ ((exists u, connect srv = Ok u) -> (exists e, login srv = Err e) ->
        b = false /\ sent st' = sent st ++ [Connect; Login]).
Proof.
  rewrite test_connection_run.
  destruct (connect srv) as [u1|e1].
  2:{ eexists _, _. split; [reflexivity|]. split; [reflexivity|].
      split; [|split].
      - split; [discriminate|]. intros ([u Hu] & _). discriminate.
      - discriminate.
      - intros [u Hu]. discriminate. }
  destruct (login srv) as [u2|e2].
  2:{ eexists _, _. split; [reflexivity|]. split; [reflexivity|].
      split; [|split].
      - split; [discriminate|]. intros (_ & [u Hu] & _). discriminate.
      - discriminate.
      - intros _ _. split; reflexivity. }
  destruct (close srv) as [u3|e3].
  2:{ eexists _, _. split; [reflexivity|]. split; [reflexivity|].
      split; [|split].
      - split; [discriminate|]. intros (_ & _ & [u Hu] & _). discriminate.
      - discriminate.
      - intros _ [e He]. discriminate. }
  destruct (logout srv) as [u4|e4].
  2:{ eexists _, _. split; [reflexivity|]. split; [reflexivity|].
      split; [|split].
      - split; [discriminate|]. intros (_ & _ & _ & [u Hu]). discriminate.
      - discriminate.
      - intros _ [e He]. discriminate. }
  eexists _, _. split; [reflexivity|]. split; [reflexivity|].
  split; [|split].
  - split; [|reflexivity]. intros _. repeat split; eexists; reflexivity.
  - intros _. reflexivity.
  - intros _ [e He]. discriminate.
Qed.

Lemma test_connection_true_iff_witness :
  exists st',
    test_connection GmailSample.locked GmailSample.start = (Ok false, st')
    /\ sent st' = [Connect; Login].
Proof.
  destruct (test_connection_true_iff GmailSample.locked GmailSample.start)
    as (b & st' & Hrun & _ & _ & _ & Hlogin).
  destruct Hlogin as [-> Hsent]; [eexists; reflexivity..|].
  exists st'. split; [exact Hrun|exact Hsent].
Defined.

(** X21. When the connection or the login raises, [download_invoices]
    returns the failed dictionary whose [error] is [Gmail connection
    failed: ] followed by the text of the exception; it has sent the
    connect, and the login when the connection was made, and nothing
    else: no close, no logout. It writes no file. *)
Theorem connection_failure_report (srv : server) (input_dir : string)
    (mark_as_read : bool) (st : state) (e : exc) :
  connect srv = Err e
  \/ ((exists u, connect srv = Ok u) /\ login srv = Err e) ->
  exists st',
    download_invoices srv input_dir mark_as_read st
    = (Ok (failed ("Gmail connection failed: " +:+ exc_msg e)), st')
    /\ files st' = files st
    /\ (connect srv = Err e -> sent st' = sent st ++ [Connect])
    /\ ((exists u, connect srv = Ok u) ->
        sent st' = sent st ++ [Connect; Login]).
Proof.
  intros H.
  destruct (download_invoices_not_connected srv input_dir mark_as_read st e H)
    as (cs & Hrun & Hc & Hl).
  exists (sending st cs). split; [exact Hrun|]. split; [reflexivity|].
  split.
  - intros Hc'. rewrite (Hc Hc'). reflexivity.
  - intros Hc'. rewrite (Hl Hc'). reflexivity.
Qed.

Lemma connection_failure_report_witness :
  exists st',
    download_invoices GmailSample.locked "/data/input" true GmailSample.start
    = (Ok (failed "Gmail connection failed: AUTHENTICATIONFAILED"), st')
    /\ sent st' = [Connect; Login].
Proof.
  destruct (connection_failure_report GmailSample.locked "/data/input" true
              GmailSample.start (OtherError "AUTHENTICATIONFAILED"))
    as (st' & Hrun & _ & _ & Hsent).
  - right. split; [eexists|]; reflexivity.
  - exists st'. split; [exact Hrun|]. apply Hsent. eexists; reflexivity.
Defined.

(** X22. When the search step raises and the connection closes,
    [download_invoices] closes and logs out once and returns the failed
    dictionary whose [error] starts with [Failed to search invoices: ];
    no mail was fetched or stored and no file written. *)
Theorem search_failure_report (srv : server) (input_dir : string)
    (mark_as_read : bool) (st : state) :
  connected srv -> search_fails srv ->
  (exists u, close srv = Ok u) -> (exists u, logout srv = Ok u) ->
  exists msg cs1 st',
    download_invoices srv input_dir mark_as_read st
    = (Ok (failed ("Failed to search invoices: " +:+ msg)), st')
    /\ sent st' = sent st ++ [Connect; Login] ++ cs1 ++ [Close; Logout]
    /\ (cs1 = [Select] \/ cs1 = [Select; Search])
    /\ files st' = files st.
Proof.
  intros Hconn Hsf Hclose Hlogout.
  destruct (download_invoices_search_fails srv input_dir mark_as_read st
              Hconn Hsf Hclose Hlogout)
    as (msg & cs1 & st' & Hrun & [Hsent Hfiles] & Hcs1).
  exists msg, cs1, st'. split; [exact Hrun|]. split; [exact Hsent|].
  split; [exact Hcs1|]. rewrite Hfiles. apply app_nil_r.
Qed.

Lemma search_failure_report_witness :
  exists st',
    download_invoices GmailSample.no_inbox "/data/input" true GmailSample.start
    = (Ok (failed "Failed to search invoices: SELECT failed"), st')
    /\ sent st' = [Connect; Login; Select; Close; Logout].
Proof.
  destruct (search_failure_report GmailSample.no_inbox "/data/input" true
              GmailSample.start)
    as (msg & cs1 & st' & Hrun & Hsent & _ & _).
  - split; eexists; reflexivity.
  - left. eexists. reflexivity.
  - eexists; reflexivity.
  - eexists; reflexivity.
  - exists st'. vm_compute in Hrun. injection Hrun as Hmsg <-.
    split; reflexivity.
Defined.

(** X23. The downloader and its caller together. The call of
    [download_invoices] in [download_invoices_from_gmail] always
    returns a dictionary, so the [except] branch around it is never
    taken; the list handed on to the processing is the [downloaded_files]
    of the dictionary, also when [success] is false; and each of its
    paths is a file directly inside the downloader's input directory
    with a supported extension, which need not be [.pdf]. *)
Theorem main_receives_supported_files (srv : server) (input_dir : string)
    (st : state) (w : world) :
  exists r,
    downloader_call srv input_dir st = Returned r
    /\ fst (download_invoices_from_gmail (downloader_call srv input_dir st) w)
       = Ret (downloaded_files r)
    /\ Forall (supported_file input_dir) (downloaded_files r)
    /\ (success r = false -> downloaded_files r = []).
Proof.
  destruct (download_invoices_shape srv input_dir true st)
    as (r & st' & fs & Hrun & _ & _ & Hshape).
  destruct (download_invoices_from_gmail_run (downloader_call srv input_dir st) w)
    as [evs Hmain].
  rewrite Hmain. unfold downloader_call. rewrite Hrun. simpl.
  exists r. split; [reflexivity|].
  destruct Hshape as [[msg ->]|(n & new & -> & Hnew & _)]; simpl.
  - split; [reflexivity|]. split; [constructor|reflexivity].
  - split; [reflexivity|]. split; [exact Hnew|discriminate].
Qed.

Lemma main_receives_supported_files_witness :
  fst (download_invoices_from_gmail
         (downloader_call GmailSample.locked "/data/input" GmailSample.start)
         sample_world)
  = Ret [].
Proof.
  destruct (main_receives_supported_files GmailSample.locked "/data/input"
              GmailSample.start sample_world)
    as (r & Hcall & Hmain & _ & Hfail).
  rewrite Hmain. f_equal. apply Hfail.
  vm_compute in Hcall. injection Hcall as <-. reflexivity.
Defined.
